(** * The LADSPA plugin adapter of libs/ardour/ladspa_plugin.cc

    A shallow embedding of [LadspaPlugin]: the default-value resolver, the
    parameter store with its shadow and live arrays, the processing call with
    its buffer routing, the latency probe and the state (de)serialiser,
    followed by the properties the specification states about them. *)

From Stdlib Require Import ZArith List String Bool Lia.
From Stdlib Require Import Floats.SpecFloat.
From stdpp Require Import base list.
Import ListNotations.

Local Open Scope nat_scope.

(** ** Single precision values

    [LADSPA_Data] is C's [float].  It is modelled as IEEE-754 binary32 on top
    of the parameterised operations of [SpecFloat] (24 bits of precision,
    exponent bound 128), rounding to nearest even. *)
Module F32.

Definition prec : Z := 24.
Definition emax : Z := 128.

Definition t := spec_float.

Definition zero : t := S754_zero false.
Definition neg_zero : t := S754_zero true.
Definition nan : t := S754_nan.

(** Conversion of an integer, and of [m * 2^e], to the nearest float. *)
Definition of_Z (z : Z) : t := binary_normalize prec emax z 0 false.
Definition of_scaled (m e : Z) : t := binary_normalize prec emax m e false.

Definition mul : t -> t -> t := SFmul prec emax.
Definition add : t -> t -> t := SFadd prec emax.
Definition eqb : t -> t -> bool := SFeqb.
Definition ltb : t -> t -> bool := SFltb.

(** The literals of the source. *)
Definition c0_25 : t := of_scaled 1 (-2).
Definition c0_5 : t := of_scaled 1 (-1).
Definition c0_75 : t := of_scaled 3 (-2).
Definition c1 : t := of_Z 1.
Definition c100 : t := of_Z 100.
Definition c440 : t := of_Z 440.

(** [floor], as an integer.  A finite float is [(-1)^s * m * 2^e]; shifting
    the signed mantissa by [e] rounds towards minus infinity when [e] is
    negative.  Infinities and NaN have no floor. *)
Definition floor (x : t) : option Z :=
  match x with
  | S754_zero _ => Some 0%Z
  | S754_finite s m e => Some (Z.shiftl (cond_Zopp s (Zpos m)) e)
  | S754_infinity _ | S754_nan => None
  end.

(** Two floats carry the same value when they are the same datum or are
    both a zero: the two zeros differ in their sign only and compare equal
    under [==]. *)
Definition is_zero (x : t) : bool :=
  match x with
  | S754_zero _ => true
  | _ => false
  end.

Definition same_value (x y : t) : Prop :=
  x = y \/ (is_zero x = true /\ is_zero y = true).

End F32.

Abbreviation LADSPA_Data := F32.t.

#[export] Instance LADSPA_Data_inhabited : Inhabited LADSPA_Data :=
  populate F32.zero.

(** ** The plugin ABI (ladspa.h) *)
Module Ladspa.

(** Modelled from the spec: the header ladspa.h, which declares the bit
    masks and the test macros of port descriptors, range hints and
    properties, is not among the sources.  The spec describes a port by
    its direction and kind and a hint set as a bitset of has-default, one
    default kind, bounded-below, bounded-above, sample-rate-scaled,
    logarithmic, toggled and integer-step; the masks below are those of
    the fixed LADSPA 1.1 ABI the adapter is compiled against. *)
Definition LADSPA_PROPERTY_INPLACE_BROKEN : Z := 0x2.

(** Modelled from the spec: the port descriptor bits of ladspa.h, direction
    (input, output) and kind (control, audio). *)
Definition LADSPA_PORT_INPUT : Z := 0x1.
Definition LADSPA_PORT_OUTPUT : Z := 0x2.
Definition LADSPA_PORT_CONTROL : Z := 0x4.
Definition LADSPA_PORT_AUDIO : Z := 0x8.

(** Modelled from the spec: the hint bits of ladspa.h; the default kinds
    share one four-bit field, so that a hint set carries at most one. *)
Definition LADSPA_HINT_BOUNDED_BELOW : Z := 0x1.
Definition LADSPA_HINT_BOUNDED_ABOVE : Z := 0x2.
Definition LADSPA_HINT_TOGGLED : Z := 0x4.
Definition LADSPA_HINT_SAMPLE_RATE : Z := 0x8.
Definition LADSPA_HINT_LOGARITHMIC : Z := 0x10.
Definition LADSPA_HINT_INTEGER : Z := 0x20.
Definition LADSPA_HINT_DEFAULT_MASK : Z := 0x3C0.
Definition LADSPA_HINT_DEFAULT_NONE : Z := 0x0.
Definition LADSPA_HINT_DEFAULT_MINIMUM : Z := 0x40.
Definition LADSPA_HINT_DEFAULT_LOW : Z := 0x80.
Definition LADSPA_HINT_DEFAULT_MIDDLE : Z := 0xC0.
Definition LADSPA_HINT_DEFAULT_HIGH : Z := 0x100.
Definition LADSPA_HINT_DEFAULT_MAXIMUM : Z := 0x140.
Definition LADSPA_HINT_DEFAULT_0 : Z := 0x200.
Definition LADSPA_HINT_DEFAULT_1 : Z := 0x240.
Definition LADSPA_HINT_DEFAULT_100 : Z := 0x280.
Definition LADSPA_HINT_DEFAULT_440 : Z := 0x2C0.

(** Modelled from the spec: the two shapes of the test macros of ladspa.h,
    [(x) & MASK] read as a C condition and, for the default kinds,
    [((x) & LADSPA_HINT_DEFAULT_MASK) == KIND]. *)
Definition has_bits (x mask : Z) : bool := negb (Z.land x mask =? 0)%Z.

Definition default_is (x kind : Z) : bool :=
  (Z.land x LADSPA_HINT_DEFAULT_MASK =? kind)%Z.

(** Modelled from the spec: the test macros of ladspa.h. *)
Definition LADSPA_IS_INPLACE_BROKEN (x : Z) : bool :=
  has_bits x LADSPA_PROPERTY_INPLACE_BROKEN.

Definition LADSPA_IS_PORT_INPUT (x : Z) : bool := has_bits x LADSPA_PORT_INPUT.
Definition LADSPA_IS_PORT_OUTPUT (x : Z) : bool := has_bits x LADSPA_PORT_OUTPUT.
Definition LADSPA_IS_PORT_CONTROL (x : Z) : bool := has_bits x LADSPA_PORT_CONTROL.
Definition LADSPA_IS_PORT_AUDIO (x : Z) : bool := has_bits x LADSPA_PORT_AUDIO.

Definition LADSPA_IS_HINT_BOUNDED_BELOW (x : Z) : bool :=
  has_bits x LADSPA_HINT_BOUNDED_BELOW.
Definition LADSPA_IS_HINT_BOUNDED_ABOVE (x : Z) : bool :=
  has_bits x LADSPA_HINT_BOUNDED_ABOVE.
Definition LADSPA_IS_HINT_TOGGLED (x : Z) : bool :=
  has_bits x LADSPA_HINT_TOGGLED.
Definition LADSPA_IS_HINT_SAMPLE_RATE (x : Z) : bool :=
  has_bits x LADSPA_HINT_SAMPLE_RATE.
Definition LADSPA_IS_HINT_LOGARITHMIC (x : Z) : bool :=
  has_bits x LADSPA_HINT_LOGARITHMIC.
Definition LADSPA_IS_HINT_INTEGER (x : Z) : bool :=
  has_bits x LADSPA_HINT_INTEGER.

Definition LADSPA_IS_HINT_HAS_DEFAULT (x : Z) : bool :=
  has_bits x LADSPA_HINT_DEFAULT_MASK.
Definition LADSPA_IS_HINT_DEFAULT_MINIMUM (x : Z) : bool :=
  default_is x LADSPA_HINT_DEFAULT_MINIMUM.
Definition LADSPA_IS_HINT_DEFAULT_LOW (x : Z) : bool :=
  default_is x LADSPA_HINT_DEFAULT_LOW.
Definition LADSPA_IS_HINT_DEFAULT_MIDDLE (x : Z) : bool :=
  default_is x LADSPA_HINT_DEFAULT_MIDDLE.
Definition LADSPA_IS_HINT_DEFAULT_HIGH (x : Z) : bool :=
  default_is x LADSPA_HINT_DEFAULT_HIGH.
Definition LADSPA_IS_HINT_DEFAULT_MAXIMUM (x : Z) : bool :=
  default_is x LADSPA_HINT_DEFAULT_MAXIMUM.
Definition LADSPA_IS_HINT_DEFAULT_0 (x : Z) : bool :=
  default_is x LADSPA_HINT_DEFAULT_0.
Definition LADSPA_IS_HINT_DEFAULT_1 (x : Z) : bool :=
  default_is x LADSPA_HINT_DEFAULT_1.
Definition LADSPA_IS_HINT_DEFAULT_100 (x : Z) : bool :=
  default_is x LADSPA_HINT_DEFAULT_100.
Definition LADSPA_IS_HINT_DEFAULT_440 (x : Z) : bool :=
  default_is x LADSPA_HINT_DEFAULT_440.

(** Modelled from the spec: the range hint of a port, its hint set and its
    two bounds. *)
Record LADSPA_PortRangeHint := {
  HintDescriptor : Z;
  LowerBound : LADSPA_Data;
  UpperBound : LADSPA_Data
}.

End Ladspa.
Export Ladspa.

(** ** The default value resolver *)
Section DefaultValue.

(** The single precision [exp] and [log] of the C library. *)
Variables expf logf : LADSPA_Data -> LADSPA_Data.

(** The guard of the three interpolating cases:
    [logarithmic && LowerBound * UpperBound > 0]. *)
Definition log_interpolation (logarithmic : bool) (prh : LADSPA_PortRangeHint) : bool :=
  logarithmic && F32.ltb F32.zero (F32.mul (LowerBound prh) (UpperBound prh)).

(** [exp (log (LowerBound) * wl + log (UpperBound) * wu)] when the guard
    holds, [LowerBound * wl + UpperBound * wu] when it does not. *)
Definition interpolate (logarithmic : bool) (prh : LADSPA_PortRangeHint)
    (wl wu : LADSPA_Data) : LADSPA_Data :=
  if log_interpolation logarithmic prh then
    expf (F32.add (F32.mul (logf (LowerBound prh)) wl)
                  (F32.mul (logf (UpperBound prh)) wu))
  else
    F32.add (F32.mul (LowerBound prh) wl) (F32.mul (UpperBound prh) wu).

(** The locals of [_default_value] once the cascade of cases 1 to 4 is
    through. *)
Record resolved := {
  ret : LADSPA_Data;
  bounds_given : bool;
  sr_scaling : bool;
  earlier_hint : bool
}.

Definition from_bounds (v : LADSPA_Data) : resolved :=
  {| ret := v; bounds_given := true; sr_scaling := true; earlier_hint := false |}.
Definition from_literal (v : LADSPA_Data) : resolved :=
  {| ret := v; bounds_given := false; sr_scaling := false; earlier_hint := true |}.
Definition unresolved : resolved :=
  {| ret := F32.zero; bounds_given := false; sr_scaling := false; earlier_hint := false |}.

(** Cases 1 to 4 of [_default_value]. *)
Definition resolve_cases (prh : LADSPA_PortRangeHint) : resolved :=
  let hd := HintDescriptor prh in
  let logarithmic := LADSPA_IS_HINT_LOGARITHMIC hd in
  (* defaults - case 1 *)
  if LADSPA_IS_HINT_HAS_DEFAULT hd then
    if LADSPA_IS_HINT_DEFAULT_MINIMUM hd then from_bounds (LowerBound prh)
    else if LADSPA_IS_HINT_DEFAULT_LOW hd then
      from_bounds (interpolate logarithmic prh F32.c0_75 F32.c0_25)
    else if LADSPA_IS_HINT_DEFAULT_MIDDLE hd then
      from_bounds (interpolate logarithmic prh F32.c0_5 F32.c0_5)
    else if LADSPA_IS_HINT_DEFAULT_HIGH hd then
      from_bounds (interpolate logarithmic prh F32.c0_25 F32.c0_75)
    else if LADSPA_IS_HINT_DEFAULT_MAXIMUM hd then from_bounds (UpperBound prh)
    else if LADSPA_IS_HINT_DEFAULT_0 hd then from_literal F32.zero
    else if LADSPA_IS_HINT_DEFAULT_1 hd then from_literal F32.c1
    else if LADSPA_IS_HINT_DEFAULT_100 hd then from_literal F32.c100
    else if LADSPA_IS_HINT_DEFAULT_440 hd then from_literal F32.c440
    else (* no hint found *) unresolved
  (* defaults - case 2 *)
  else if LADSPA_IS_HINT_BOUNDED_BELOW hd && negb (LADSPA_IS_HINT_BOUNDED_ABOVE hd) then
    from_bounds (if F32.ltb (LowerBound prh) F32.zero then F32.zero
                 else LowerBound prh)
  (* defaults - case 3 *)
  else if negb (LADSPA_IS_HINT_BOUNDED_BELOW hd) && LADSPA_IS_HINT_BOUNDED_ABOVE hd then
    from_bounds (if F32.ltb F32.zero (UpperBound prh) then F32.zero
                 else UpperBound prh)
  (* defaults - case 4 *)
  else if LADSPA_IS_HINT_BOUNDED_BELOW hd && LADSPA_IS_HINT_BOUNDED_ABOVE hd then
    from_bounds
      (if F32.ltb (LowerBound prh) F32.zero && F32.ltb F32.zero (UpperBound prh)
       then F32.zero
       else if F32.ltb (LowerBound prh) F32.zero && F32.ltb (UpperBound prh) F32.zero
       then UpperBound prh
       else LowerBound prh)
  else unresolved.

(** Case 5: the sample rate. *)
Definition scale_by_rate (hd : Z) (sample_rate : Z) (r : resolved) : LADSPA_Data :=
  if LADSPA_IS_HINT_SAMPLE_RATE hd && negb (earlier_hint r) then
    if bounds_given r then
      if sr_scaling r then F32.mul (ret r) (F32.of_Z sample_rate) else ret r
    else F32.of_Z sample_rate
  else ret r.

(** [LadspaPlugin::_default_value], on the range hint [prh[port]] and the
    adapter's [_sample_rate]. *)
Definition default_value_of (prh : LADSPA_PortRangeHint) (sample_rate : Z) : LADSPA_Data :=
  scale_by_rate (HintDescriptor prh) sample_rate (resolve_cases prh).

End DefaultValue.

(** ** Memory the plugin is wired to, and the calls made on it *)

(** The places a port can be connected to: a slot of [_control_data], a
    channel of the host's buffer set, the session's silent and scratch
    buffers (all three at a frame offset), and the local buffer of the
    latency probe. *)
Inductive Addr :=
| AControl (i : nat)
| ABufs (buf_index : nat) (offset : nat)
| ASilent (offset : nat)
| AScratch (offset : nat)
| AProbe.

(** Audio memory reachable by the plugin during one call of [run]. *)
Record AudioMem := {
  am_bufs : list (list LADSPA_Data);
  am_silent : list LADSPA_Data;
  am_scratch : list LADSPA_Data;
  am_probe : list LADSPA_Data
}.

(** What [nframes] frames read through a connection see. *)
Definition read_port (ctl : list LADSPA_Data) (am : AudioMem) (a : Addr) (nframes : nat)
    : list LADSPA_Data :=
  match a with
  | AControl i => take 1 (drop i ctl)
  | ABufs b offset => take nframes (drop offset (am_bufs am !!! b))
  | ASilent offset => take nframes (drop offset (am_silent am))
  | AScratch offset => take nframes (drop offset (am_scratch am))
  | AProbe => take nframes (am_probe am)
  end.

(** History of an adapter: the calls it makes through the function pointers
    of the descriptor, its stores to the two parameter arrays, the warnings
    it prints and its calls of the base class.  This is ghost state, kept to
    state how often and in which order things happen. *)
Inductive Event :=
| EvInstantiate (rate : Z)
| EvConnectPort (port : nat) (a : Addr)
| EvActivate
| EvDeactivate
| EvRun (nframes : nat)
| EvStoreControl (i : nat) (v : LADSPA_Data)
| EvStoreShadow (i : nat) (v : LADSPA_Data)
| EvWarning
| EvError
| EvPluginSetParameter (which : nat) (val : LADSPA_Data) (when : Z).

(** The address a port is connected to after a history: its last
    [connect_port]. *)
Fixpoint connection (log : list Event) (port : nat) : option Addr :=
  match log with
  | [] => None
  | ev :: rest =>
      match connection rest port with
      | Some a => Some a
      | None =>
          match ev with
          | EvConnectPort p a => if p =? port then Some a else None
          | _ => None
          end
      end
  end.

(** How often a kind of event occurs in a history. *)
Fixpoint count_events (p : Event -> bool) (log : list Event) : nat :=
  match log with
  | [] => 0
  | ev :: rest => (if p ev then 1 else 0) + count_events p rest
  end.

Definition is_store_control_to (i : nat) (ev : Event) : bool :=
  match ev with
  | EvStoreControl j _ => j =? i
  | _ => false
  end.

Definition is_run (ev : Event) : bool :=
  match ev with
  | EvRun _ => true
  | _ => false
  end.

Definition is_connect (ev : Event) : bool :=
  match ev with
  | EvConnectPort _ _ => true
  | _ => false
  end.

(** The stores a plugin makes through the pointers to its control ports,
    applied to the live array, and the last value it stored to a port. *)
Definition apply_writes (writes : list (nat * LADSPA_Data)) (ctl : list LADSPA_Data)
    : list LADSPA_Data :=
  fold_left (fun l w => <[w.1 := w.2]> l) writes ctl.

Definition written (writes : list (nat * LADSPA_Data)) (port : nat)
    : option LADSPA_Data :=
  fold_left (fun acc w => if w.1 =? port then Some w.2 else acc) writes None.

#[export] Instance LADSPA_PortRangeHint_inhabited : Inhabited LADSPA_PortRangeHint :=
  populate {| HintDescriptor := 0; LowerBound := F32.zero; UpperBound := F32.zero |}.

#[export] Instance string_inhabited : Inhabited string := populate EmptyString.

(** ** The state document *)

(** Modelled from the spec: pbd/xml++ is not among the sources.  A state
    document is a named container node holding entries, each a named node
    with an integer index and a float value; either property can be
    missing, in which case [get_property] fails. *)
Record PortNode := {
  pn_name : string;
  pn_number : option nat;
  pn_value : option LADSPA_Data
}.

(** Modelled from the spec: the container node of a state document. *)
Record XMLNode := {
  xml_name : string;
  xml_children : list PortNode
}.

(** Modelled from the spec: [node.children (name)], the entries with a
    given tag. *)
Definition children (node : XMLNode) (name : string) : list PortNode :=
  List.filter (fun c => String.eqb (pn_name c) name) (xml_children node).

(** Modelled from the spec: [add_child_nocopy] appends an entry. *)
Definition add_child_nocopy (root : XMLNode) (child : PortNode) : XMLNode :=
  {| xml_name := xml_name root; xml_children := xml_children root ++ [child] |}.

(** ** The session's shared buffers and the channel maps *)

(** Modelled from the spec: the session is not among the sources.  It owns a
    persistent zero-filled silent buffer and a scratch buffer whose contents
    are of no interest, both sized to the largest block. *)
Record Session := {
  block_size : nat;
  scratch_data : list LADSPA_Data
}.

(** Modelled from the spec: the shared silent buffer is zero-filled. *)
Definition get_silent_buffers (sess : Session) : list LADSPA_Data :=
  repeat F32.zero (block_size sess).

(** Modelled from the spec: the shared scratch buffer, contents as they
    happen to be. *)
Definition get_scratch_buffers (sess : Session) : list LADSPA_Data :=
  scratch_data sess.

(** Modelled from the spec: a channel map ([ChanMapping], not among the
    sources) either reports a valid buffer index at a position or reports
    that there is none. *)
Definition ChanMapping : Type := nat -> option nat.

(** ** The adapter *)
Section Adapter.

(** The instance data of a plugin, opaque to the host. *)
Context {LADSPA_Handle : Type}.

(** The descriptor a module hands out.  Its function pointers are the
    plugin's own code: [run] reads the memory its ports are connected to,
    that is the live array and the audio buffers, and answers with the
    values it writes to control ports, in the order it writes them, and
    with the audio memory it leaves. *)
Record LADSPA_Descriptor := {
  UniqueID : Z;
  Name : string;
  Properties : Z;
  PortCount : nat;
  PortDescriptors : list Z;
  PortNames : list string;
  PortRangeHints : list LADSPA_PortRangeHint;
  instantiate : option (Z -> option LADSPA_Handle);
  connect_port_fn : LADSPA_Handle -> nat -> Addr -> LADSPA_Handle;
  activate_fn : option (LADSPA_Handle -> LADSPA_Handle);
  run : LADSPA_Handle -> nat -> list LADSPA_Data -> AudioMem ->
        LADSPA_Handle * list (nat * LADSPA_Data) * AudioMem;
  deactivate_fn : option (LADSPA_Handle -> LADSPA_Handle)
}.

(** A loaded module: whether it opened, and its ["ladspa_descriptor"]
    symbol when it has one. *)
Record GlibModule := {
  module_opened : bool;
  ladspa_descriptor : option (nat -> option LADSPA_Descriptor)
}.

(** The dynamic loader, and the C library's [exp] and [log]. *)
Variable Glib_Module : string -> GlibModule.
Variables expf logf : LADSPA_Data -> LADSPA_Data.

Record LadspaPlugin := {
  _module_path : string;
  _index : nat;
  _sample_rate : Z;
  _descriptor : LADSPA_Descriptor;
  _handle : LADSPA_Handle;
  _control_data : list LADSPA_Data;
  _shadow_data : list LADSPA_Data;
  _latency_control_port : option nat;
  _was_activated : bool;
  _log : list Event
}.

Definition with_handle (s : LadspaPlugin) (h : LADSPA_Handle) : LadspaPlugin :=
  {| _module_path := _module_path s; _index := _index s;
     _sample_rate := _sample_rate s; _descriptor := _descriptor s;
     _handle := h;
     _control_data := _control_data s; _shadow_data := _shadow_data s;
     _latency_control_port := _latency_control_port s;
     _was_activated := _was_activated s; _log := _log s |}.

Definition with_control_data (s : LadspaPlugin) (l : list LADSPA_Data) : LadspaPlugin :=
  {| _module_path := _module_path s; _index := _index s;
     _sample_rate := _sample_rate s; _descriptor := _descriptor s;
     _handle := _handle s;
     _control_data := l; _shadow_data := _shadow_data s;
     _latency_control_port := _latency_control_port s;
     _was_activated := _was_activated s; _log := _log s |}.

Definition with_shadow_data (s : LadspaPlugin) (l : list LADSPA_Data) : LadspaPlugin :=
  {| _module_path := _module_path s; _index := _index s;
     _sample_rate := _sample_rate s; _descriptor := _descriptor s;
     _handle := _handle s;
     _control_data := _control_data s; _shadow_data := l;
     _latency_control_port := _latency_control_port s;
     _was_activated := _was_activated s; _log := _log s |}.

Definition with_latency_control_port (s : LadspaPlugin) (p : option nat) : LadspaPlugin :=
  {| _module_path := _module_path s; _index := _index s;
     _sample_rate := _sample_rate s; _descriptor := _descriptor s;
     _handle := _handle s;
     _control_data := _control_data s; _shadow_data := _shadow_data s;
     _latency_control_port := p;
     _was_activated := _was_activated s; _log := _log s |}.

Definition with_was_activated (s : LadspaPlugin) (b : bool) : LadspaPlugin :=
  {| _module_path := _module_path s; _index := _index s;
     _sample_rate := _sample_rate s; _descriptor := _descriptor s;
     _handle := _handle s;
     _control_data := _control_data s; _shadow_data := _shadow_data s;
     _latency_control_port := _latency_control_port s;
     _was_activated := b; _log := _log s |}.

Definition record (s : LadspaPlugin) (ev : Event) : LadspaPlugin :=
  {| _module_path := _module_path s; _index := _index s;
     _sample_rate := _sample_rate s; _descriptor := _descriptor s;
     _handle := _handle s;
     _control_data := _control_data s; _shadow_data := _shadow_data s;
     _latency_control_port := _latency_control_port s;
     _was_activated := _was_activated s; _log := _log s ++ [ev] |}.

(** [_control_data[i] = v] and [_shadow_data[i] = v]. *)
Definition store_control (s : LadspaPlugin) (i : nat) (v : LADSPA_Data) : LadspaPlugin :=
  record (with_control_data s (<[i := v]> (_control_data s))) (EvStoreControl i v).

Definition store_shadow (s : LadspaPlugin) (i : nat) (v : LADSPA_Data) : LadspaPlugin :=
  record (with_shadow_data s (<[i := v]> (_shadow_data s))) (EvStoreShadow i v).

(** What an adapter was constructed from. *)
Definition origin (s : LadspaPlugin) : string * nat * Z :=
  (_module_path s, _index s, _sample_rate s).

(** *** The inline members of the class declaration *)

(** Both arrays are allocated with one slot per port. *)
Definition allocated (s : LadspaPlugin) : Prop :=
  length (_control_data s) = PortCount (_descriptor s) /\
  length (_shadow_data s) = PortCount (_descriptor s).

(** Modelled from the spec: the header ardour/ladspa_plugin.h, with the
    inline members [parameter_count], [port_range_hints], [port_names],
    [connect_port], [activate], [deactivate] and [state_node_name], is not
    among the sources.  Port indices are dense [0..portCount-1]. *)
Definition parameter_count (s : LadspaPlugin) : nat := PortCount (_descriptor s).

(** Modelled from the spec: the per-port range hints of the descriptor
    (inline member of the missing header). *)
Definition port_range_hints (s : LadspaPlugin) : list LADSPA_PortRangeHint :=
  PortRangeHints (_descriptor s).

(** Modelled from the spec: the per-port names of the descriptor (inline
    member of the missing header). *)
Definition port_names (s : LadspaPlugin) : list string := PortNames (_descriptor s).

(** Modelled from the spec: the connect-port function of the ABI, given the
    handle, the port index and the address (inline member of the missing
    header). *)
Definition connect_port (s : LadspaPlugin) (port : nat) (a : Addr) : LadspaPlugin :=
  record (with_handle s (connect_port_fn (_descriptor s) (_handle s) port a))
         (EvConnectPort port a).

(** Modelled from the spec: [activate] and [deactivate] (inline members of
    the missing header) are lifecycle toggles that call the plugin's
    optional entry point when the state really changes, so that a plugin
    expecting strict alternation is safe. *)
Definition activate (s : LadspaPlugin) : LadspaPlugin :=
  let s1 :=
    match activate_fn (_descriptor s) with
    | Some f => if negb (_was_activated s)
                then record (with_handle s (f (_handle s))) EvActivate else s
    | None => s
    end in
  with_was_activated s1 true.

(** Modelled from the spec: the counterpart of [activate]. *)
Definition deactivate (s : LadspaPlugin) : LadspaPlugin :=
  let s1 :=
    match deactivate_fn (_descriptor s) with
    | Some f => if _was_activated s
                then record (with_handle s (f (_handle s))) EvDeactivate else s
    | None => s
    end in
  with_was_activated s1 false.

(** Modelled from the spec: the container tag a state document must carry
    (inline member of the missing header). *)
Definition state_node_name : string := "ladspa".

(** Modelled from the spec: the base class [Plugin] is not among the
    sources.  Its [set_parameter] is the host-side "changed" notification;
    its [set_state] and [connect_and_run] do not touch the adapter's
    parameters and report success. *)
Definition Plugin_set_parameter (s : LadspaPlugin) (which : nat) (val : LADSPA_Data)
    (when : Z) : LadspaPlugin :=
  record s (EvPluginSetParameter which val when).

(** Modelled from the spec: [Plugin::set_state] of the missing base class
    reports success. *)
Definition Plugin_set_state (node : XMLNode) (version : Z) : Z := 0%Z.

(** *** ladspa_plugin.cc *)

(** [LadspaPlugin::port_descriptor].  The diagnostic it prints out of
    range is not recorded here, the member being [const]; where a member
    that changes the adapter can reach it out of range, as [load_preset]
    does, the diagnostic is recorded there. *)
Definition port_descriptor (s : LadspaPlugin) (i : nat) : Z :=
  if i <? PortCount (_descriptor s) then PortDescriptors (_descriptor s) !!! i
  else 0%Z.

Definition is_input_control (s : LadspaPlugin) (i : nat) : bool :=
  LADSPA_IS_PORT_INPUT (port_descriptor s i) &&
  LADSPA_IS_PORT_CONTROL (port_descriptor s i).

(** [LadspaPlugin::_default_value]. *)
Definition _default_value (s : LadspaPlugin) (port : nat) : LADSPA_Data :=
  default_value_of expf logf (port_range_hints s !!! port) (_sample_rate s).

(** [LadspaPlugin::get_parameter]. *)
Definition get_parameter (s : LadspaPlugin) (which : nat) : LADSPA_Data :=
  if LADSPA_IS_PORT_INPUT (port_descriptor s which)
  then _shadow_data s !!! which
  else _control_data s !!! which.

(** [LadspaPlugin::set_parameter]. *)
Definition set_parameter (s : LadspaPlugin) (which : nat) (val : LADSPA_Data)
    (when : Z) : LadspaPlugin :=
  if which <? PortCount (_descriptor s) then
    if F32.eqb (get_parameter s which) val then s
    else Plugin_set_parameter (store_shadow s which val) which val when
  else Plugin_set_parameter (record s EvWarning) which val when.

(** The conversion of a floor to the 64-bit [samplecnt_t]: defined only for
    a finite value whose floor fits; [None] stands for the undefined
    cases. *)
Definition to_samplecnt (z : option Z) : option Z :=
  match z with
  | Some n => if ((- 2 ^ 63 <=? n) && (n <? 2 ^ 63))%Z then Some n else None
  | None => None
  end.

(** [LadspaPlugin::plugin_latency]: the floor of the value the latency port
    points at, converted to [samplecnt_t], or 0. *)
Definition plugin_latency (s : LadspaPlugin) : option Z :=
  match _latency_control_port s with
  | Some p => to_samplecnt (F32.floor (_control_data s !!! p))
  | None => Some 0%Z
  end.

(** The loop of [run_in_place]: shadow to live for input control ports. *)
Definition copy_shadow_port (s : LadspaPlugin) (i : nat) : LadspaPlugin :=
  if is_input_control s i then store_control s i (_shadow_data s !!! i) else s.

Definition copy_shadow (s : LadspaPlugin) : LadspaPlugin :=
  fold_left copy_shadow_port (seq 0 (parameter_count s)) s.

(** [_descriptor->run (_handle, nframes)]. *)
Definition descriptor_run (s : LadspaPlugin) (am : AudioMem) (nframes : nat)
    : LadspaPlugin * AudioMem :=
  let '(h, writes, am') :=
    run (_descriptor s) (_handle s) nframes (_control_data s) am in
  (record (with_control_data (with_handle s h)
                             (apply_writes writes (_control_data s)))
          (EvRun nframes),
   am').

(** [LadspaPlugin::run_in_place]; [None] is the failed assertion. *)
Definition run_in_place (s : LadspaPlugin) (am : AudioMem) (nframes : nat)
    : option (LadspaPlugin * AudioMem) :=
  let s1 := copy_shadow s in
  if _was_activated s1 then Some (descriptor_run s1 am nframes) else None.

(** [s1] is a state in which [run] is entered by a processing call that
    started in [s]: the shadow array is as it was, every input control
    port's live value is its shadow value, every other live value is as it
    was, and since the call started each input control port's live slot
    was stored to once, every other slot never, and [run] was not yet
    called. *)
Definition enters_run (s s1 : LadspaPlugin) : Prop :=
  _descriptor s1 = _descriptor s /\
  _shadow_data s1 = _shadow_data s /\
  (forall i, is_input_control s i = true ->
     _control_data s1 !!! i = _shadow_data s !!! i) /\
  (forall i, is_input_control s i = false ->
     _control_data s1 !!! i = _control_data s !!! i) /\
  exists evs,
    _log s1 = _log s ++ evs /\
    count_events is_run evs = 0 /\
    forall i, count_events (is_store_control_to i) evs =
              if is_input_control s i then 1 else 0.

(** The state the loop of [run_in_place] has reached before port [k]. *)
Definition copied_up_to (s : LadspaPlugin) (k : nat) (x : LadspaPlugin) : Prop :=
  _descriptor x = _descriptor s /\
  _handle x = _handle s /\
  _shadow_data x = _shadow_data s /\
  _was_activated x = _was_activated s /\
  _latency_control_port x = _latency_control_port s /\
  length (_control_data x) = length (_control_data s) /\
  (forall i, i < k -> is_input_control s i = true ->
     _control_data x !!! i = _shadow_data s !!! i) /\
  (forall i, k <= i \/ is_input_control s i = false ->
     _control_data x !!! i = _control_data s !!! i) /\
  exists evs,
    _log x = _log s ++ evs /\
    count_events is_run evs = 0 /\
    count_events is_connect evs = 0 /\
    forall i, count_events (is_store_control_to i) evs =
              if (i <? k) && is_input_control s i then 1 else 0.

(** The block length of the probe, [bufsize] in [latency_compute_run]. *)
Definition bufsize : nat := 1024.

(** The body of the loop of [latency_compute_run].  The two counters it
    increments are never read and are left out. *)
Definition probe_connect (s : LadspaPlugin) (port_index : nat) : LadspaPlugin :=
  if LADSPA_IS_PORT_AUDIO (port_descriptor s port_index) then
    if LADSPA_IS_PORT_INPUT (port_descriptor s port_index) then
      connect_port s port_index AProbe
    else if LADSPA_IS_PORT_OUTPUT (port_descriptor s port_index) then
      connect_port s port_index AProbe
    else s
  else s.

(** The local [buffer] of [latency_compute_run], after the [memset]. *)
Definition probe_memory : AudioMem :=
  {| am_bufs := []; am_silent := []; am_scratch := [];
     am_probe := repeat F32.zero bufsize |}.

(** The state in which the probe reaches the call of [run]. *)
Definition probe_entry (s : LadspaPlugin) : LadspaPlugin :=
  let s1 := activate s in
  copy_shadow (fold_left probe_connect (seq 0 (parameter_count s1)) s1).

(** [LadspaPlugin::latency_compute_run]. *)
Definition latency_compute_run (s : LadspaPlugin) : option LadspaPlugin :=
  match _latency_control_port s with
  | None => Some s
  | Some _ =>
      let s1 := activate s in
      let s2 := fold_left probe_connect (seq 0 (parameter_count s1)) s1 in
      match run_in_place s2 probe_memory bufsize with
      | Some (s3, _) => Some (deactivate s3)
      | None => None
      end
  end.

(** The body of the loop over the ports of [init]. *)
Definition init_port (s : LadspaPlugin) (i : nat) : LadspaPlugin :=
  if LADSPA_IS_PORT_CONTROL (port_descriptor s i) then
    let s1 := connect_port s i (AControl i) in
    let s2 :=
      if LADSPA_IS_PORT_OUTPUT (port_descriptor s1 i) &&
         String.eqb (port_names s1 !!! i) "latency"
      then store_control (with_latency_control_port s1 (Some i)) i F32.zero
      else s1 in
    let s3 := store_shadow s2 i (_default_value s2 i) in
    store_control s3 i (_shadow_data s3 !!! i)
  else s.

(** The adapter when the loop over the ports of [init] begins. *)
Definition initial_state (module_path : string) (index : nat) (rate : Z)
    (d : LADSPA_Descriptor) (h : LADSPA_Handle) : LadspaPlugin :=
  {| _module_path := module_path; _index := index;
     _sample_rate := rate; _descriptor := d; _handle := h;
     _control_data := repeat F32.zero (PortCount d);
     _shadow_data := repeat F32.zero (PortCount d);
     _latency_control_port := None;
     _was_activated := false;
     _log := [EvInstantiate rate] |}.

(** The test [init] makes for the latency port. *)
Definition is_latency_port (s : LadspaPlugin) (i : nat) : bool :=
  LADSPA_IS_PORT_CONTROL (port_descriptor s i) &&
  (LADSPA_IS_PORT_OUTPUT (port_descriptor s i) &&
   String.eqb (port_names s !!! i) "latency").

(** The state of the loop of [init] before port [k]: control ports below
    [k] carry their default in both arrays, the latency port is the last
    port below [k] that passes the test, and [run] was not called. *)
Definition initialised_up_to (s0 : LadspaPlugin) (k : nat) (x : LadspaPlugin) : Prop :=
  _module_path x = _module_path s0 /\
  _index x = _index s0 /\
  _sample_rate x = _sample_rate s0 /\
  _descriptor x = _descriptor s0 /\
  _was_activated x = _was_activated s0 /\
  length (_control_data x) = length (_control_data s0) /\
  length (_shadow_data x) = length (_shadow_data s0) /\
  (forall i, i < k -> LADSPA_IS_PORT_CONTROL (port_descriptor s0 i) = true ->
     _shadow_data x !!! i = _default_value s0 i /\
     _control_data x !!! i = _default_value s0 i) /\
  (forall i, k <= i \/ LADSPA_IS_PORT_CONTROL (port_descriptor s0 i) = false ->
     _shadow_data x !!! i = _shadow_data s0 !!! i /\
     _control_data x !!! i = _control_data s0 !!! i) /\
  match _latency_control_port x with
  | Some p => p < k /\ is_latency_port s0 p = true /\
              forall q, p < q -> q < k -> is_latency_port s0 q = false
  | None => _latency_control_port s0 = None /\
            forall q, q < k -> is_latency_port s0 q = false
  end /\
  exists evs,
    _log x = _log s0 ++ evs /\
    count_events is_run evs = 0.

(** [LadspaPlugin::init]; [None] is [throw failed_constructor ()]. *)
Definition init (module_path : string) (index : nat) (rate : Z) : option LadspaPlugin :=
  let m := Glib_Module module_path in
  if negb (module_opened m) then None else
  match ladspa_descriptor m with
  | None => None
  | Some dfunc =>
      match dfunc index with
      | None => None
      | Some d =>
          if LADSPA_IS_INPLACE_BROKEN (Properties d) then None else
          match instantiate d with
          | None => None
          | Some inst =>
              match inst rate with
              | None => None
              | Some h =>
                  let port_cnt := PortCount d in
                  let s0 := initial_state module_path index rate d h in
                  latency_compute_run (fold_left init_port (seq 0 port_cnt) s0)
              end
          end
      end
  end.

(** The constructor from a module path,
    [LadspaPlugin (module_path, e, session, index, rate)]. *)
Definition LadspaPlugin_new (module_path : string) (index : nat) (rate : Z)
    : option LadspaPlugin :=
  init module_path index rate.

(** The body of the loop of the copy constructor. *)
Definition copy_parameter (other s : LadspaPlugin) (i : nat) : LadspaPlugin :=
  let s1 := store_control s i (_shadow_data other !!! i) in
  store_shadow s1 i (_shadow_data other !!! i).

(** The copy constructor, [LadspaPlugin (const LadspaPlugin &other)]. *)
Definition LadspaPlugin_copy (other : LadspaPlugin) : option LadspaPlugin :=
  match init (_module_path other) (_index other) (_sample_rate other) with
  | Some s => Some (fold_left (copy_parameter other) (seq 0 (parameter_count s)) s)
  | None => None
  end.

(** The entry [add_state] emits for port [i]. *)
Definition saved_port (s : LadspaPlugin) (i : nat) : PortNode :=
  {| pn_name := "Port"; pn_number := Some i;
     pn_value := Some (_shadow_data s !!! i) |}.

(** The body of the loop of [add_state]. *)
Definition add_state_port (s : LadspaPlugin) (root : XMLNode) (i : nat) : XMLNode :=
  if is_input_control s i then add_child_nocopy root (saved_port s i)
  else root.

(** The input control ports, in index order. *)
Definition input_control_ports (s : LadspaPlugin) : list nat :=
  List.filter (is_input_control s) (seq 0 (parameter_count s)).

(** The container [Plugin::get_state] hands to [add_state]. *)
Definition new_state_node : XMLNode :=
  {| xml_name := state_node_name; xml_children := [] |}.

(** [LadspaPlugin::add_state]. *)
Definition add_state (s : LadspaPlugin) (root : XMLNode) : XMLNode :=
  fold_left (add_state_port s) (seq 0 (parameter_count s)) root.

(** [LadspaPlugin::set_state_2X], the decoder of the legacy format.  It
    reads string-typed fields with [sscanf] and [atof]; it is a parameter
    here. *)
Variable set_state_2X : LadspaPlugin -> XMLNode -> Z -> option (Z * LadspaPlugin).

(** The body of the loop of [set_state] over the entries. *)
Definition set_state_port (s : LadspaPlugin) (child : PortNode) : LadspaPlugin :=
  match pn_number child with
  | None => record s EvWarning
  | Some port_id =>
      match pn_value child with
      | None => record s EvWarning
      | Some value => set_parameter s port_id value 0
      end
  end.

(** [LadspaPlugin::set_state]: the status and the adapter afterwards. *)
Definition set_state (s : LadspaPlugin) (node : XMLNode) (version : Z)
    : option (Z * LadspaPlugin) :=
  if (version <? 3000)%Z then set_state_2X s node version
  else if negb (String.eqb (xml_name node) state_node_name) then
    Some ((-1)%Z, record s EvError)
  else
    let s1 := fold_left set_state_port (children node "Port") s in
    match latency_compute_run s1 with
    | Some s2 => Some (Plugin_set_state node version, s2)
    | None => None
    end.

(** The body of the loop of [connect_and_run] over the ports. *)
Definition route_port (in_map out_map : ChanMapping) (offset : nat)
    (st : LadspaPlugin * nat * nat) (port_index : nat) : LadspaPlugin * nat * nat :=
  let '(s, audio_in_index, audio_out_index) := st in
  if LADSPA_IS_PORT_AUDIO (port_descriptor s port_index) then
    if LADSPA_IS_PORT_INPUT (port_descriptor s port_index) then
      (connect_port s port_index
         match in_map audio_in_index with
         | Some buf_index => ABufs buf_index offset
         | None => ASilent offset
         end,
       S audio_in_index, audio_out_index)
    else if LADSPA_IS_PORT_OUTPUT (port_descriptor s port_index) then
      (connect_port s port_index
         match out_map audio_out_index with
         | Some buf_index => ABufs buf_index offset
         | None => AScratch offset
         end,
       audio_in_index, S audio_out_index)
    else st
  else st.

(** The loop of [connect_and_run]: the adapter and the two counters when
    it ends. *)
Definition route_ports (s : LadspaPlugin) (in_map out_map : ChanMapping) (offset : nat)
    : LadspaPlugin * nat * nat :=
  fold_left (route_port in_map out_map offset) (seq 0 (parameter_count s)) (s, 0, 0).

(** The audio ports as the two loops over the ports tell them apart, and
    the number of audio inputs (outputs) below a port: the value of the
    input (output) counter when the loop reaches that port. *)
Definition is_audio_input (s : LadspaPlugin) (p : nat) : bool :=
  LADSPA_IS_PORT_AUDIO (port_descriptor s p) &&
  LADSPA_IS_PORT_INPUT (port_descriptor s p).

Definition is_audio_output (s : LadspaPlugin) (p : nat) : bool :=
  LADSPA_IS_PORT_AUDIO (port_descriptor s p) &&
  negb (LADSPA_IS_PORT_INPUT (port_descriptor s p)) &&
  LADSPA_IS_PORT_OUTPUT (port_descriptor s p).

Definition audio_in_rank (s : LadspaPlugin) (p : nat) : nat :=
  length (List.filter (is_audio_input s) (seq 0 p)).

Definition audio_out_rank (s : LadspaPlugin) (p : nat) : nat :=
  length (List.filter (is_audio_output s) (seq 0 p)).

(** [x] is [s] after some calls of [connect_port] and nothing else. *)
Definition connects_only (s x : LadspaPlugin) : Prop :=
  _descriptor x = _descriptor s /\
  _control_data x = _control_data s /\
  _shadow_data x = _shadow_data s /\
  _was_activated x = _was_activated s /\
  _latency_control_port x = _latency_control_port s /\
  exists evs,
    _log x = _log s ++ evs /\
    count_events is_run evs = 0 /\
    forall i, count_events (is_store_control_to i) evs = 0.

(** The state of the routing loop of [connect_and_run] before port [k]. *)
Definition routed_up_to (s : LadspaPlugin) (in_map out_map : ChanMapping)
    (offset k : nat) (st : LadspaPlugin * nat * nat) : Prop :=
  connects_only s st.1.1 /\
  st.1.2 = audio_in_rank s k /\
  st.2 = audio_out_rank s k /\
  (forall p, p < k -> is_audio_input s p = true ->
     connection (_log st.1.1) p =
     Some match in_map (audio_in_rank s p) with
          | Some buf_index => ABufs buf_index offset
          | None => ASilent offset
          end) /\
  (forall p, p < k -> is_audio_output s p = true ->
     connection (_log st.1.1) p =
     Some match out_map (audio_out_rank s p) with
          | Some buf_index => ABufs buf_index offset
          | None => AScratch offset
          end).


(** The state of the loop of [latency_compute_run] before port [k]. *)
Definition probed_up_to (s : LadspaPlugin) (k : nat) (x : LadspaPlugin) : Prop :=
  connects_only s x /\
  forall p, p < k -> is_audio_input s p || is_audio_output s p = true ->
    connection (_log x) p = Some AProbe.

(** The audio memory of a processing call: the host's buffers and the
    session's silent and scratch buffers. *)
Definition process_memory (sess : Session) (bufs : list (list LADSPA_Data)) : AudioMem :=
  {| am_bufs := bufs; am_silent := get_silent_buffers sess;
     am_scratch := get_scratch_buffers sess; am_probe := [] |}.

(** The state in which [connect_and_run] reaches the call of [run]: the
    audio ports routed, then the loop of [run_in_place] done. *)
Definition process_entry (s : LadspaPlugin) (in_map out_map : ChanMapping)
    (offset : nat) : LadspaPlugin :=
  copy_shadow (route_ports s in_map out_map offset).1.1.

(** [LadspaPlugin::connect_and_run].  The cycle counter it keeps for load
    metering is not modelled. *)
Definition connect_and_run (s : LadspaPlugin) (sess : Session)
    (bufs : list (list LADSPA_Data)) (in_map out_map : ChanMapping)
    (nframes offset : nat) : option (Z * LadspaPlugin * AudioMem) :=
  let s1 := (route_ports s in_map out_map offset).1.1 in
  match run_in_place s1 (process_memory sess bufs) nframes with
  | Some (s2, am) => Some (0%Z, s2, am)
  | None => None
  end.

End Adapter.

Arguments LADSPA_Descriptor : clear implicits.
Arguments GlibModule : clear implicits.
Arguments LadspaPlugin : clear implicits.

(** ** A concrete plugin

    A two-in, one-out gain plugin with one input control port and a latency
    reporting output control port.  Its [run] counts its calls in the handle
    and writes 64.5 frames to the latency port. *)
Module GainPlugin.

Definition Handle : Type := nat.

Definition reported_latency : LADSPA_Data := F32.of_scaled 129 (-1).

Definition gain_hint : LADSPA_PortRangeHint :=
  {| HintDescriptor := 0xC3; LowerBound := F32.zero; UpperBound := F32.of_Z 10 |}.

Definition no_hint : LADSPA_PortRangeHint :=
  {| HintDescriptor := 0; LowerBound := F32.zero; UpperBound := F32.zero |}.

Definition descriptor : LADSPA_Descriptor Handle :=
  {| UniqueID := 4242; Name := "gain"; Properties := 0x4; PortCount := 5;
     PortDescriptors := [0x9; 0x9; 0xA; 0x5; 0x6]%Z;
     PortNames := ["in_l"; "in_r"; "out"; "gain"; "latency"]%string;
     PortRangeHints := [no_hint; no_hint; no_hint; gain_hint; no_hint];
     instantiate := Some (fun _ => Some 0);
     connect_port_fn := fun h _ _ => h;
     activate_fn := Some (fun h => h);
     run := fun h _ ctl am => (S h, [(4, reported_latency)], am);
     deactivate_fn := Some (fun h => h) |}.

Definition loader (path : string) : GlibModule Handle :=
  if String.eqb path "gain.so" then
    {| module_opened := true;
       ladspa_descriptor :=
         Some (fun index => if index =? 0 then Some descriptor else None) |}
  else {| module_opened := false; ladspa_descriptor := None |}.

(** None of the ports is logarithmic: [exp] and [log] are never called,
    and the legacy decoder is not used. *)
Definition no_libm (x : LADSPA_Data) : LADSPA_Data := F32.nan.

Definition no_legacy (s : LadspaPlugin Handle) (node : XMLNode) (version : Z)
    : option (Z * LadspaPlugin Handle) := None.

Definition fresh : option (LadspaPlugin Handle) :=
  LadspaPlugin_new loader no_libm no_libm "gain.so" 0 48000.

(** An adapter in the state the constructor leaves, written out. *)
Definition loaded : LadspaPlugin Handle :=
  {| _module_path := "gain.so"; _index := 0; _sample_rate := 48000;
     _descriptor := descriptor; _handle := 1;
     _control_data := [F32.zero; F32.zero; F32.zero; F32.of_Z 5; reported_latency];
     _shadow_data := [F32.zero; F32.zero; F32.zero; F32.of_Z 5; F32.zero];
     _latency_control_port := Some 4;
     _was_activated := false;
     _log := [] |}.

Definition session : Session :=
  {| block_size := 64; scratch_data := repeat F32.c1 64 |}.

(** A channel map exposing one valid channel, at position 0. *)
Definition one_channel (position : nat) : option nat :=
  if position =? 0 then Some 0 else None.

(** The same adapter between [activate] and [deactivate]. *)
Definition active : LadspaPlugin Handle := activate loaded.

(** The adapter the constructor returns. *)
Definition constructed : LadspaPlugin Handle :=
  Eval vm_compute in
    match fresh with
    | Some s => s
    | None => loaded
    end.

(** The gain set to 7.5, and the live value of the gain port left at 9. *)
Definition seven_and_a_half : LADSPA_Data := F32.of_scaled 15 (-1).

Definition tweaked : LadspaPlugin Handle :=
  with_control_data (set_parameter constructed 3 seven_and_a_half 0)
    [F32.zero; F32.zero; F32.zero; F32.of_Z 9; reported_latency].

(** A copy of it. *)
Definition copied : LadspaPlugin Handle :=
  Eval vm_compute in
    match LadspaPlugin_copy loader no_libm no_libm tweaked with
    | Some s => s
    | None => loaded
    end.

Definition host_buffers : list (list LADSPA_Data) := [repeat F32.c1 64].

End GainPlugin.

(** ** A second plugin, for the defaults

    An oscillator whose frequency port defaults to the literal 440 and also
    carries the sample-rate flag, with a pan port bounded by [-1, 1] that
    carries the sample-rate flag and no default. *)
Module OscPlugin.

Definition Handle : Type := unit.

Definition freq_hint : LADSPA_PortRangeHint :=
  {| HintDescriptor := 0x2CB; LowerBound := F32.zero;
     UpperBound := F32.of_scaled 1 (-1) |}.

Definition pan_hint : LADSPA_PortRangeHint :=
  {| HintDescriptor := 0xB; LowerBound := F32.of_Z (-1);
     UpperBound := F32.of_Z 1 |}.

Definition descriptor : LADSPA_Descriptor Handle :=
  {| UniqueID := 4343; Name := "osc"; Properties := 0x4; PortCount := 3;
     PortDescriptors := [0x5; 0x5; 0xA]%Z;
     PortNames := ["freq"; "pan"; "out"]%string;
     PortRangeHints := [freq_hint; pan_hint; GainPlugin.no_hint];
     instantiate := Some (fun _ => Some tt);
     connect_port_fn := fun h _ _ => h;
     activate_fn := None;
     run := fun h _ ctl am => (h, [], am);
     deactivate_fn := None |}.

Definition loaded : LadspaPlugin Handle :=
  {| _module_path := "osc.so"; _index := 0; _sample_rate := 48000;
     _descriptor := descriptor; _handle := tt;
     _control_data := [F32.of_Z 440; F32.zero; F32.zero];
     _shadow_data := [F32.of_Z 440; F32.zero; F32.zero];
     _latency_control_port := None;
     _was_activated := false;
     _log := [] |}.

End OscPlugin.

(** ** Queries, presets and the plugin-info loader *)

(** Modelled from the spec: [Evoral::Parameter] and the enumeration
    [AutomationType] (evoral and ardour/types.h are not among the sources).
    An automatable parameter is named by its kind, its channel and its
    index; of the kinds only [PluginAutomation], the kind of an adapter's
    control ports, is told apart from the others. *)
Inductive AutomationType :=
| PluginAutomation
| OtherAutomation (kind : nat).

(** Modelled from the spec: the three fields of [Evoral::Parameter]. *)
Record EvoralParameter := Evoral_Parameter {
  param_type : AutomationType;
  param_channel : nat;
  param_id : nat
}.

Definition AutomationType_eqb (a b : AutomationType) : bool :=
  match a, b with
  | PluginAutomation, PluginAutomation => true
  | OtherAutomation k, OtherAutomation k' => k =? k'
  | _, _ => false
  end.

Definition EvoralParameter_eqb (p q : EvoralParameter) : bool :=
  AutomationType_eqb (param_type p) (param_type q) &&
  (param_channel p =? param_channel q) &&
  (param_id p =? param_id q).

(** A [std::set<Evoral::Parameter>], as the list of its elements: [insert]
    adds an element that the set does not hold yet. *)
Definition set_insert (ret : list EvoralParameter) (p : EvoralParameter)
    : list EvoralParameter :=
  if existsb (EvoralParameter_eqb p) ret then ret else ret ++ [p].

(** A preset as the adapter sees it, [Plugin::PresetRecord]. *)
Record PresetRecord := {
  uri : string;
  label : string
}.

(** What [LadspaPluginInfo::load] reads of the plugin info. *)
Record LadspaPluginInfo := {
  path : string;
  index : nat
}.

(** The conversion of an [unsigned long] to [uint32_t]. *)
Definition to_uint32 (n : Z) : nat := Z.to_nat (n mod 2 ^ 32).

Definition is_warning (ev : Event) : bool :=
  match ev with
  | EvWarning => true
  | _ => false
  end.

Section Queries.

Context {LADSPA_Handle : Type}.
Variable Glib_Module : string -> GlibModule LADSPA_Handle.
Variables expf logf : LADSPA_Data -> LADSPA_Data.
Implicit Types s : LadspaPlugin LADSPA_Handle.

(** The loop of [nth_parameter] over the ports still to visit, [c] being
    the number of control ports met so far: the value returned and [ok]. *)
Fixpoint nth_parameter_from s (n : nat) (ports : list nat) (c : nat) : nat * bool :=
  match ports with
  | [] => (0, false)
  | x :: rest =>
      if LADSPA_IS_PORT_CONTROL (port_descriptor s x) then
        if c =? n then (x, true)
        else nth_parameter_from s n rest (S c)
      else nth_parameter_from s n rest c
  end.

(** [LadspaPlugin::nth_parameter]: the value returned and [ok]. *)
Definition nth_parameter s (n : nat) : nat * bool :=
  nth_parameter_from s n (seq 0 (PortCount (_descriptor s))) 0.

(** The number of control ports below a port: the value of the counter of
    [nth_parameter] when its loop reaches that port. *)
Definition control_rank s (p : nat) : nat :=
  length (List.filter (fun i => LADSPA_IS_PORT_CONTROL (port_descriptor s i)) (seq 0 p)).

(** [LadspaPlugin::parameter_is_control], [parameter_is_audio],
    [parameter_is_output] and [parameter_is_input]. *)
Definition parameter_is_control s (param : nat) : bool :=
  LADSPA_IS_PORT_CONTROL (port_descriptor s param).

Definition parameter_is_audio s (param : nat) : bool :=
  LADSPA_IS_PORT_AUDIO (port_descriptor s param).

Definition parameter_is_output s (param : nat) : bool :=
  LADSPA_IS_PORT_OUTPUT (port_descriptor s param).

Definition parameter_is_input s (param : nat) : bool :=
  LADSPA_IS_PORT_INPUT (port_descriptor s param).

(** The body of the loop of [automatable]. *)
Definition automatable_port s (ret : list EvoralParameter) (i : nat)
    : list EvoralParameter :=
  if LADSPA_IS_PORT_INPUT (port_descriptor s i) &&
     LADSPA_IS_PORT_CONTROL (port_descriptor s i)
  then set_insert ret (Evoral_Parameter PluginAutomation 0 i)
  else ret.

(** [LadspaPlugin::automatable]. *)
Definition automatable s : list EvoralParameter :=
  fold_left (automatable_port s) (seq 0 (parameter_count s)) [].

(** [LadspaPlugin::describe_parameter]. *)
Definition describe_parameter s (which : EvoralParameter) : string :=
  if AutomationType_eqb (param_type which) PluginAutomation &&
     (param_id which <? parameter_count s)
  then port_names s !!! param_id which
  else "??".

(** [LadspaPluginInfo::load], given the session's sample rate: the plugin,
    or [None] for the null pointer it returns when the constructor throws.
    The copy of the info it attaches to the plugin is not modelled. *)
Definition LadspaPluginInfo_load (info : LadspaPluginInfo) (sample_rate : Z)
    : option (LadspaPlugin LADSPA_Handle) :=
  match LadspaPlugin_new Glib_Module expf logf (path info) (index info) sample_rate with
  | Some plugin => Some plugin
  | None => None
  end.

(** Modelled from the spec: the preset archive (liblrdf) is an external
    collaborator; asked for the values of a preset it answers with
    (port, value) pairs, the port an [unsigned long], or with nothing. *)
Variable lrdf_get_setting_values : string -> option (list (Z * LADSPA_Data)).

(** The diagnostic [port_descriptor] prints when it is called with an index
    at or beyond the port count. *)
Definition port_descriptor_warning s (i : nat) : LadspaPlugin LADSPA_Handle :=
  if i <? PortCount (_descriptor s) then s else record s EvWarning.

(** The body of the loop of [load_preset]: [parameter_is_input] asks
    [port_descriptor], which prints its diagnostic for a port out of range
    and answers 0, so that such a value is skipped.  The signal emitted for
    a value that is set is not modelled. *)
Definition load_preset_item s (item : Z * LADSPA_Data) : LadspaPlugin LADSPA_Handle :=
  let s1 := port_descriptor_warning s (to_uint32 item.1) in
  if parameter_is_input s1 (to_uint32 item.1)
  then set_parameter s1 (to_uint32 item.1) item.2 0
  else s1.

(** The values of a preset that name a port at or beyond the port count. *)
Definition out_of_range_items s (defs : list (Z * LADSPA_Data))
    : list (Z * LADSPA_Data) :=
  List.filter (fun item => negb (to_uint32 item.1 <? PortCount (_descriptor s))) defs.

(** [LadspaPlugin::load_preset], compiled with the archive ([HAVE_LRDF]):
    the value returned and the adapter afterwards.  [Plugin::load_preset]
    of the base class, which notes the preset as the last one loaded, is
    not modelled. *)
Definition load_preset s (r : PresetRecord) : bool * LadspaPlugin LADSPA_Handle :=
  (true,
   match lrdf_get_setting_values (uri r) with
   | Some defs => fold_left load_preset_item defs s
   | None => s
   end).

(** The first loop of [do_save_preset]: the ports that are inputs. *)
Definition input_parameter_pids s : list nat :=
  fold_left (fun pids i => if parameter_is_input s i then pids ++ [i] else pids)
            (seq 0 (parameter_count s)) [].

(** The second loop of [do_save_preset]: the [defaults] it hands to the
    archive, a port and the value [get_parameter] returns for it, per input
    port.  What the archive does with them, and the preset file, are not
    modelled. *)
Definition do_save_preset_defaults s : list (Z * LADSPA_Data) :=
  map (fun pid => (Z.of_nat pid, get_parameter s pid)) (input_parameter_pids s).

(** An adapter with its history left out. *)
Definition forget_log s : LadspaPlugin LADSPA_Handle :=
  {| _module_path := _module_path s; _index := _index s;
     _sample_rate := _sample_rate s; _descriptor := _descriptor s;
     _handle := _handle s;
     _control_data := _control_data s; _shadow_data := _shadow_data s;
     _latency_control_port := _latency_control_port s;
     _was_activated := _was_activated s; _log := [] |}.


(** The (port, value) pairs of the entries that carry both a number and a
    value, in document order: the calls of [set_parameter] the loop of
    [set_state] makes. *)
Definition entry_writes (l : list PortNode) : list (nat * LADSPA_Data) :=
  flat_map (fun child =>
              match pn_number child, pn_value child with
              | Some port_id, Some value => [(port_id, value)]
              | _, _ => []
              end) l.


End Queries.

(** A value within the closed range of two bounds, by the comparisons of
    the floats. *)
Definition within (lower v upper : LADSPA_Data) : Prop :=
  SFleb lower v = true /\ SFleb v upper = true.

(** ** A third plugin, for the defaults read off the bounds

    Seven input control ports: a default kind outside the nine known ones
    together with the sample-rate flag, the sample-rate flag alone,
    default-minimum, default-maximum with the sample-rate flag, a lower
    bound only, an upper bound only, and the plain range [-1, 1]. *)
Module RangePlugin.

Definition Handle : Type := unit.

Definition odd_hint : LADSPA_PortRangeHint :=
  {| HintDescriptor := 0x308; LowerBound := F32.of_Z 1; UpperBound := F32.of_Z 2 |}.

Definition rate_hint : LADSPA_PortRangeHint :=
  {| HintDescriptor := 0x8; LowerBound := F32.zero; UpperBound := F32.zero |}.

Definition minimum_hint : LADSPA_PortRangeHint :=
  {| HintDescriptor := 0x40; LowerBound := F32.of_Z 2; UpperBound := F32.of_Z 8 |}.

Definition maximum_hint : LADSPA_PortRangeHint :=
  {| HintDescriptor := 0x14B; LowerBound := F32.zero; UpperBound := F32.of_Z 3 |}.

Definition below_hint : LADSPA_PortRangeHint :=
  {| HintDescriptor := 0x1; LowerBound := F32.of_Z (-3); UpperBound := F32.zero |}.

Definition above_hint : LADSPA_PortRangeHint :=
  {| HintDescriptor := 0x2; LowerBound := F32.zero; UpperBound := F32.of_Z (-4) |}.

Definition both_hint : LADSPA_PortRangeHint :=
  {| HintDescriptor := 0x3; LowerBound := F32.of_Z (-1); UpperBound := F32.of_Z 1 |}.

Definition descriptor : LADSPA_Descriptor Handle :=
  {| UniqueID := 4444; Name := "ranges"; Properties := 0x4; PortCount := 7;
     PortDescriptors := [0x5; 0x5; 0x5; 0x5; 0x5; 0x5; 0x5]%Z;
     PortNames := ["odd"; "rate"; "minimum"; "maximum"; "below"; "above"; "both"]%string;
     PortRangeHints := [odd_hint; rate_hint; minimum_hint; maximum_hint;
                        below_hint; above_hint; both_hint];
     instantiate := Some (fun _ => Some tt);
     connect_port_fn := fun h _ _ => h;
     activate_fn := None;
     run := fun h _ ctl am => (h, [], am);
     deactivate_fn := None |}.

Definition loader (path : string) : GlibModule Handle :=
  {| module_opened := true;
     ladspa_descriptor := Some (fun index => Some descriptor) |}.

(** The adapter the constructor returns at 48000 Hz. *)
Definition constructed : LadspaPlugin Handle :=
  Eval vm_compute in
    match LadspaPlugin_new loader GainPlugin.no_libm GainPlugin.no_libm
            "ranges.so" 0 48000 with
    | Some s => s
    | None => {| _module_path := "ranges.so"; _index := 0; _sample_rate := 48000;
                 _descriptor := descriptor; _handle := tt;
                 _control_data := []; _shadow_data := [];
                 _latency_control_port := None; _was_activated := false;
                 _log := [] |}
    end.

End RangePlugin.

(** ** State documents and presets for the gain plugin *)
Module Scenarios.

(** A state document with a foreign container tag. *)
Definition foreign_document : XMLNode :=
  {| xml_name := "lv2";
     xml_children :=
       [{| pn_name := "Port"; pn_number := Some 3;
           pn_value := Some GainPlugin.seven_and_a_half |}] |}.

(** A state document that sets the gain to 7.5 among entries [set_state]
    cannot use: one without a number, one without a value, one with
    another tag and one for port 9. *)
Definition damaged_document : XMLNode :=
  {| xml_name := "ladspa";
     xml_children :=
       [{| pn_name := "Port"; pn_number := None; pn_value := Some F32.c1 |};
        {| pn_name := "Port"; pn_number := Some 3;
           pn_value := Some GainPlugin.seven_and_a_half |};
        {| pn_name := "Port"; pn_number := Some 3; pn_value := None |};
        {| pn_name := "Meta"; pn_number := Some 3; pn_value := Some F32.c1 |};
        {| pn_name := "Port"; pn_number := Some 9; pn_value := Some F32.c1 |}] |}.

(** An archive with one preset: it sets the gain to 9, names the latency
    port, an output, and port 9, which the plugin does not have, and sets
    the gain once more, to 7.5, under a port number that is 3 as a
    [uint32_t]. *)
Definition loud : PresetRecord := {| uri := "preset:loud"; label := "loud" |}.

Definition archive (preset_uri : string) : option (list (Z * LADSPA_Data)) :=
  if String.eqb preset_uri "preset:loud" then
    Some [(3, F32.of_Z 9); (4, F32.c1); (9, F32.c1);
          (2 ^ 32 + 3, GainPlugin.seven_and_a_half)]%Z
  else None.

(** An archive that answers with what [do_save_preset] handed it for the
    adapter whose gain was set to 7.5. *)
Definition saved_archive (preset_uri : string) : option (list (Z * LADSPA_Data)) :=
  Some (do_save_preset_defaults GainPlugin.tweaked).

End Scenarios.

(** The default kinds [_default_value] knows: the nine tests of its first
    case. *)
Definition recognised_default (hd : Z) : bool :=
  LADSPA_IS_HINT_DEFAULT_MINIMUM hd || LADSPA_IS_HINT_DEFAULT_LOW hd ||
  LADSPA_IS_HINT_DEFAULT_MIDDLE hd || LADSPA_IS_HINT_DEFAULT_HIGH hd ||
  LADSPA_IS_HINT_DEFAULT_MAXIMUM hd || LADSPA_IS_HINT_DEFAULT_0 hd ||
  LADSPA_IS_HINT_DEFAULT_1 hd || LADSPA_IS_HINT_DEFAULT_100 hd ||
  LADSPA_IS_HINT_DEFAULT_440 hd.

(** A logarithmic port with default-low and the negative range [-2, -1]. *)
Definition negative_log_hint : LADSPA_PortRangeHint :=
  {| HintDescriptor := 0x93; LowerBound := F32.of_Z (-2); UpperBound := F32.of_Z (-1) |}.

(** * Properties *)

(** ** The default value resolver *)
Section DefaultValueFacts.

Context {LADSPA_Handle : Type}.
Variables expf logf : LADSPA_Data -> LADSPA_Data.

Lemma default_is_unique (hd kind kind' : Z) :
  default_is hd kind = true -> kind' <> kind -> default_is hd kind' = false.
Proof.
  unfold default_is. intros Hk Hne.
  apply Z.eqb_eq in Hk. rewrite Hk. apply Z.eqb_neq. congruence.
Qed.

(** A literal default is not touched by case 5. *)
Lemma scale_by_rate_literal (hd rate : Z) (v : LADSPA_Data) :
  scale_by_rate hd rate (from_literal v) = v.
Proof.
  unfold scale_by_rate. simpl. now rewrite andb_false_r.
Qed.

Lemma scale_by_rate_bounds (hd rate : Z) (v : LADSPA_Data) :
  scale_by_rate hd rate (from_bounds v) =
  if LADSPA_IS_HINT_SAMPLE_RATE hd then F32.mul v (F32.of_Z rate) else v.
Proof.
  unfold scale_by_rate. simpl. now rewrite andb_true_r.
Qed.

(** No float is both above and below zero. *)
Lemma ltb_zero_asym (x : LADSPA_Data) :
  F32.ltb F32.zero x = true -> F32.ltb x F32.zero = false.
Proof.
  unfold F32.ltb, SFltb, SFcompare, F32.zero.
  destruct x as [sx | sx | | sx mx ex]; try destruct sx; simpl;
    intros; congruence.
Qed.

Ltac default_kind Hk :=
  unfold LADSPA_IS_HINT_DEFAULT_MINIMUM, LADSPA_IS_HINT_DEFAULT_LOW,
    LADSPA_IS_HINT_DEFAULT_MIDDLE, LADSPA_IS_HINT_DEFAULT_HIGH,
    LADSPA_IS_HINT_DEFAULT_MAXIMUM, LADSPA_IS_HINT_DEFAULT_0,
    LADSPA_IS_HINT_DEFAULT_1, LADSPA_IS_HINT_DEFAULT_100,
    LADSPA_IS_HINT_DEFAULT_440 in *;
  repeat (rewrite (default_is_unique _ _ _ Hk) by (vm_compute; discriminate));
  rewrite ?Hk.

(** C5.  A port whose hint set has has-default together with default-0,
    default-1, default-100 or default-440 resolves to exactly 0, 1, 100 or
    440; the sample rate plays no part, whether or not the hint set also
    carries the sample-rate flag. *)
Theorem default_value_literal (s : LadspaPlugin LADSPA_Handle) (port : nat) :
  let hd := HintDescriptor (port_range_hints s !!! port) in
  LADSPA_IS_HINT_HAS_DEFAULT hd = true ->
  (LADSPA_IS_HINT_DEFAULT_0 hd = true ->
     _default_value expf logf s port = F32.zero) /\
  (LADSPA_IS_HINT_DEFAULT_1 hd = true ->
     _default_value expf logf s port = F32.of_Z 1) /\
  (LADSPA_IS_HINT_DEFAULT_100 hd = true ->
     _default_value expf logf s port = F32.of_Z 100) /\
  (LADSPA_IS_HINT_DEFAULT_440 hd = true ->
     _default_value expf logf s port = F32.of_Z 440).
Proof.
  intros hd Hdef. subst hd.
  unfold _default_value, default_value_of, resolve_cases.
  rewrite Hdef.
  repeat split; intros Hk; default_kind Hk; apply scale_by_rate_literal.
Qed.

(** C7.  A port without has-default that is bounded below and above
    resolves to 0 when [LowerBound < 0 < UpperBound], to the upper bound
    when both bounds are negative and to the lower bound otherwise; that
    value is multiplied by the sample rate exactly when the hint set
    carries the sample-rate flag. *)
Theorem default_value_bounded_both (s : LadspaPlugin LADSPA_Handle) (port : nat) :
  let prh := port_range_hints s !!! port in
  let hd := HintDescriptor prh in
  let lower := LowerBound prh in
  let upper := UpperBound prh in
  LADSPA_IS_HINT_HAS_DEFAULT hd = false ->
  LADSPA_IS_HINT_BOUNDED_BELOW hd = true ->
  LADSPA_IS_HINT_BOUNDED_ABOVE hd = true ->
  exists v : LADSPA_Data,
    _default_value expf logf s port =
      (if LADSPA_IS_HINT_SAMPLE_RATE hd
       then F32.mul v (F32.of_Z (_sample_rate s)) else v) /\
    (F32.ltb lower F32.zero = true -> F32.ltb F32.zero upper = true ->
       v = F32.zero) /\
    (F32.ltb lower F32.zero = true -> F32.ltb upper F32.zero = true ->
       v = upper) /\
    (F32.ltb lower F32.zero = false \/
     (F32.ltb F32.zero upper = false /\ F32.ltb upper F32.zero = false) ->
       v = lower).
Proof.
  intros prh hd lower upper Hdef Hbelow Habove.
  unfold _default_value, default_value_of, resolve_cases.
  fold prh. fold hd. fold lower. fold upper.
  rewrite Hdef, Hbelow, Habove. simpl.
  rewrite scale_by_rate_bounds.
  eexists. split; [reflexivity |].
  pose proof (ltb_zero_asym upper) as Hasym.
  destruct (F32.ltb lower F32.zero) eqn:Hl,
           (F32.ltb F32.zero upper) eqn:Hu,
           (F32.ltb upper F32.zero) eqn:Hn; simpl;
    repeat split; intros; try reflexivity; try discriminate;
    try (specialize (Hasym eq_refl); discriminate);
    intuition discriminate.
Qed.

(** What the three interpolating defaults resolve to: the interpolation
    with weights 0.75/0.25, 0.5/0.5 and 0.25/0.75 on the lower and upper
    bound, scaled by the sample rate when the hint set says so. *)
Lemma default_value_interpolated (s : LadspaPlugin LADSPA_Handle) (port : nat) :
  let prh := port_range_hints s !!! port in
  let hd := HintDescriptor prh in
  let scaled v :=
    if LADSPA_IS_HINT_SAMPLE_RATE hd
    then F32.mul v (F32.of_Z (_sample_rate s)) else v in
  let logarithmic := LADSPA_IS_HINT_LOGARITHMIC hd in
  (LADSPA_IS_HINT_DEFAULT_LOW hd = true ->
     _default_value expf logf s port =
     scaled (interpolate expf logf logarithmic prh F32.c0_75 F32.c0_25)) /\
  (LADSPA_IS_HINT_DEFAULT_MIDDLE hd = true ->
     _default_value expf logf s port =
     scaled (interpolate expf logf logarithmic prh F32.c0_5 F32.c0_5)) /\
  (LADSPA_IS_HINT_DEFAULT_HIGH hd = true ->
     _default_value expf logf s port =
     scaled (interpolate expf logf logarithmic prh F32.c0_25 F32.c0_75)).
Proof.
  intros prh hd scaled logarithmic.
  assert (Hdef : forall kind, kind <> 0%Z -> default_is hd kind = true ->
                   LADSPA_IS_HINT_HAS_DEFAULT hd = true).
  { unfold default_is, LADSPA_IS_HINT_HAS_DEFAULT, has_bits.
    intros kind Hne Hk. apply Z.eqb_eq in Hk. rewrite Hk.
    apply negb_true_iff, Z.eqb_neq. exact Hne. }
  unfold _default_value, default_value_of, resolve_cases.
  fold prh. fold hd. fold logarithmic.
  repeat split; intros Hk;
    pose proof (fun Hne => Hdef _ Hne Hk) as Hd;
    rewrite Hd by (vm_compute; discriminate);
    default_kind Hk; apply scale_by_rate_bounds.
Qed.

(** The default of [negative_log_hint], as the code computes it. *)
Lemma negative_log_default (rate : Z) :
  default_value_of expf logf negative_log_hint rate =
    expf (F32.add (F32.mul (logf (F32.of_Z (-2))) F32.c0_75)
                  (F32.mul (logf (F32.of_Z (-1))) F32.c0_25)).
Proof. reflexivity. Qed.

(** With a C library whose [log] of a negative number is NaN and whose
    [exp] of NaN is NaN, that default is NaN. *)
Lemma negative_log_default_is_nan (rate : Z) :
  (forall x, F32.ltb x F32.zero = true -> logf x = F32.nan) ->
  expf F32.nan = F32.nan ->
  default_value_of expf logf negative_log_hint rate = F32.nan.
Proof.
  intros Hlog Hexp. rewrite negative_log_default.
  rewrite !Hlog by reflexivity. exact Hexp.
Qed.

(** C6, the code at a port that is logarithmic, has default-low and the
    range [-2, -1]: the bounds are negative and their product is positive,
    so the guard holds and the default is computed in log-space, through
    the logarithms of the two negative bounds, and not as the linear
    [0.75 * lower + 0.25 * upper]. *)
Theorem default_value_low_negative_bounds (rate : Z) :
  let prh := negative_log_hint in
  LADSPA_IS_HINT_HAS_DEFAULT (HintDescriptor prh) = true /\
  LADSPA_IS_HINT_DEFAULT_LOW (HintDescriptor prh) = true /\
  LADSPA_IS_HINT_LOGARITHMIC (HintDescriptor prh) = true /\
  F32.ltb (LowerBound prh) F32.zero = true /\
  F32.ltb (UpperBound prh) F32.zero = true /\
  log_interpolation true prh = true /\
  default_value_of expf logf prh rate =
    expf (F32.add (F32.mul (logf (LowerBound prh)) F32.c0_75)
                  (F32.mul (logf (UpperBound prh)) F32.c0_25)).
Proof.
  repeat (split; [reflexivity |]). apply negative_log_default.
Qed.

End DefaultValueFacts.

(** ** The float operations the adapter relies on *)
Section FloatFacts.

(** [==] holds between identical floats and between the two zeros only. *)
Lemma eqb_true_identical_or_zeros (x y : LADSPA_Data) :
  F32.eqb x y = true ->
  x = y \/ exists sx sy, x = S754_zero sx /\ y = S754_zero sy.
Proof.
  unfold F32.eqb, SFeqb, SFcompare.
  destruct x as [sx | sx | | sx mx ex], y as [sy | sy | | sy my ey];
    intros Hcmp;
    try discriminate;
    try (destruct sx; discriminate);
    try (destruct sy; discriminate).
  - right. now exists sx, sy.
  - left. destruct sx, sy; (discriminate || reflexivity).
  - left.
    destruct sx, sy; try discriminate;
      destruct (Z.compare_spec ex ey) as [-> | |]; try discriminate;
      change (Pos.compare_cont Eq mx my) with (Pos.compare mx my) in Hcmp;
      destruct (Pos.compare_spec mx my) as [-> | |]; try discriminate;
      reflexivity.
Qed.

(** [F32.floor] is the floor: the largest integer not above the value
    [(-1)^s * m * 2^e]. *)
Lemma floor_finite (s : bool) (m : positive) (e z : Z) :
  F32.floor (S754_finite s m e) = Some z ->
  let n := cond_Zopp s (Zpos m) in
  ((0 <= e)%Z -> z = (n * 2 ^ e)%Z) /\
  ((e < 0)%Z -> (z * 2 ^ (- e) <= n < (z + 1) * 2 ^ (- e))%Z).
Proof.
  intros Hz. cbv zeta. set (n := cond_Zopp s (Z.pos m)).
  simpl in Hz. injection Hz as <-. fold n. split.
  - intros He. now apply Z.shiftl_mul_pow2.
  - intros He.
    rewrite <- (Z.opp_involutive e) at 1 3.
    rewrite Z.shiftl_opp_r, Z.shiftr_div_pow2 by lia.
    assert (Hpow : (0 < 2 ^ (- e))%Z) by (apply Z.pow_pos_nonneg; lia).
    pose proof (Z.div_mod n (2 ^ (- e))) as Hdm.
    pose proof (Z.mod_pos_bound n (2 ^ (- e)) Hpow) as Hmod.
    nia.
Qed.

Example floor_64_5 : F32.floor (F32.of_scaled 129 (-1)) = Some 64%Z.
Proof. reflexivity. Qed.

Example floor_minus_64_5 : F32.floor (F32.of_scaled (-129) (-1)) = Some (-65)%Z.
Proof. reflexivity. Qed.

Example literal_440 : F32.c440 = S754_finite false 14417920 (-15).
Proof. reflexivity. Qed.

Example literal_0_75 : F32.c0_75 = S754_finite false 12582912 (-24).
Proof. reflexivity. Qed.

End FloatFacts.

(** ** The parameter store *)
Section ParameterFacts.

Context {LADSPA_Handle : Type}.
Implicit Types s : LadspaPlugin LADSPA_Handle.

Lemma port_descriptor_same_descriptor s s' (i : nat) :
  _descriptor s' = _descriptor s -> port_descriptor s' i = port_descriptor s i.
Proof. unfold port_descriptor. now intros ->. Qed.

Lemma is_input_control_same_descriptor s s' (i : nat) :
  _descriptor s' = _descriptor s -> is_input_control s' i = is_input_control s i.
Proof.
  intros Hd. unfold is_input_control.
  now rewrite (port_descriptor_same_descriptor _ _ _ Hd).
Qed.

Lemma set_parameter_descriptor s which val when :
  _descriptor (set_parameter s which val when) = _descriptor s.
Proof.
  unfold set_parameter.
  destruct (which <? _); [destruct (F32.eqb _ _) |]; reflexivity.
Qed.

Lemma set_parameter_control_data s which val when :
  _control_data (set_parameter s which val when) = _control_data s.
Proof.
  unfold set_parameter.
  destruct (which <? _); [destruct (F32.eqb _ _) |]; reflexivity.
Qed.

Lemma set_parameter_allocated s which val when :
  allocated s -> allocated (set_parameter s which val when).
Proof.
  unfold allocated, set_parameter. intros [Hc Hs].
  destruct (which <? _); [destruct (F32.eqb _ _) |]; simpl;
    rewrite ?length_insert; auto.
Qed.

(** The shadow slot of an input port after [set_parameter]: the old value
    when it compared equal to the new one, the new value otherwise. *)
Lemma set_parameter_shadow_input s which val when :
  which < PortCount (_descriptor s) ->
  which < length (_shadow_data s) ->
  LADSPA_IS_PORT_INPUT (port_descriptor s which) = true ->
  _shadow_data (set_parameter s which val when) !!! which =
    (if F32.eqb (_shadow_data s !!! which) val
     then _shadow_data s !!! which else val).
Proof.
  intros Hrange Hlen Hin. unfold set_parameter, get_parameter.
  apply Nat.ltb_lt in Hrange. rewrite Hrange, Hin.
  destruct (F32.eqb _ _); [reflexivity |]. simpl.
  now apply list_lookup_total_insert_eq.
Qed.

Lemma set_parameter_shadow_other s which val when (j : nat) :
  j <> which ->
  _shadow_data (set_parameter s which val when) !!! j = _shadow_data s !!! j.
Proof.
  intros Hne. unfold set_parameter.
  destruct (which <? _); [destruct (F32.eqb _ _) |]; simpl; try reflexivity.
  now apply list_lookup_total_insert_ne.
Qed.

Lemma same_value_after_write (old v : LADSPA_Data) :
  F32.same_value (if F32.eqb old v then old else v) v.
Proof.
  unfold F32.same_value. destruct (F32.eqb old v) eqn:He; [| now left].
  destruct (eqb_true_identical_or_zeros _ _ He) as [-> | (sx & sy & -> & ->)];
    [now left | now right].
Qed.

(** C2.  [get_parameter] returns the shadow value of an input port and the
    live value of any other port.  On an in-range input port,
    [set_parameter (i, v)] followed by [get_parameter (i)] returns [v]
    with no processing call in between: the value read back is the [v]
    just stored, or, when the write was elided because the visible value
    already compared equal to [v], that equal value.  On a port that is
    not an input, [get_parameter] is unaffected by [set_parameter]. *)
Theorem get_parameter_shadow_or_live s (i : nat) (v : LADSPA_Data) (when : Z) :
  get_parameter s i =
    (if LADSPA_IS_PORT_INPUT (port_descriptor s i)
     then _shadow_data s !!! i else _control_data s !!! i) /\
  (i < PortCount (_descriptor s) -> allocated s ->
   LADSPA_IS_PORT_INPUT (port_descriptor s i) = true ->
   get_parameter (set_parameter s i v when) i =
     (if F32.eqb (get_parameter s i) v then get_parameter s i else v) /\
   F32.same_value (get_parameter (set_parameter s i v when) i) v) /\
  (LADSPA_IS_PORT_INPUT (port_descriptor s i) = false ->
   get_parameter (set_parameter s i v when) i = get_parameter s i).
Proof.
  split; [reflexivity |]. split.
  - intros Hrange [_ Hlen] Hin.
    assert (Hget : get_parameter (set_parameter s i v when) i =
                   if F32.eqb (get_parameter s i) v then get_parameter s i else v).
    { unfold get_parameter at 1.
      rewrite (port_descriptor_same_descriptor _ _ _
                 (set_parameter_descriptor s i v when)), Hin.
      rewrite set_parameter_shadow_input by (auto; lia).
      unfold get_parameter. now rewrite Hin. }
    split; [exact Hget |]. rewrite Hget. apply same_value_after_write.
  - intros Hout. unfold get_parameter.
    rewrite (port_descriptor_same_descriptor _ _ _
               (set_parameter_descriptor s i v when)), Hout.
    now rewrite set_parameter_control_data.
Qed.

(** C3.  [set_parameter] with an index at or beyond the port count changes
    no shadow and no live value (it prints a warning and returns); with an
    in-range index whose visible value already equals [val] it changes
    nothing at all; otherwise it stores [val] in the shadow slot of that
    index and leaves every live value and every other shadow value as it
    was.  A second identical call changes no shadow and no live value. *)
Theorem set_parameter_cases s (which : nat) (val : LADSPA_Data) (when : Z) :
  let s' := set_parameter s which val when in
  (PortCount (_descriptor s) <= which ->
     _shadow_data s' = _shadow_data s /\
     _control_data s' = _control_data s /\
     _log s' = _log s ++ [EvWarning; EvPluginSetParameter which val when]) /\
  (which < PortCount (_descriptor s) ->
   F32.eqb (get_parameter s which) val = true ->
     s' = s) /\
  (which < PortCount (_descriptor s) ->
   F32.eqb (get_parameter s which) val = false ->
     _shadow_data s' = <[which := val]> (_shadow_data s) /\
     (forall j, j <> which -> _shadow_data s' !!! j = _shadow_data s !!! j) /\
     _control_data s' = _control_data s) /\
  (_shadow_data (set_parameter s' which val when) = _shadow_data s' /\
   _control_data (set_parameter s' which val when) = _control_data s').
Proof.
  intros s'. subst s'. split; [| split; [| split]].
  - intros Hge. apply Nat.ltb_ge in Hge. split; [| split].
    + unfold set_parameter. now rewrite Hge.
    + apply set_parameter_control_data.
    + unfold set_parameter. rewrite Hge. simpl. now rewrite <- app_assoc.
  - intros Hlt Heq. unfold set_parameter.
    apply Nat.ltb_lt in Hlt. now rewrite Hlt, Heq.
  - intros Hlt Hne. split; [| split].
    + unfold set_parameter.
      apply Nat.ltb_lt in Hlt. now rewrite Hlt, Hne.
    + intros j Hj. now apply set_parameter_shadow_other.
    + apply set_parameter_control_data.
  - split; [| apply set_parameter_control_data].
    destruct (which <? PortCount (_descriptor s)) eqn:Hlt.
    + destruct (F32.eqb (get_parameter s which) val) eqn:He.
      * assert (set_parameter s which val when = s) as ->
          by (unfold set_parameter; now rewrite Hlt, He).
        unfold set_parameter. now rewrite Hlt, He.
      * assert (set_parameter s which val when =
                Plugin_set_parameter (store_shadow s which val) which val when)
          as -> by (unfold set_parameter; now rewrite Hlt, He).
        unfold set_parameter. simpl. rewrite Hlt.
        destruct (F32.eqb (get_parameter (Plugin_set_parameter _ _ _ _) _) _);
          simpl; [reflexivity | apply list_insert_insert_eq].
    + unfold set_parameter. rewrite Hlt. simpl. now rewrite Hlt.
Qed.

End ParameterFacts.

(** ** Loops over the ports *)
Section LoopFacts.

Lemma fold_left_seq_invariant {A : Type} (f : A -> nat -> A)
    (P : nat -> A -> Prop) (n : nat) (a : A) :
  P 0 a ->
  (forall k x, k < n -> P k x -> P (S k) (f x k)) ->
  P n (fold_left f (seq 0 n) a).
Proof.
  intros Hinit Hstep. induction n as [| n IH].
  - exact Hinit.
  - rewrite seq_S, fold_left_app. simpl.
    apply Hstep; [lia |]. apply IH.
    intros k x Hk. apply Hstep. lia.
Qed.

Lemma count_events_app (p : Event -> bool) (l1 l2 : list Event) :
  count_events p (l1 ++ l2) = count_events p l1 + count_events p l2.
Proof.
  induction l1 as [| ev l1 IH]; simpl; [reflexivity |].
  rewrite IH. lia.
Qed.

Lemma connection_app (log1 log2 : list Event) (port : nat) :
  connection (log1 ++ log2) port =
  match connection log2 port with
  | Some a => Some a
  | None => connection log1 port
  end.
Proof.
  induction log1 as [| ev log1 IH]; simpl.
  - now destruct (connection log2 port).
  - rewrite IH. destruct (connection log2 port); [reflexivity |].
    reflexivity.
Qed.

End LoopFacts.

(** ** The processing call *)
Section ProcessFacts.

Context {LADSPA_Handle : Type}.
Implicit Types s x : LadspaPlugin LADSPA_Handle.

Lemma is_input_control_in_range s (i : nat) :
  is_input_control s i = true -> i < PortCount (_descriptor s).
Proof.
  unfold is_input_control, port_descriptor.
  destruct (Nat.ltb_spec i (PortCount (_descriptor s))); [auto |].
  discriminate.
Qed.

Lemma copy_shadow_port_step s (k : nat) x :
  allocated s -> k < PortCount (_descriptor s) ->
  copied_up_to s k x -> copied_up_to s (S k) (copy_shadow_port x k).
Proof.
  intros [Hlen _] Hk (Hd & Hh & Hsh & Hact & Hlat & Hl & Hin & Hout & evs & Hlog & Hrun & Hcon & Hcnt).
  unfold copy_shadow_port.
  rewrite (is_input_control_same_descriptor _ _ _ Hd).
  destruct (is_input_control s k) eqn:Hic.
  - unfold copied_up_to, store_control. simpl.
    rewrite length_insert, Hsh.
    repeat (split; [first [assumption | reflexivity] |]).
    split; [| split].
    + intros i Hi Hici.
      destruct (Nat.eq_dec i k) as [-> | Hne].
      * apply list_lookup_total_insert_eq. lia.
      * rewrite list_lookup_total_insert_ne by auto. apply Hin; [lia | auto].
    + intros i Hi.
      rewrite list_lookup_total_insert_ne.
      * apply Hout. destruct Hi; [left; lia | auto].
      * intros ->. destruct Hi; [lia | congruence].
    + exists (evs ++ [EvStoreControl k (_shadow_data s !!! k)]).
      rewrite Hlog, <- app_assoc. split; [reflexivity |].
      rewrite !count_events_app. simpl. split; [lia |]. split; [lia |].
      intros i. rewrite count_events_app, Hcnt. simpl.
      destruct (Nat.eqb_spec k i) as [<- | Hne].
      * rewrite Hic.
        replace (k <? k) with false by (symmetry; apply Nat.ltb_ge; lia).
        replace (k <? S k) with true by (symmetry; apply Nat.ltb_lt; lia).
        reflexivity.
      * replace (i <? S k) with (i <? k); [lia |].
        destruct (Nat.ltb_spec i k), (Nat.ltb_spec i (S k)); auto; lia.
  - unfold copied_up_to.
    repeat (split; [assumption |]).
    split; [| split].
    + intros i Hi Hici.
      destruct (Nat.eq_dec i k) as [-> | Hne]; [congruence |].
      apply Hin; [lia | auto].
    + intros i Hi.
      destruct (Nat.eq_dec i k) as [-> | Hne]; [apply Hout; auto |].
      apply Hout. destruct Hi; [left; lia | auto].
    + exists evs. repeat (split; [assumption |]).
      intros i. rewrite Hcnt.
      destruct (Nat.eq_dec i k) as [-> | Hne].
      * rewrite Hic, !andb_false_r. reflexivity.
      * replace (i <? S k) with (i <? k); [reflexivity |].
        destruct (Nat.ltb_spec i k), (Nat.ltb_spec i (S k)); auto; lia.
Qed.

Lemma copy_shadow_copied s :
  allocated s -> copied_up_to s (PortCount (_descriptor s)) (copy_shadow s).
Proof.
  intros Halloc. unfold copy_shadow, parameter_count.
  apply fold_left_seq_invariant.
  - unfold copied_up_to. repeat (split; [reflexivity |]).
    split; [intros; lia |]. split; [reflexivity |].
    exists []. rewrite app_nil_r. repeat split. 
  - intros k x Hk. now apply copy_shadow_port_step.
Qed.

Lemma connects_only_refl s : connects_only s s.
Proof.
  unfold connects_only. repeat (split; [reflexivity |]).
  exists []. rewrite app_nil_r. repeat split.
Qed.

Lemma connects_only_connect_port s x (port : nat) (a : Addr) :
  connects_only s x -> connects_only s (connect_port x port a).
Proof.
  intros (Hd & Hc & Hsh & Hact & Hlat & evs & Hlog & Hrun & Hst).
  unfold connects_only, connect_port. simpl.
  repeat (split; [assumption |]).
  exists (evs ++ [EvConnectPort port a]).
  rewrite Hlog, <- app_assoc. split; [reflexivity |].
  rewrite count_events_app. simpl. split; [lia |].
  intros i. rewrite count_events_app, Hst. reflexivity.
Qed.

Lemma connection_snoc_connect (log : list Event) (port q : nat) (a : Addr) :
  connection (log ++ [EvConnectPort port a]) q =
  if port =? q then Some a else connection log q.
Proof.
  rewrite connection_app. simpl. now destruct (port =? q).
Qed.

Ltac connection_of_connect_port :=
  unfold connect_port; simpl; rewrite connection_snoc_connect.

Lemma audio_in_rank_S s (k : nat) :
  audio_in_rank s (S k) =
  audio_in_rank s k + (if is_audio_input s k then 1 else 0).
Proof.
  unfold audio_in_rank. rewrite seq_S, List.filter_app, length_app. simpl.
  now destruct (is_audio_input s k).
Qed.

Lemma audio_out_rank_S s (k : nat) :
  audio_out_rank s (S k) =
  audio_out_rank s k + (if is_audio_output s k then 1 else 0).
Proof.
  unfold audio_out_rank. rewrite seq_S, List.filter_app, length_app. simpl.
  now destruct (is_audio_output s k).
Qed.

Lemma route_port_step s (in_map out_map : ChanMapping) (offset k : nat)
    (st : LadspaPlugin LADSPA_Handle * nat * nat) :
  routed_up_to s in_map out_map offset k st ->
  routed_up_to s in_map out_map offset (S k) (route_port in_map out_map offset st k).
Proof.
  destruct st as [[x ci] co]. unfold routed_up_to. simpl.
  intros (Hco & -> & -> & Hin & Hout).
  assert (Hd : _descriptor x = _descriptor s) by apply Hco.
  rewrite audio_in_rank_S, audio_out_rank_S.
  unfold is_audio_input at 1, is_audio_output at 1.
  rewrite (port_descriptor_same_descriptor _ _ _ Hd).
  assert (Hold_in : forall p, p < S k -> p <> k -> is_audio_input s p = true ->
            connection (_log x) p =
            Some match in_map (audio_in_rank s p) with
                 | Some buf_index => ABufs buf_index offset
                 | None => ASilent offset
                 end) by (intros; apply Hin; [lia | auto]).
  assert (Hold_out : forall p, p < S k -> p <> k -> is_audio_output s p = true ->
            connection (_log x) p =
            Some match out_map (audio_out_rank s p) with
                 | Some buf_index => ABufs buf_index offset
                 | None => AScratch offset
                 end) by (intros; apply Hout; [lia | auto]).
  destruct (LADSPA_IS_PORT_AUDIO (port_descriptor s k)) eqn:Ha;
    [destruct (LADSPA_IS_PORT_INPUT (port_descriptor s k)) eqn:Hi;
       [| destruct (LADSPA_IS_PORT_OUTPUT (port_descriptor s k)) eqn:Ho] |];
    simpl.
  - split; [now apply connects_only_connect_port |].
    split; [lia |]. split; [lia |]. split.
    + intros p Hp Hap. connection_of_connect_port.
      destruct (Nat.eqb_spec k p) as [<- | Hne]; [reflexivity | auto].
    + intros p Hp Hap. connection_of_connect_port.
      destruct (Nat.eqb_spec k p) as [<- | Hne]; [| auto].
      unfold is_audio_output in Hap. rewrite Ha, Hi in Hap. discriminate.
  - split; [now apply connects_only_connect_port |].
    split; [lia |]. split; [lia |]. split.
    + intros p Hp Hap. connection_of_connect_port.
      destruct (Nat.eqb_spec k p) as [<- | Hne]; [| auto].
      unfold is_audio_input in Hap. rewrite Ha, Hi in Hap. discriminate.
    + intros p Hp Hap. connection_of_connect_port.
      destruct (Nat.eqb_spec k p) as [<- | Hne]; [reflexivity | auto].
  - split; [assumption |]. split; [lia |]. split; [lia |]. split.
    + intros p Hp Hap. destruct (Nat.eq_dec p k) as [-> | Hne]; [| auto].
      unfold is_audio_input in Hap. rewrite Ha, Hi in Hap. discriminate.
    + intros p Hp Hap. destruct (Nat.eq_dec p k) as [-> | Hne]; [| auto].
      unfold is_audio_output in Hap. rewrite Ha, Hi, Ho in Hap. discriminate.
  - split; [assumption |]. split; [lia |]. split; [lia |]. split.
    + intros p Hp Hap. destruct (Nat.eq_dec p k) as [-> | Hne]; [| auto].
      unfold is_audio_input in Hap. rewrite Ha in Hap. discriminate.
    + intros p Hp Hap. destruct (Nat.eq_dec p k) as [-> | Hne]; [| auto].
      unfold is_audio_output in Hap. rewrite Ha in Hap. discriminate.
Qed.

Lemma route_ports_routed s (in_map out_map : ChanMapping) (offset : nat) :
  routed_up_to s in_map out_map offset (PortCount (_descriptor s))
               (route_ports s in_map out_map offset).
Proof.
  unfold route_ports, parameter_count.
  apply fold_left_seq_invariant.
  - unfold routed_up_to. simpl.
    split; [apply connects_only_refl |].
    repeat split; intros; lia.
  - intros k x _. apply route_port_step.
Qed.


Lemma probe_connect_step s (k : nat) x :
  probed_up_to s k x -> probed_up_to s (S k) (probe_connect x k).
Proof.
  intros [Hco Hprobe].
  assert (Hd : _descriptor x = _descriptor s) by apply Hco.
  assert (Hold : forall p, p < S k -> p <> k ->
            is_audio_input s p || is_audio_output s p = true ->
            connection (_log x) p = Some AProbe)
    by (intros; apply Hprobe; [lia | auto]).
  unfold probe_connect, probed_up_to.
  rewrite (port_descriptor_same_descriptor _ _ _ Hd).
  destruct (LADSPA_IS_PORT_AUDIO (port_descriptor s k)) eqn:Ha;
    [destruct (LADSPA_IS_PORT_INPUT (port_descriptor s k)) eqn:Hi;
       [| destruct (LADSPA_IS_PORT_OUTPUT (port_descriptor s k)) eqn:Ho] |].
  - split; [now apply connects_only_connect_port |].
    intros p Hp Hap. connection_of_connect_port.
    destruct (Nat.eqb_spec k p) as [<- | Hne]; [reflexivity | auto].
  - split; [now apply connects_only_connect_port |].
    intros p Hp Hap. connection_of_connect_port.
    destruct (Nat.eqb_spec k p) as [<- | Hne]; [reflexivity | auto].
  - split; [assumption |].
    intros p Hp Hap. destruct (Nat.eq_dec p k) as [-> | Hne]; [| auto].
    unfold is_audio_input, is_audio_output in Hap.
    rewrite Ha, Hi, Ho in Hap. discriminate.
  - split; [assumption |].
    intros p Hp Hap. destruct (Nat.eq_dec p k) as [-> | Hne]; [| auto].
    unfold is_audio_input, is_audio_output in Hap.
    rewrite Ha in Hap. discriminate.
Qed.

Lemma copy_shadow_enters_run s :
  allocated s -> enters_run s (copy_shadow s).
Proof.
  intros Halloc.
  destruct (copy_shadow_copied s Halloc)
    as (Hd & _ & Hsh & _ & _ & _ & Hin & Hout & evs & Hlog & Hrun & _ & Hcnt).
  unfold enters_run. repeat (split; [assumption |]).
  split; [| split].
  - intros i Hic. apply Hin; [| exact Hic].
    now apply is_input_control_in_range.
  - intros i Hic. apply Hout. now right.
  - exists evs. repeat (split; [assumption |]).
    intros i. rewrite Hcnt.
    destruct (is_input_control s i) eqn:Hic; [| now rewrite andb_false_r].
    apply is_input_control_in_range, Nat.ltb_lt in Hic. now rewrite Hic.
Qed.

Lemma connection_no_connect (evs : list Event) (q : nat) :
  count_events is_connect evs = 0 -> connection evs q = None.
Proof.
  induction evs as [| ev evs IH]; simpl; [reflexivity |].
  intros Hcnt. rewrite IH by lia.
  destruct ev; simpl in Hcnt; try reflexivity. lia.
Qed.

Lemma connection_app_no_connect (log evs : list Event) (q : nat) :
  count_events is_connect evs = 0 ->
  connection (log ++ evs) q = connection log q.
Proof.
  intros Hcnt. rewrite connection_app.
  now rewrite (connection_no_connect _ _ Hcnt).
Qed.

Lemma connects_only_allocated s x :
  connects_only s x -> allocated s -> allocated x.
Proof.
  intros (Hd & Hc & Hsh & _) [Hlc Hls].
  unfold allocated. now rewrite Hd, Hc, Hsh.
Qed.

Lemma enters_run_after_connects s x y :
  connects_only s x -> enters_run x y -> enters_run s y.
Proof.
  intros (Hd & Hc & Hsh & _ & _ & evs & Hlog & Hrun & Hst)
         (Hd' & Hsh' & Hin & Hout & evs' & Hlog' & Hrun' & Hst').
  assert (Hic : forall i, is_input_control x i = is_input_control s i)
    by (intros; now apply is_input_control_same_descriptor).
  unfold enters_run.
  split; [congruence |]. split; [congruence |]. split; [| split].
  - intros i Hi. rewrite <- Hsh. apply Hin. now rewrite Hic.
  - intros i Hi. rewrite <- Hc. apply Hout. now rewrite Hic.
  - exists (evs ++ evs'). rewrite Hlog', Hlog, <- app_assoc.
    split; [reflexivity |]. rewrite count_events_app. split; [lia |].
    intros i. rewrite count_events_app, Hst, Hst', Hic. reflexivity.
Qed.

Lemma copy_shadow_was_activated s :
  allocated s -> _was_activated (copy_shadow s) = _was_activated s.
Proof. intros Halloc. apply (copy_shadow_copied s Halloc). Qed.

Lemma descriptor_run_log x (am : AudioMem) (nframes : nat) :
  _log (descriptor_run x am nframes).1 = _log x ++ [EvRun nframes].
Proof.
  unfold descriptor_run. now destruct (run _ _ _ _ _) as [[h writes] am'].
Qed.

Lemma run_in_place_activated s (am : AudioMem) (nframes : nat) :
  allocated s -> _was_activated s = true ->
  run_in_place s am nframes = Some (descriptor_run (copy_shadow s) am nframes).
Proof.
  intros Halloc Hact. unfold run_in_place.
  now rewrite copy_shadow_was_activated, Hact.
Qed.

Lemma connect_and_run_activated s (sess : Session) (bufs : list (list LADSPA_Data))
    (in_map out_map : ChanMapping) (nframes offset : nat) :
  allocated s -> _was_activated s = true ->
  connect_and_run s sess bufs in_map out_map nframes offset =
  Some (0%Z,
        (descriptor_run (process_entry s in_map out_map offset)
                        (process_memory sess bufs) nframes).1,
        (descriptor_run (process_entry s in_map out_map offset)
                        (process_memory sess bufs) nframes).2).
Proof.
  intros Halloc Hact. unfold connect_and_run, process_entry.
  destruct (route_ports_routed s in_map out_map offset) as [Hco _].
  rewrite run_in_place_activated.
  - now destruct (descriptor_run _ _ _).
  - now apply (connects_only_allocated s).
  - destruct Hco as (_ & _ & _ & -> & _). exact Hact.
Qed.

(** C1.  In every processing call, [run_in_place] on its own or inside
    [connect_and_run], [run] is entered in a state in which the live value
    of every input control port is the current shadow value, stored there
    exactly once since the call began, before [run] is called; no other
    live slot was stored to, so this copy is all of the shadow array that
    the plugin gets to see, and the shadow array itself is not changed. *)
Theorem shadow_copied_once_before_run s (am : AudioMem) (sess : Session)
    (bufs : list (list LADSPA_Data)) (in_map out_map : ChanMapping)
    (nframes offset : nat) :
  allocated s -> _was_activated s = true ->
  (enters_run s (copy_shadow s) /\
   run_in_place s am nframes = Some (descriptor_run (copy_shadow s) am nframes) /\
   _log (descriptor_run (copy_shadow s) am nframes).1 =
     _log (copy_shadow s) ++ [EvRun nframes]) /\
  (let entry := process_entry s in_map out_map offset in
   let result := descriptor_run entry (process_memory sess bufs) nframes in
   enters_run s entry /\
   connect_and_run s sess bufs in_map out_map nframes offset =
     Some (0%Z, result.1, result.2) /\
   _log result.1 = _log entry ++ [EvRun nframes]).
Proof.
  intros Halloc Hact. split.
  - split; [now apply copy_shadow_enters_run |].
    split; [now apply run_in_place_activated | apply descriptor_run_log].
  - simpl. split; [| split].
    + destruct (route_ports_routed s in_map out_map offset) as [Hco _].
      apply (enters_run_after_connects s _ _ Hco).
      apply copy_shadow_enters_run. now apply (connects_only_allocated s).
    + now apply connect_and_run_activated.
    + apply descriptor_run_log.
Qed.

Lemma is_audio_input_in_range s (p : nat) :
  is_audio_input s p = true -> p < PortCount (_descriptor s).
Proof.
  unfold is_audio_input, port_descriptor.
  destruct (Nat.ltb_spec p (PortCount (_descriptor s))); [auto |].
  discriminate.
Qed.

Lemma is_audio_output_in_range s (p : nat) :
  is_audio_output s p = true -> p < PortCount (_descriptor s).
Proof.
  unfold is_audio_output, port_descriptor.
  destruct (Nat.ltb_spec p (PortCount (_descriptor s))); [auto |].
  discriminate.
Qed.




End ProcessFacts.

(** ** Construction and the latency probe *)
Section ConstructionFacts.

Context {LADSPA_Handle : Type}.
Variable Glib_Module : string -> GlibModule LADSPA_Handle.
Variables expf logf : LADSPA_Data -> LADSPA_Data.
Implicit Types s x : LadspaPlugin LADSPA_Handle.

Lemma apply_writes_length (writes : list (nat * LADSPA_Data)) (ctl : list LADSPA_Data) :
  length (apply_writes writes ctl) = length ctl.
Proof.
  unfold apply_writes. revert ctl.
  induction writes as [| w writes IH]; intros ctl; simpl; [reflexivity |].
  now rewrite IH, length_insert.
Qed.

Lemma written_from (writes : list (nat * LADSPA_Data)) (port : nat)
    (acc : option LADSPA_Data) :
  fold_left (fun acc w => if w.1 =? port then Some w.2 else acc) writes acc =
  match written writes port with
  | Some v => Some v
  | None => acc
  end.
Proof.
  unfold written. revert acc.
  induction writes as [| w writes IH]; intros acc; simpl; [reflexivity |].
  rewrite IH, (IH (if w.1 =? port then Some w.2 else None)).
  destruct (fold_left _ writes None); [reflexivity |].
  now destruct (w.1 =? port).
Qed.

(** A live slot after [run]: the last value the plugin stored to it, or
    the value it had when the plugin stored nothing there. *)
Lemma apply_writes_lookup (writes : list (nat * LADSPA_Data))
    (ctl : list LADSPA_Data) (port : nat) :
  port < length ctl ->
  apply_writes writes ctl !!! port =
  match written writes port with
  | Some v => v
  | None => ctl !!! port
  end.
Proof.
  revert ctl. induction writes as [| w writes IH]; intros ctl Hlen;
    [reflexivity |].
  change (apply_writes (w :: writes) ctl)
    with (apply_writes writes (<[w.1 := w.2]> ctl)).
  rewrite IH by now rewrite length_insert.
  unfold written at 2. simpl. rewrite written_from.
  destruct (written writes port); [reflexivity |].
  destruct (Nat.eqb_spec w.1 port) as [-> | Hne].
  - now apply list_lookup_total_insert_eq.
  - now apply list_lookup_total_insert_ne.
Qed.

Lemma default_value_same s x (i : nat) :
  _descriptor x = _descriptor s -> _sample_rate x = _sample_rate s ->
  _default_value expf logf x i = _default_value expf logf s i.
Proof.
  unfold _default_value, port_range_hints. now intros -> ->.
Qed.

Lemma is_latency_port_in_range s (p : nat) :
  is_latency_port s p = true -> p < PortCount (_descriptor s).
Proof.
  unfold is_latency_port, port_descriptor.
  destruct (Nat.ltb_spec p (PortCount (_descriptor s))); [auto |].
  discriminate.
Qed.

Lemma init_port_step (s0 : LadspaPlugin LADSPA_Handle) (k : nat) x :
  k < length (_control_data s0) -> k < length (_shadow_data s0) ->
  initialised_up_to expf logf s0 k x ->
  initialised_up_to expf logf s0 (S k) (init_port expf logf x k).
Proof.
  intros Hkc Hks
    (Hp & Hi & Hr & Hd & Hact & Hlc & Hls & Hdef & Hframe & Hlat & evs & Hlog & Hrun).
  assert (Hold : forall i, i < S k -> i <> k ->
            LADSPA_IS_PORT_CONTROL (port_descriptor s0 i) = true ->
            _shadow_data x !!! i = _default_value expf logf s0 i /\
            _control_data x !!! i = _default_value expf logf s0 i)
    by (intros; apply Hdef; [lia | auto]).
  assert (Hrest : forall i,
            S k <= i \/ LADSPA_IS_PORT_CONTROL (port_descriptor s0 i) = false ->
            _shadow_data x !!! i = _shadow_data s0 !!! i /\
            _control_data x !!! i = _control_data s0 !!! i)
    by (intros i [Hge | Hnc]; apply Hframe; [left; lia | now right]).
  unfold init_port.
  rewrite (port_descriptor_same_descriptor _ _ _ Hd).
  destruct (LADSPA_IS_PORT_CONTROL (port_descriptor s0 k)) eqn:Hctl.
  - assert (Hlatk : LADSPA_IS_PORT_OUTPUT
                      (port_descriptor (connect_port x k (AControl k)) k) &&
                    String.eqb (port_names (connect_port x k (AControl k)) !!! k)
                               "latency" = is_latency_port s0 k).
    { unfold is_latency_port, port_names, port_descriptor in Hctl |- *.
      simpl. rewrite Hd, Hctl. reflexivity. }
    rewrite Hlatk.
    destruct (is_latency_port s0 k) eqn:Hlk.
    + unfold initialised_up_to. simpl.
      rewrite !length_insert.
      rewrite (default_value_same s0) by (simpl; assumption).
      repeat (split; [assumption |]).
      rewrite (list_lookup_total_insert_eq (_shadow_data x)) by lia.
      split; [| split; [| split]].
      * intros i Hik Hci. destruct (Nat.eq_dec i k) as [-> | Hne].
        -- split; apply list_lookup_total_insert_eq;
             rewrite ?length_insert; lia.
        -- rewrite !list_lookup_total_insert_ne by auto. now apply Hold.
      * intros i Hik.
        assert (i <> k) by (intros ->; destruct Hik; [lia | congruence]).
        rewrite !list_lookup_total_insert_ne by auto. now apply Hrest.
      * split; [lia |]. split; [exact Hlk |]. intros; lia.
      * eexists. rewrite Hlog, <- !app_assoc. split; [reflexivity |].
        rewrite !count_events_app. simpl. lia.
    + unfold initialised_up_to. simpl.
      rewrite !length_insert.
      rewrite (default_value_same s0) by (simpl; assumption).
      repeat (split; [assumption |]).
      rewrite (list_lookup_total_insert_eq (_shadow_data x)) by lia.
      split; [| split; [| split]].
      * intros i Hik Hci. destruct (Nat.eq_dec i k) as [-> | Hne].
        -- split; apply list_lookup_total_insert_eq; lia.
        -- rewrite !list_lookup_total_insert_ne by auto. now apply Hold.
      * intros i Hik.
        assert (i <> k) by (intros ->; destruct Hik; [lia | congruence]).
        rewrite !list_lookup_total_insert_ne by auto. now apply Hrest.
      * destruct (_latency_control_port x) as [p |].
        -- destruct Hlat as (Hpk & Hlp & Hafter).
           split; [lia |]. split; [exact Hlp |].
           intros q Hpq Hqk. destruct (Nat.eq_dec q k) as [-> | Hne];
             [exact Hlk | apply Hafter; lia].
        -- destruct Hlat as [Hnone Hbefore]. split; [exact Hnone |].
           intros q Hqk. destruct (Nat.eq_dec q k) as [-> | Hne];
             [exact Hlk | apply Hbefore; lia].
      * eexists. rewrite Hlog, <- !app_assoc. split; [reflexivity |].
        rewrite !count_events_app. simpl. lia.
  - assert (Hlk : is_latency_port s0 k = false)
      by (unfold is_latency_port; now rewrite Hctl).
    unfold initialised_up_to.
    repeat (split; [assumption |]).
    split; [| split; [| split]].
    + intros i Hik Hci. destruct (Nat.eq_dec i k) as [-> | Hne];
        [congruence | now apply Hold].
    + exact Hrest.
    + destruct (_latency_control_port x) as [p |].
      * destruct Hlat as (Hpk & Hlp & Hafter).
        split; [lia |]. split; [exact Hlp |].
        intros q Hpq Hqk. destruct (Nat.eq_dec q k) as [-> | Hne];
          [exact Hlk | apply Hafter; lia].
      * destruct Hlat as [Hnone Hbefore]. split; [exact Hnone |].
        intros q Hqk. destruct (Nat.eq_dec q k) as [-> | Hne];
          [exact Hlk | apply Hbefore; lia].
    + exists evs. now split.
Qed.

Lemma initial_state_allocated (path : string) (index : nat) (rate : Z)
    (d : LADSPA_Descriptor LADSPA_Handle) (h : LADSPA_Handle) :
  allocated (initial_state path index rate d h).
Proof. unfold allocated. simpl. now rewrite repeat_length. Qed.

Lemma init_ports_initialised (s0 : LadspaPlugin LADSPA_Handle) :
  allocated s0 -> _latency_control_port s0 = None ->
  initialised_up_to expf logf s0 (PortCount (_descriptor s0))
    (fold_left (init_port expf logf) (seq 0 (PortCount (_descriptor s0))) s0).
Proof.
  intros [Hlc Hls] Hnone. apply fold_left_seq_invariant.
  - unfold initialised_up_to. repeat (split; [reflexivity |]).
    split; [intros; lia |]. split; [auto |].
    rewrite Hnone. split; [split; [reflexivity | intros; lia] |].
    exists []. now rewrite app_nil_r.
  - intros k x Hk. apply init_port_step; lia.
Qed.

Lemma initialised_allocated (s0 : LadspaPlugin LADSPA_Handle) (k : nat) x :
  allocated s0 -> initialised_up_to expf logf s0 k x -> allocated x.
Proof.
  intros [Hlc Hls] (_ & _ & _ & Hd & _ & Hlc' & Hls' & _).
  unfold allocated. rewrite Hd. lia.
Qed.

(** *** The probe *)

Lemma probe_loop_probed s (n : nat) :
  probed_up_to s n (fold_left probe_connect (seq 0 n) s).
Proof.
  apply fold_left_seq_invariant.
  - split; [apply connects_only_refl | intros; lia].
  - intros k x _. apply probe_connect_step.
Qed.

Lemma activate_allocated s : allocated s -> allocated (activate s).
Proof.
  unfold allocated, activate.
  destruct (activate_fn (_descriptor s)); [destruct (_was_activated s) |];
    simpl; auto.
Qed.

(** What the probe has done when it reaches [run]. *)
Lemma probe_entry_reached s :
  allocated s ->
  let e := probe_entry s in
  _descriptor e = _descriptor s /\
  _shadow_data e = _shadow_data s /\
  _was_activated e = true /\
  _latency_control_port e = _latency_control_port s /\
  length (_control_data e) = length (_control_data s) /\
  (exists evs, _log e = _log s ++ evs /\ count_events is_run evs = 0) /\
  (forall q, is_audio_input s q || is_audio_output s q = true ->
     connection (_log e) q = Some AProbe).
Proof.
  intros Halloc e. unfold e, probe_entry.
  set (s1 := activate s).
  assert (H1 : _descriptor s1 = _descriptor s /\
               _shadow_data s1 = _shadow_data s /\
               _control_data s1 = _control_data s /\
               _was_activated s1 = true /\
               _latency_control_port s1 = _latency_control_port s /\
               exists evs, _log s1 = _log s ++ evs /\ count_events is_run evs = 0).
  { unfold s1, activate.
    destruct (activate_fn (_descriptor s)); [destruct (_was_activated s) |];
      simpl; repeat (split; [reflexivity |]).
    - exists []. now rewrite app_nil_r.
    - exists [EvActivate]. now split.
    - exists []. now rewrite app_nil_r. }
  destruct H1 as (Hd1 & Hsh1 & Hc1 & Hact1 & Hlat1 & evs1 & Hlog1 & Hrun1).
  unfold parameter_count.
  destruct (probe_loop_probed s1 (PortCount (_descriptor s1)))
    as [(Hd2 & Hc2 & Hsh2 & Hact2 & Hlat2 & evs2 & Hlog2 & Hrun2 & _) Hcon2].
  set (s2 := fold_left probe_connect (seq 0 (PortCount (_descriptor s1))) s1) in *.
  assert (Halloc2 : allocated s2).
  { destruct Halloc as [Hlc Hls]. unfold allocated.
    now rewrite Hd2, Hc2, Hsh2, Hd1, Hc1, Hsh1. }
  destruct (copy_shadow_copied s2 Halloc2)
    as (Hd3 & _ & Hsh3 & Hact3 & Hlat3 & Hlen3 & _ & _ & evs3 & Hlog3 & Hrun3 & Hcon3 & _).
  split; [congruence |]. split; [congruence |]. split; [congruence |].
  split; [congruence |]. split; [congruence |]. split.
  - exists (evs1 ++ evs2 ++ evs3).
    rewrite Hlog3, Hlog2, Hlog1, <- !app_assoc. split; [reflexivity |].
    rewrite !count_events_app. lia.
  - intros q Hq. rewrite Hlog3.
    rewrite connection_app_no_connect by exact Hcon3.
    assert (Haudio : is_audio_input s1 q || is_audio_output s1 q = true).
    { unfold is_audio_input, is_audio_output in *.
      now rewrite (port_descriptor_same_descriptor _ _ _ Hd1). }
    apply Hcon2; [| exact Haudio].
    rewrite Hd1.
    apply orb_true_iff in Hq as [Hq | Hq];
      [now apply is_audio_input_in_range | now apply is_audio_output_in_range].
Qed.

(** [latency_compute_run] always returns: the assertion of [run_in_place]
    holds after [activate]. *)
Lemma latency_compute_run_returns s :
  allocated s ->
  latency_compute_run s =
  Some match _latency_control_port s with
       | Some _ => deactivate (descriptor_run (probe_entry s) probe_memory bufsize).1
       | None => s
       end.
Proof.
  intros Halloc. unfold latency_compute_run.
  destruct (_latency_control_port s); [| reflexivity].
  destruct (probe_entry_reached s Halloc) as (_ & _ & Hact & _).
  unfold probe_entry in Hact. unfold run_in_place.
  rewrite Hact. unfold probe_entry.
  now destruct (descriptor_run _ _ _).
Qed.

(** The adapter after [run] and [deactivate]. *)
Lemma deactivate_after_run x (am : AudioMem) (nframes : nat) :
  _was_activated x = true ->
  let out := run (_descriptor x) (_handle x) nframes (_control_data x) am in
  let a := deactivate (descriptor_run x am nframes).1 in
  _module_path a = _module_path x /\
  _index a = _index x /\
  _sample_rate a = _sample_rate x /\
  _descriptor a = _descriptor x /\
  _shadow_data a = _shadow_data x /\
  _latency_control_port a = _latency_control_port x /\
  _was_activated a = false /\
  _control_data a = apply_writes out.1.2 (_control_data x) /\
  _log a = _log x ++ EvRun nframes ::
             match deactivate_fn (_descriptor x) with
             | Some _ => [EvDeactivate]
             | None => []
             end.
Proof.
  intros Hact out a. unfold a, out, descriptor_run, deactivate.
  destruct (run _ _ _ _ _) as [[h writes] am']. simpl. rewrite Hact.
  destruct (deactivate_fn (_descriptor x)); simpl;
    repeat (split; [reflexivity |]); now rewrite <- ?app_assoc.
Qed.

Lemma fold_left_origin (f : LadspaPlugin LADSPA_Handle -> nat -> LadspaPlugin LADSPA_Handle)
    (l : list nat) x :
  (forall y k, origin (f y k) = origin y) ->
  origin (fold_left f l x) = origin x.
Proof.
  intros Hf. revert x. induction l as [| k l IH]; intros x; simpl;
    [reflexivity |].
  now rewrite IH, Hf.
Qed.

Lemma probe_entry_origin s : origin (probe_entry s) = origin s.
Proof.
  unfold probe_entry, copy_shadow.
  rewrite !fold_left_origin.
  - unfold activate.
    destruct (activate_fn (_descriptor s)); [destruct (_was_activated s) |];
      reflexivity.
  - intros y k. unfold probe_connect.
    repeat (destruct (_ (port_descriptor y k))); reflexivity.
  - intros y k. unfold copy_shadow_port.
    destruct (is_input_control y k); reflexivity.
Qed.

(** How [init] arrives at the adapter it returns. *)
Lemma init_returns (path : string) (index : nat) (rate : Z)
    (a : LadspaPlugin LADSPA_Handle) :
  init Glib_Module expf logf path index rate = Some a ->
  exists d h,
    latency_compute_run
      (fold_left (init_port expf logf) (seq 0 (PortCount d))
                 (initial_state path index rate d h)) = Some a.
Proof.
  unfold init. intros Hinit.
  destruct (negb (module_opened (Glib_Module path))); [discriminate |].
  destruct (ladspa_descriptor (Glib_Module path)) as [dfunc |]; [| discriminate].
  destruct (dfunc index) as [d |]; [| discriminate].
  destruct (LADSPA_IS_INPLACE_BROKEN (Properties d)); [discriminate |].
  destruct (instantiate d) as [inst |]; [| discriminate].
  destruct (inst rate) as [h |]; [| discriminate].
  now exists d, h.
Qed.

(** The adapter a successful [init] returns: its arrays are allocated, it
    comes from the given module, index and rate, its latency port passes
    the test of [init], and either there is no latency port and nothing
    was run, or it is the probe's result. *)
Lemma init_constructed (path : string) (index : nat) (rate : Z)
    (a : LadspaPlugin LADSPA_Handle) :
  init Glib_Module expf logf path index rate = Some a ->
  allocated a /\ origin a = (path, index, rate) /\
  exists sp,
    _descriptor sp = _descriptor a /\
    allocated sp /\
    _latency_control_port sp = _latency_control_port a /\
    count_events is_run (_log sp) = 0 /\
    match _latency_control_port a with
    | Some p =>
        is_latency_port a p = true /\
        a = deactivate (descriptor_run (probe_entry sp) probe_memory bufsize).1
    | None => (forall q, is_latency_port a q = false) /\ a = sp
    end.
Proof.
  intros Hinit. destruct (init_returns _ _ _ _ Hinit) as (d & h & Hrun).
  set (s0 := initial_state path index rate d h) in *.
  pose proof (initial_state_allocated path index rate d h) as Halloc0.
  fold s0 in Halloc0.
  pose proof (init_ports_initialised s0 Halloc0 eq_refl) as Hinv.
  change (PortCount (_descriptor s0)) with (PortCount d) in Hinv.
  set (sp := fold_left (init_port expf logf) (seq 0 (PortCount d)) s0) in *.
  pose proof (initialised_allocated s0 _ sp Halloc0 Hinv) as Hallocp.
  destruct Hinv as (Hp & Hi & Hr & Hd & _ & _ & _ & _ & _ & Hlat & evs & Hlog & Hnorun).
  assert (Hlatp : forall q, is_latency_port sp q = is_latency_port s0 q).
  { intros q. unfold is_latency_port, port_names.
    now rewrite (port_descriptor_same_descriptor _ _ _ Hd), Hd. }
  assert (Hlogp : count_events is_run (_log sp) = 0).
  { rewrite Hlog, count_events_app, Hnorun. reflexivity. }
  rewrite (latency_compute_run_returns sp Hallocp) in Hrun.
  injection Hrun as Ha.
  destruct (_latency_control_port sp) as [p |] eqn:Hlp.
  - destruct (probe_entry_reached sp Hallocp) as (Hde & Hshe & Hacte & Hlate & Hlene & _).
    destruct (deactivate_after_run (probe_entry sp) probe_memory bufsize Hacte)
      as (Hpa & Hia & Hra & Hda & Hsha & Hlata & _ & Hca & _).
    rewrite Ha in Hpa, Hia, Hra, Hda, Hsha, Hlata, Hca.
    pose proof (probe_entry_origin sp) as Hor. unfold origin in Hor.
    injection Hor as Hop Hoi Hora.
    split; [| split].
    + destruct Hallocp as [Hlc Hls]. unfold allocated.
      rewrite Hca, apply_writes_length, Hda, Hsha, Hde, Hshe, Hlene. now split.
    + unfold origin. rewrite Hpa, Hia, Hra, Hop, Hoi, Hora, Hp, Hi, Hr.
      reflexivity.
    + exists sp. rewrite Hda, Hlata, Hde, Hlate, Hlp.
      repeat (split; [first [reflexivity | assumption] |]).
      destruct Hlat as (_ & Hlatk & _).
      split; [| now symmetry].
      unfold is_latency_port, port_names.
      rewrite (port_descriptor_same_descriptor sp a) by (rewrite Hda; exact Hde).
      rewrite Hda, Hde. apply (eq_trans (Hlatp p) Hlatk).
  - subst a. split; [exact Hallocp |]. split.
    + unfold origin. now rewrite Hp, Hi, Hr.
    + exists sp. rewrite Hlp.
      repeat (split; [first [reflexivity | assumption] |]).
      split; [| reflexivity].
      intros q. rewrite Hlatp.
      destruct (Nat.lt_ge_cases q (PortCount d)) as [Hq | Hq].
      * now apply Hlat.
      * destruct (is_latency_port s0 q) eqn:Hl; [| reflexivity].
        apply is_latency_port_in_range in Hl. simpl in Hl. lia.
Qed.

Lemma probe_buffer_reads_zero (ctl : list LADSPA_Data) (nframes : nat) :
  Forall (fun v => v = F32.zero) (read_port ctl probe_memory AProbe nframes).
Proof.
  change (read_port ctl probe_memory AProbe nframes)
    with (take nframes (repeat F32.zero bufsize)).
  apply Forall_take, List.Forall_forall.
  intros v Hv. now apply repeat_spec in Hv.
Qed.

(** The reported latency.  With a latency port, [plugin_latency] is the
    floor of that port's live value; without one it is 0 and
    [latency_compute_run] does nothing.  An adapter that [init] has
    constructed from a module path and whose latency port is [p] has been
    through the probe: it was activated, every audio port was
    connected to the zero-filled probe buffer of 1024 frames, [run] was
    called once, for 1024 frames, and the adapter was deactivated; its
    live array is what that [run] left, so its reported latency is the
    floor of the value [run] wrote to port [p].  An adapter constructed
    without a latency port has not been run at all. *)
Lemma latency_reported s (path : string) (index : nat) (rate : Z)
    (a : LadspaPlugin LADSPA_Handle) :
  (forall p, _latency_control_port s = Some p ->
     plugin_latency s = to_samplecnt (F32.floor (_control_data s !!! p))) /\
  (_latency_control_port s = None ->
     plugin_latency s = Some 0%Z /\ latency_compute_run s = Some s) /\
  (init Glib_Module expf logf path index rate = Some a ->
   match _latency_control_port a with
   | Some p =>
       is_latency_port a p = true /\
       exists e : LadspaPlugin LADSPA_Handle,
         let out := run (_descriptor e) (_handle e) bufsize (_control_data e)
                        probe_memory in
         _was_activated e = true /\
         count_events is_run (_log e) = 0 /\
         (forall q, is_audio_input a q || is_audio_output a q = true ->
            connection (_log e) q = Some AProbe /\
            Forall (fun v => v = F32.zero)
                   (read_port (_control_data e) probe_memory AProbe bufsize)) /\
         _control_data a = apply_writes out.1.2 (_control_data e) /\
         (forall v, written out.1.2 p = Some v ->
            plugin_latency a = to_samplecnt (F32.floor v)) /\
         _log a = _log e ++ EvRun bufsize ::
                    match deactivate_fn (_descriptor e) with
                    | Some _ => [EvDeactivate]
                    | None => []
                    end /\
         count_events is_run (_log a) = 1 /\
         _was_activated a = false
   | None =>
       (forall q, is_latency_port a q = false) /\
       plugin_latency a = Some 0%Z /\
       count_events is_run (_log a) = 0
   end).
Proof.
  split; [| split].
  - intros p Hp. unfold plugin_latency. now rewrite Hp.
  - intros Hnone. unfold plugin_latency, latency_compute_run.
    now rewrite Hnone.
  - intros Hinit.
    destruct (init_constructed _ _ _ _ Hinit)
      as (Halloc & _ & sp & Hdsp & Hallocp & Hlatsp & Hnorun & Hcase).
    destruct (_latency_control_port a) as [p |] eqn:Hlat.
    + destruct Hcase as [Hlp Ha]. split; [exact Hlp |].
      exists (probe_entry sp).
      destruct (probe_entry_reached sp Hallocp)
        as (Hde & Hshe & Hacte & Hlate & Hlene & (evs & Hloge & Hrune) & Hcon).
      destruct (deactivate_after_run (probe_entry sp) probe_memory bufsize Hacte)
        as (_ & _ & _ & Hda & _ & _ & Hacta & Hca & Hloga).
      rewrite <- Ha in Hda, Hacta, Hca, Hloga.
      cbv zeta.
      split; [exact Hacte |].
      split; [rewrite Hloge, count_events_app; lia |].
      split; [| split; [exact Hca | split; [| split; [exact Hloga | split]]]].
      * intros q Hq. split; [| apply probe_buffer_reads_zero].
        apply Hcon. unfold is_audio_input, is_audio_output in *.
        now rewrite (port_descriptor_same_descriptor a sp) by auto.
      * intros v Hv. unfold plugin_latency.
        rewrite Hlat, Hca, apply_writes_lookup, Hv; [reflexivity |].
        apply is_latency_port_in_range in Hlp.
        destruct Hallocp as [Hlc _]. rewrite Hlene, Hlc, Hdsp. exact Hlp.
      * rewrite Hloga, count_events_app, Hloge, count_events_app, Hnorun, Hrune.
        simpl. now destruct (deactivate_fn _).
      * exact Hacta.
    + destruct Hcase as [Hnolat ->]. split; [exact Hnolat |].
      split; [| exact Hnorun].
      unfold plugin_latency. now rewrite Hlatsp.
Qed.

(** C10.  A copy-constructed adapter is a fresh [init] for the source's
    module path, index and sample rate, after which both the live and the
    shadow value of every port are the source's shadow value; the result
    does not depend on the source's live values. *)
Theorem copy_takes_shadow (other c : LadspaPlugin LADSPA_Handle) :
  LadspaPlugin_copy Glib_Module expf logf other = Some c ->
  (exists fresh,
     init Glib_Module expf logf
          (_module_path other) (_index other) (_sample_rate other) = Some fresh /\
     _descriptor c = _descriptor fresh /\
     _handle c = _handle fresh /\
     exists evs, _log c = _log fresh ++ evs /\ count_events is_run evs = 0) /\
  origin c = origin other /\
  allocated c /\
  (forall i, i < parameter_count c ->
     _control_data c !!! i = _shadow_data other !!! i /\
     _shadow_data c !!! i = _shadow_data other !!! i) /\
  (forall live,
     LadspaPlugin_copy Glib_Module expf logf (with_control_data other live) = Some c).
Proof.
  unfold LadspaPlugin_copy. simpl.
  destruct (init _ _ _ _ _ _) as [fresh |] eqn:Hinit; [| discriminate].
  intros Hc. injection Hc as Hc.
  destruct (init_constructed _ _ _ _ Hinit) as ([Hlc Hls] & Hor & _).
  assert (Hinv :
    (fun k x =>
       _descriptor x = _descriptor fresh /\ _handle x = _handle fresh /\
       origin x = origin fresh /\
       length (_control_data x) = length (_control_data fresh) /\
       length (_shadow_data x) = length (_shadow_data fresh) /\
       (forall i, i < k ->
          _control_data x !!! i = _shadow_data other !!! i /\
          _shadow_data x !!! i = _shadow_data other !!! i) /\
       exists evs, _log x = _log fresh ++ evs /\ count_events is_run evs = 0)
    (parameter_count fresh) c).
  { rewrite <- Hc. apply fold_left_seq_invariant.
    - repeat (split; [reflexivity |]). split; [intros; lia |].
      exists []. now rewrite app_nil_r.
    - intros k x Hk (Hd & Hh & Hox & Hlcx & Hlsx & Hcopied & evs & Hlog & Hrun).
      unfold copy_parameter. simpl. rewrite !length_insert.
      repeat (split; [assumption |]). split.
      + intros i Hi. destruct (Nat.eq_dec i k) as [-> | Hne].
        * split; apply list_lookup_total_insert_eq; unfold parameter_count in Hk; lia.
        * rewrite !list_lookup_total_insert_ne by auto. apply Hcopied. lia.
      + eexists. rewrite Hlog, <- !app_assoc. split; [reflexivity |].
        rewrite !count_events_app. simpl. lia. }
  destruct Hinv as (Hd & Hh & Hoc & Hlcc & Hlsc & Hcopied & Hlog).
  split; [exists fresh; now repeat split |].
  split; [now rewrite Hoc, Hor |].
  split; [unfold allocated; rewrite Hd; lia |].
  split.
  - intros i Hi. apply Hcopied. unfold parameter_count in *. now rewrite <- Hd.
  - intros live. now rewrite <- Hc.
Qed.

End ConstructionFacts.

(** ** Saving and loading state *)
Section StateFacts.

Context {LADSPA_Handle : Type}.
Variable Glib_Module : string -> GlibModule LADSPA_Handle.
Variables expf logf : LADSPA_Data -> LADSPA_Data.
Variable set_state_2X :
  LadspaPlugin LADSPA_Handle -> XMLNode -> Z ->
  option (Z * LadspaPlugin LADSPA_Handle).
Implicit Types s x : LadspaPlugin LADSPA_Handle.

Lemma filter_seq_S (f : nat -> bool) (k : nat) :
  List.filter f (seq 0 (S k)) =
  List.filter f (seq 0 k) ++ (if f k then [k] else []).
Proof.
  rewrite seq_S, List.filter_app. simpl. now destruct (f k).
Qed.

(** [add_state] appends one entry per input control port, in index order,
    and nothing else. *)
Lemma add_state_children s (root : XMLNode) :
  xml_name (add_state s root) = xml_name root /\
  xml_children (add_state s root) =
    xml_children root ++ map (saved_port s) (input_control_ports s).
Proof.
  unfold add_state, input_control_ports.
  apply (fold_left_seq_invariant (add_state_port s)
           (fun k r => xml_name r = xml_name root /\
                       xml_children r =
                         xml_children root ++
                         map (saved_port s)
                             (List.filter (is_input_control s) (seq 0 k)))).
  - simpl. now rewrite app_nil_r.
  - intros k r _ [Hname Hch]. rewrite filter_seq_S.
    unfold add_state_port.
    destruct (is_input_control s k); simpl.
    + now rewrite Hch, map_app, app_assoc.
    + now rewrite app_nil_r.
Qed.

Lemma children_saved_ports s (name : string) (l : list nat) :
  children {| xml_name := name; xml_children := map (saved_port s) l |} "Port" =
  map (saved_port s) l.
Proof.
  unfold children. simpl.
  induction l as [| i l IH]; simpl; [reflexivity |]. now rewrite IH.
Qed.

Lemma fold_set_parameter_descriptor (calls : list (nat * LADSPA_Data * Z)) s :
  _descriptor (fold_left (fun x c => set_parameter x c.1.1 c.1.2 c.2) calls s) =
  _descriptor s /\
  (allocated s ->
   allocated (fold_left (fun x c => set_parameter x c.1.1 c.1.2 c.2) calls s)).
Proof.
  revert s. induction calls as [| c calls IH]; intros s; simpl; [auto |].
  destruct (IH (set_parameter s c.1.1 c.1.2 c.2)) as [Hd Ha].
  rewrite Hd, set_parameter_descriptor. split; [reflexivity |].
  intros Halloc. now apply Ha, set_parameter_allocated.
Qed.

(** Loading the entries saved from [saved] into [s], an adapter of the
    same plugin: after the entries of the ports below [k], each of these
    shadow slots holds its old value if that compared equal to the saved
    one and the saved value otherwise; the other slots are untouched. *)
Lemma load_saved_ports (saved : LadspaPlugin LADSPA_Handle) s (k : nat) :
  allocated s -> _descriptor saved = _descriptor s ->
  let loaded :=
    fold_left (set_state_port (LADSPA_Handle := LADSPA_Handle))
              (map (saved_port saved)
                   (List.filter (is_input_control s) (seq 0 k))) s in
  _descriptor loaded = _descriptor s /\
  allocated loaded /\
  (forall i, i < k -> is_input_control s i = true ->
     _shadow_data loaded !!! i =
       if F32.eqb (_shadow_data s !!! i) (_shadow_data saved !!! i)
       then _shadow_data s !!! i else _shadow_data saved !!! i) /\
  (forall i, k <= i \/ is_input_control s i = false ->
     _shadow_data loaded !!! i = _shadow_data s !!! i).
Proof.
  intros Halloc Hsaved. cbv zeta. induction k as [| k IH].
  - simpl. split; [reflexivity |]. split; [exact Halloc |].
    split; [intros; lia | reflexivity].
  - destruct IH as (Hd & Ha & Hin & Hout).
    rewrite filter_seq_S, map_app, fold_left_app.
    set (x := fold_left set_state_port
                (map (saved_port saved)
                     (List.filter (is_input_control s) (seq 0 k))) s) in *.
    destruct (is_input_control s k) eqn:Hic; cbn [fold_left map];
      unfold set_state_port; cbn [saved_port pn_number pn_value].
    + assert (Hk : k < PortCount (_descriptor x))
        by (rewrite Hd; now apply is_input_control_in_range).
      assert (Hinp : LADSPA_IS_PORT_INPUT (port_descriptor x k) = true).
      { rewrite (port_descriptor_same_descriptor _ _ _ Hd).
        unfold is_input_control in Hic. now apply andb_true_iff in Hic as [? _]. }
      split; [now rewrite set_parameter_descriptor |].
      split; [now apply set_parameter_allocated |]. split.
      * intros i Hi Hici. destruct (Nat.eq_dec i k) as [-> | Hne].
        -- rewrite set_parameter_shadow_input; auto.
           ++ rewrite (Hout k) by (left; lia). reflexivity.
           ++ destruct Ha as [_ Hls]. lia.
        -- rewrite set_parameter_shadow_other by auto. apply Hin; [lia | auto].
      * intros i Hi.
        assert (i <> k) by (intros ->; destruct Hi; [lia | congruence]).
        rewrite set_parameter_shadow_other by auto.
        apply Hout. destruct Hi; [left; lia | auto].
    + split; [exact Hd |]. split; [exact Ha |]. split.
      * intros i Hi Hici. destruct (Nat.eq_dec i k) as [-> | Hne];
          [congruence | apply Hin; [lia | auto]].
      * intros i Hi. destruct (Nat.eq_dec i k) as [-> | Hne];
          [apply Hout; auto |].
        apply Hout. destruct Hi; [left; lia | auto].
Qed.

(** [latency_compute_run] leaves the shadow array alone. *)
Lemma latency_compute_run_shadow s :
  allocated s ->
  exists a, latency_compute_run s = Some a /\
            _shadow_data a = _shadow_data s /\
            _descriptor a = _descriptor s.
Proof.
  intros Halloc. rewrite (latency_compute_run_returns s Halloc).
  eexists. split; [reflexivity |].
  destruct (_latency_control_port s); [| auto].
  destruct (probe_entry_reached s Halloc) as (Hde & Hshe & Hacte & _).
  destruct (deactivate_after_run (probe_entry s) probe_memory bufsize Hacte)
    as (_ & _ & _ & Hda & Hsha & _).
  split; congruence.
Qed.

(** C4.  [add_state] emits, in index order, one entry
    [(i, _shadow_data[i])] for every port that is both input and control,
    and nothing else, so no entry for a port that is not an input.  When
    the document saved from an adapter, after any sequence of
    [set_parameter] calls on it, is fed to [set_state] of a freshly
    constructed adapter of the same plugin, [set_state] returns and every
    input control port's shadow value is the saved one: the saved value
    itself, or the fresh adapter's own value where that already compared
    equal to the saved one. *)
Theorem state_round_trip (path path' : string) (index index' : nat) (rate rate' : Z)
    (calls : list (nat * LADSPA_Data * Z)) (version : Z)
    (first fresh : LadspaPlugin LADSPA_Handle) :
  init Glib_Module expf logf path index rate = Some first ->
  init Glib_Module expf logf path' index' rate' = Some fresh ->
  _descriptor fresh = _descriptor first ->
  (3000 <= version)%Z ->
  let saved := fold_left (fun x c => set_parameter x c.1.1 c.1.2 c.2) calls first in
  let doc := add_state saved new_state_node in
  xml_name doc = state_node_name /\
  xml_children doc = map (saved_port saved) (input_control_ports saved) /\
  (forall i child,
     LADSPA_IS_PORT_INPUT (port_descriptor saved i) = false ->
     In child (xml_children doc) -> pn_number child <> Some i) /\
  exists status loaded,
    set_state set_state_2X fresh doc version = Some (status, loaded) /\
    forall i, is_input_control fresh i = true ->
      _shadow_data loaded !!! i =
        (if F32.eqb (_shadow_data fresh !!! i) (_shadow_data saved !!! i)
         then _shadow_data fresh !!! i else _shadow_data saved !!! i) /\
      F32.same_value (_shadow_data loaded !!! i) (_shadow_data saved !!! i).
Proof.
  intros _ Hinit Hsame Hversion saved doc.
  destruct (init_constructed _ _ _ _ _ _ _ Hinit) as (Halloc & _).
  destruct (fold_set_parameter_descriptor calls first) as [Hd _].
  fold saved in Hd. rewrite <- Hsame in Hd.
  destruct (add_state_children saved new_state_node) as [Hname Hch].
  fold doc in Hname, Hch. simpl in Hname, Hch.
  split; [exact Hname |]. split; [exact Hch |]. split.
  - intros i child Hinput Hin Hnum. rewrite Hch in Hin.
    apply in_map_iff in Hin as (j & <- & Hj). simpl in Hnum.
    injection Hnum as ->.
    apply List.filter_In in Hj as [_ Hic].
    unfold is_input_control in Hic. rewrite Hinput in Hic. discriminate.
  - assert (Hports : input_control_ports saved =
                     List.filter (is_input_control fresh)
                                 (seq 0 (PortCount (_descriptor fresh)))).
    { unfold input_control_ports, parameter_count. rewrite Hd.
      apply List.filter_ext. intros i.
      now apply is_input_control_same_descriptor. }
    destruct (load_saved_ports saved fresh (PortCount (_descriptor fresh)) Halloc Hd)
      as (Hdl & Hal & Hin & _).
    unfold set_state.
    replace (version <? 3000)%Z with false by (symmetry; apply Z.ltb_ge; lia).
    rewrite Hname, String.eqb_refl. simpl.
    assert (Hdoc : doc = {| xml_name := xml_name doc;
                            xml_children := map (saved_port saved)
                                                (input_control_ports saved) |})
      by (rewrite <- Hch; now destruct doc).
    rewrite Hdoc, children_saved_ports, Hports.
    destruct (latency_compute_run_shadow _ Hal) as (loaded & -> & Hsh & _).
    eexists _, loaded. split; [reflexivity |].
    intros i Hic.
    assert (Hl : _shadow_data loaded !!! i =
                 if F32.eqb (_shadow_data fresh !!! i) (_shadow_data saved !!! i)
                 then _shadow_data fresh !!! i else _shadow_data saved !!! i).
    { rewrite Hsh. apply Hin; [| exact Hic].
      now apply is_input_control_in_range. }
    split; [exact Hl |]. rewrite Hl. apply same_value_after_write.
Qed.

End StateFacts.


(** ** The queries on the ports *)
Section QueryFacts.

Context {LADSPA_Handle : Type}.
Implicit Types s : LadspaPlugin LADSPA_Handle.

Lemma control_rank_S s (k : nat) :
  control_rank s (S k) =
  control_rank s k + (if parameter_is_control s k then 1 else 0).
Proof.
  unfold control_rank, parameter_is_control. rewrite filter_seq_S, length_app.
  now destruct (LADSPA_IS_PORT_CONTROL (port_descriptor s k)).
Qed.

Lemma control_rank_mono s (a b : nat) :
  a <= b -> control_rank s a <= control_rank s b.
Proof.
  induction 1 as [| b _ IH]; [lia |]. rewrite control_rank_S. lia.
Qed.

Lemma control_rank_lt s (a b : nat) :
  parameter_is_control s a = true -> a < b ->
  control_rank s a < control_rank s b.
Proof.
  intros Hc Hlt. pose proof (control_rank_mono s (S a) b Hlt) as Hm.
  rewrite control_rank_S, Hc in Hm. lia.
Qed.

Lemma port_descriptor_out_of_range s (i : nat) :
  PortCount (_descriptor s) <= i -> port_descriptor s i = 0%Z.
Proof.
  intros Hge. unfold port_descriptor. apply Nat.ltb_ge in Hge. now rewrite Hge.
Qed.

Lemma parameter_is_control_in_range s (p : nat) :
  parameter_is_control s p = true -> p < PortCount (_descriptor s).
Proof.
  intros Hc. destruct (Nat.lt_ge_cases p (PortCount (_descriptor s))) as [| Hge];
    [assumption |].
  unfold parameter_is_control in Hc.
  rewrite (port_descriptor_out_of_range s p Hge) in Hc. discriminate.
Qed.

(** Below a rank that is reached there is a control port of each smaller
    rank. *)
Lemma control_rank_reached s (n m : nat) :
  n < control_rank s m ->
  exists p, p < m /\ parameter_is_control s p = true /\ control_rank s p = n.
Proof.
  induction m as [| m IH]; [unfold control_rank; simpl; lia |].
  rewrite control_rank_S. intros Hn.
  destruct (Nat.lt_ge_cases n (control_rank s m)) as [Hlt | Hge].
  - destruct (IH Hlt) as (p & Hp & Hc & Hr). exists p. auto with arith.
  - destruct (parameter_is_control s m) eqn:Hc; [| lia].
    exists m. split; [lia |]. split; [exact Hc | lia].
Qed.

(** The loop of [nth_parameter], entered at port [a] with the counter at the
    rank of [a]: it returns the control port of rank [n] when there is one
    among the ports left, and fails when [n] is not reached. *)
Lemma nth_parameter_from_rank s (n len a : nat) :
  control_rank s a <= n ->
  (forall p, a <= p -> p < a + len -> parameter_is_control s p = true ->
     control_rank s p = n ->
     nth_parameter_from s n (seq a len) (control_rank s a) = (p, true)) /\
  (control_rank s (a + len) <= n ->
     nth_parameter_from s n (seq a len) (control_rank s a) = (0, false)).
Proof.
  revert a. induction len as [| len IH]; intros a Ha.
  - split; [intros; lia | reflexivity].
  - pose proof (control_rank_S s a) as HS.
    cbn [seq nth_parameter_from].
    fold (parameter_is_control s a).
    destruct (parameter_is_control s a) eqn:Hc.
    + destruct (control_rank s a =? n) eqn:Hn.
      * apply Nat.eqb_eq in Hn. split.
        -- intros p Hp _ Hcp Hrp.
           destruct (Nat.eq_dec p a) as [-> | Hne]; [reflexivity |].
           pose proof (control_rank_lt s a p Hc). lia.
        -- intros Hle.
           pose proof (control_rank_mono s (S a) (a + S len)). lia.
      * apply Nat.eqb_neq in Hn.
        replace (S (control_rank s a)) with (control_rank s (S a)) by lia.
        destruct (IH (S a)) as [Hfound Hnone]; [lia |]. split.
        -- intros p Hp Hlen Hcp Hrp. apply Hfound; auto; try lia.
           destruct (Nat.eq_dec p a) as [-> | Hne]; lia.
        -- intros Hle. apply Hnone.
           now replace (S a + len) with (a + S len) by lia.
    + replace (control_rank s a) with (control_rank s (S a)) by lia.
      destruct (IH (S a)) as [Hfound Hnone]; [lia |]. split.
      * intros p Hp Hlen Hcp Hrp. apply Hfound; auto; try lia.
        destruct (Nat.eq_dec p a) as [-> | Hne]; [congruence | lia].
      * intros Hle. apply Hnone.
        now replace (S a + len) with (a + S len) by lia.
Qed.

Lemma nth_parameter_found s (p : nat) :
  parameter_is_control s p = true ->
  nth_parameter s (control_rank s p) = (p, true).
Proof.
  intros Hc. unfold nth_parameter.
  destruct (nth_parameter_from_rank s (control_rank s p)
              (PortCount (_descriptor s)) 0) as [Hfound _].
  - unfold control_rank. simpl. lia.
  - apply Hfound; auto; try lia.
    simpl. now apply parameter_is_control_in_range.
Qed.

Lemma nth_parameter_not_found s (n : nat) :
  control_rank s (PortCount (_descriptor s)) <= n ->
  nth_parameter s n = (0, false).
Proof.
  intros Hle. unfold nth_parameter.
  destruct (nth_parameter_from_rank s n (PortCount (_descriptor s)) 0)
    as [_ Hnone].
  - unfold control_rank. simpl. lia.
  - now apply Hnone.
Qed.

(** X1.  [nth_parameter] reports success exactly when [n] is below the
    number of control ports; the port it then returns is in range, is a
    control port and has exactly [n] control ports below it.  When it
    reports failure it returns 0. *)
Theorem nth_parameter_ok s (n : nat) :
  let count := control_rank s (PortCount (_descriptor s)) in
  (n < count ->
     exists x, nth_parameter s n = (x, true) /\
               x < PortCount (_descriptor s) /\
               parameter_is_control s x = true /\
               control_rank s x = n) /\
  (count <= n -> nth_parameter s n = (0, false)).
Proof.
  intros count. split.
  - intros Hn.
    destruct (control_rank_reached s n _ Hn) as (p & Hp & Hc & Hr).
    exists p. rewrite <- Hr. now rewrite nth_parameter_found.
  - apply nth_parameter_not_found.
Qed.

(** X2.  [nth_parameter] and the rank among the control ports are inverse
    to each other: [nth_parameter (n)] succeeds with port [x] exactly when
    [x] is a control port with [n] control ports below it.  In particular
    it never returns a port that is not a control port, and it finds every
    control port at its rank. *)
Theorem nth_parameter_inverts_rank s (n x : nat) :
  nth_parameter s n = (x, true) <->
  parameter_is_control s x = true /\ control_rank s x = n.
Proof.
  split.
  - intros Hnth.
    destruct (Nat.lt_ge_cases n (control_rank s (PortCount (_descriptor s))))
      as [Hlt | Hge].
    + destruct (control_rank_reached s n _ Hlt) as (p & Hp & Hc & Hr).
      rewrite <- Hr, nth_parameter_found in Hnth by exact Hc.
      injection Hnth as <-. now split.
    + rewrite nth_parameter_not_found in Hnth by exact Hge. discriminate.
  - intros [Hc <-]. now apply nth_parameter_found.
Qed.

Lemma existsb_parameter_fresh (k : nat) (l : list nat) :
  (forall i, In i l -> i <> k) ->
  existsb (EvoralParameter_eqb (Evoral_Parameter PluginAutomation 0 k))
          (map (Evoral_Parameter PluginAutomation 0) l) = false.
Proof.
  intros Hfresh. induction l as [| i l IH]; [reflexivity |].
  cbn [map existsb]. rewrite IH by (intros j Hj; apply Hfresh; now right).
  unfold EvoralParameter_eqb. simpl.
  replace (k =? i) with false; [reflexivity |].
  symmetry. apply Nat.eqb_neq. intros ->. now apply (Hfresh i); [left |].
Qed.

(** [automatable] holds one parameter per input control port, in index
    order. *)
Lemma automatable_ports s :
  automatable s =
  map (Evoral_Parameter PluginAutomation 0) (input_control_ports s).
Proof.
  unfold automatable, input_control_ports.
  apply (fold_left_seq_invariant (automatable_port s)
           (fun k ret => ret = map (Evoral_Parameter PluginAutomation 0)
                                   (List.filter (is_input_control s) (seq 0 k)))).
  - reflexivity.
  - intros k ret _ ->. rewrite filter_seq_S, map_app.
    unfold automatable_port. fold (is_input_control s k).
    destruct (is_input_control s k); [| now rewrite app_nil_r].
    unfold set_insert. rewrite existsb_parameter_fresh; [reflexivity |].
    intros i Hi. apply List.filter_In in Hi as [Hi _].
    apply in_seq in Hi. lia.
Qed.

Lemma automatable_In s (p : EvoralParameter) :
  In p (automatable s) <->
  param_type p = PluginAutomation /\ param_channel p = 0 /\
  is_input_control s (param_id p) = true.
Proof.
  rewrite automatable_ports, in_map_iff. unfold input_control_ports. split.
  - intros (i & <- & Hi). apply List.filter_In in Hi as [_ Hic]. now simpl.
  - intros (Ht & Hc & Hic). exists (param_id p). split.
    + destruct p; simpl in *. now subst.
    + apply List.filter_In. split; [| exact Hic].
      apply in_seq. apply is_input_control_in_range in Hic.
      unfold parameter_count. lia.
Qed.

(** X3.  [automatable] is the set of the parameters
    [(PluginAutomation, 0, i)] of the ports [i] that are both input and
    control, each once and in index order; these are exactly the ports
    [add_state] writes an entry for, in the same order. *)
Theorem automatable_input_control_ports s :
  automatable s =
    map (Evoral_Parameter PluginAutomation 0) (input_control_ports s) /\
  List.NoDup (automatable s) /\
  (forall p, In p (automatable s) <->
     param_type p = PluginAutomation /\ param_channel p = 0 /\
     is_input_control s (param_id p) = true) /\
  map pn_number (xml_children (add_state s new_state_node)) =
    map (fun p => Some (param_id p)) (automatable s).
Proof.
  split; [apply automatable_ports |]. split; [| split].
  - rewrite automatable_ports.
    apply Finite.Injective_map_NoDup.
    + intros i j Heq. now injection Heq.
    + unfold input_control_ports. apply List.NoDup_filter, seq_NoDup.
  - apply automatable_In.
  - destruct (add_state_children s new_state_node) as [_ ->].
    rewrite automatable_ports. simpl. rewrite !map_map. reflexivity.
Qed.

(** X4.  [describe_parameter] answers with the port's name for every
    parameter [automatable] hands out, and with ["??"] for a parameter of
    another kind or with an index at or beyond the port count. *)
Theorem describe_parameter_names s (which : EvoralParameter) :
  (In which (automatable s) ->
     describe_parameter s which = port_names s !!! param_id which) /\
  (param_type which <> PluginAutomation \/
   parameter_count s <= param_id which ->
     describe_parameter s which = "??"%string).
Proof.
  unfold describe_parameter. split.
  - intros Hin. apply automatable_In in Hin as (-> & _ & Hic).
    apply is_input_control_in_range, Nat.ltb_lt in Hic.
    unfold parameter_count. now rewrite Hic.
  - intros [Hty | Hge].
    + destruct (param_type which); [congruence | reflexivity].
    + apply Nat.ltb_ge in Hge. rewrite Hge. now rewrite andb_false_r.
Qed.

(** X5.  A port index at or beyond the port count is neither control nor
    audio, neither input nor output; it is not automatable, [add_state]
    writes no entry for it and [nth_parameter] never finds it. *)
Theorem port_out_of_range s (i : nat) :
  PortCount (_descriptor s) <= i ->
  parameter_is_control s i = false /\
  parameter_is_audio s i = false /\
  parameter_is_input s i = false /\
  parameter_is_output s i = false /\
  (forall p, In p (automatable s) -> param_id p <> i) /\
  (forall root child, In child (xml_children (add_state s root)) ->
     In child (xml_children root) \/ pn_number child <> Some i) /\
  (forall n, nth_parameter s n <> (i, true)).
Proof.
  intros Hge.
  pose proof (port_descriptor_out_of_range s i Hge) as Hpd.
  unfold parameter_is_control, parameter_is_audio, parameter_is_input,
    parameter_is_output. rewrite Hpd.
  repeat (split; [reflexivity |]). split; [| split].
  - intros p Hin <-. apply automatable_In in Hin as (_ & _ & Hic).
    apply is_input_control_in_range in Hic. lia.
  - intros root child Hin.
    destruct (add_state_children s root) as [_ Hch]. rewrite Hch in Hin.
    apply in_app_or in Hin as [Hin | Hin]; [now left | right].
    apply in_map_iff in Hin as (j & <- & Hj). simpl. intros Heq.
    injection Heq as ->.
    apply List.filter_In in Hj as [_ Hic].
    apply is_input_control_in_range in Hic. lia.
  - intros n Hnth.
    assert (Hc : parameter_is_control s i = true).
    { destruct (Nat.lt_ge_cases n (control_rank s (PortCount (_descriptor s))))
        as [Hlt | Hn].
      - destruct (control_rank_reached s n _ Hlt) as (p & Hp & Hc & Hr).
        rewrite <- Hr, nth_parameter_found in Hnth by exact Hc.
        injection Hnth as <-. exact Hc.
      - rewrite nth_parameter_not_found in Hnth by exact Hn. discriminate. }
    apply parameter_is_control_in_range in Hc. lia.
Qed.

End QueryFacts.

(** ** The default value resolver, the cases without an interpolation *)
Section DefaultRangeFacts.

Context {LADSPA_Handle : Type}.
Variables expf logf : LADSPA_Data -> LADSPA_Data.

Lemma has_default_of_kind (hd kind : Z) :
  default_is hd kind = true -> kind <> 0%Z ->
  LADSPA_IS_HINT_HAS_DEFAULT hd = true.
Proof.
  unfold default_is, LADSPA_IS_HINT_HAS_DEFAULT, has_bits.
  intros Hk Hne. apply Z.eqb_eq in Hk. rewrite Hk.
  now apply negb_true_iff, Z.eqb_neq.
Qed.

Lemma ltb_leb (x y : LADSPA_Data) : F32.ltb x y = true -> SFleb x y = true.
Proof.
  unfold F32.ltb, SFltb, SFleb.
  destruct (SFcompare x y) as [[] |]; congruence.
Qed.

Lemma leb_refl (x : LADSPA_Data) : x <> F32.nan -> SFleb x x = true.
Proof.
  unfold SFleb, SFcompare, F32.nan.
  destruct x as [sx | sx | | sx mx ex]; intros Hnan;
    try congruence; try (now destruct sx).
  rewrite Z.compare_refl, Pos.compare_cont_refl. now destruct sx.
Qed.

Lemma leb_numbers (x y : LADSPA_Data) :
  SFleb x y = true -> x <> F32.nan /\ y <> F32.nan.
Proof.
  unfold SFleb, SFcompare, F32.nan.
  destruct x as [sx | sx | | sx mx ex], y as [sy | sy | | sy my ey];
    intros Hle; try discriminate; split; discriminate.
Qed.

Lemma ltb_numbers (x y : LADSPA_Data) :
  F32.ltb x y = true -> x <> F32.nan /\ y <> F32.nan.
Proof. intros Hlt. now apply leb_numbers, ltb_leb. Qed.

(** X6.  A hint set in which no case of [_default_value] matches, be it
    without has-default and without a bound, or with has-default and a
    default kind that is none of the nine known ones, resolves to 0, and to
    the sample rate itself when it carries the sample-rate flag. *)
Theorem default_value_unmatched (s : LadspaPlugin LADSPA_Handle) (port : nat) :
  let hd := HintDescriptor (port_range_hints s !!! port) in
  let fallback :=
    if LADSPA_IS_HINT_SAMPLE_RATE hd then F32.of_Z (_sample_rate s)
    else F32.zero in
  (LADSPA_IS_HINT_HAS_DEFAULT hd = false ->
   LADSPA_IS_HINT_BOUNDED_BELOW hd = false ->
   LADSPA_IS_HINT_BOUNDED_ABOVE hd = false ->
     _default_value expf logf s port = fallback) /\
  (LADSPA_IS_HINT_HAS_DEFAULT hd = true ->
   recognised_default hd = false ->
     _default_value expf logf s port = fallback).
Proof.
  intros hd fallback. subst fallback.
  unfold _default_value, default_value_of, resolve_cases. fold hd. split.
  - intros -> -> ->. simpl. unfold scale_by_rate. simpl.
    now rewrite andb_true_r.
  - intros -> Hnone. unfold recognised_default in Hnone.
    repeat (apply orb_false_iff in Hnone as [Hnone ?]).
    repeat match goal with H : _ = false |- _ => rewrite H; clear H end.
    unfold scale_by_rate. simpl. now rewrite andb_true_r.
Qed.

(** X7.  With default-minimum the default is the lower bound and with
    default-maximum the upper bound, whether or not the hint set declares
    the port bounded; the value is multiplied by the sample rate exactly
    when the hint set carries the sample-rate flag. *)
Theorem default_value_minimum_maximum (s : LadspaPlugin LADSPA_Handle) (port : nat) :
  let prh := port_range_hints s !!! port in
  let hd := HintDescriptor prh in
  let scaled v :=
    if LADSPA_IS_HINT_SAMPLE_RATE hd
    then F32.mul v (F32.of_Z (_sample_rate s)) else v in
  (LADSPA_IS_HINT_DEFAULT_MINIMUM hd = true ->
     _default_value expf logf s port = scaled (LowerBound prh)) /\
  (LADSPA_IS_HINT_DEFAULT_MAXIMUM hd = true ->
     _default_value expf logf s port = scaled (UpperBound prh)).
Proof.
  intros prh hd scaled.
  unfold _default_value, default_value_of, resolve_cases.
  fold prh. fold hd. split; intros Hk.
  - rewrite (has_default_of_kind _ _ Hk) by (vm_compute; discriminate).
    rewrite Hk. apply scale_by_rate_bounds.
  - rewrite (has_default_of_kind _ _ Hk) by (vm_compute; discriminate).
    unfold LADSPA_IS_HINT_DEFAULT_MINIMUM, LADSPA_IS_HINT_DEFAULT_LOW,
      LADSPA_IS_HINT_DEFAULT_MIDDLE, LADSPA_IS_HINT_DEFAULT_HIGH,
      LADSPA_IS_HINT_DEFAULT_MAXIMUM in *.
    rewrite !(default_is_unique _ _ _ Hk) by (vm_compute; discriminate).
    rewrite Hk. apply scale_by_rate_bounds.
Qed.

(** X8.  Without has-default the default respects the bounds the hint set
    declares: it is a value [v], multiplied by the sample rate when the
    hint set carries the sample-rate flag, that is 0 or one of the declared
    bounds, with [lower <= v] when the port is bounded below only,
    [v <= upper] when it is bounded above only, and both when it is bounded
    on both sides by numbers with [lower <= upper]. *)
Theorem default_value_respects_bounds (s : LadspaPlugin LADSPA_Handle) (port : nat) :
  let prh := port_range_hints s !!! port in
  let hd := HintDescriptor prh in
  let lower := LowerBound prh in
  let upper := UpperBound prh in
  LADSPA_IS_HINT_HAS_DEFAULT hd = false ->
  LADSPA_IS_HINT_BOUNDED_BELOW hd || LADSPA_IS_HINT_BOUNDED_ABOVE hd = true ->
  exists v : LADSPA_Data,
    _default_value expf logf s port =
      (if LADSPA_IS_HINT_SAMPLE_RATE hd
       then F32.mul v (F32.of_Z (_sample_rate s)) else v) /\
    (v = F32.zero \/
     (LADSPA_IS_HINT_BOUNDED_BELOW hd = true /\ v = lower) \/
     (LADSPA_IS_HINT_BOUNDED_ABOVE hd = true /\ v = upper)) /\
    (LADSPA_IS_HINT_BOUNDED_BELOW hd = true ->
     LADSPA_IS_HINT_BOUNDED_ABOVE hd = false ->
     lower <> F32.nan -> SFleb lower v = true) /\
    (LADSPA_IS_HINT_BOUNDED_BELOW hd = false ->
     LADSPA_IS_HINT_BOUNDED_ABOVE hd = true ->
     upper <> F32.nan -> SFleb v upper = true) /\
    (LADSPA_IS_HINT_BOUNDED_BELOW hd = true ->
     LADSPA_IS_HINT_BOUNDED_ABOVE hd = true ->
     SFleb lower upper = true -> within lower v upper).
Proof.
  intros prh hd lower upper Hdef Hbound.
  unfold _default_value, default_value_of, resolve_cases.
  fold prh. fold hd. fold lower. fold upper. rewrite Hdef.
  destruct (LADSPA_IS_HINT_BOUNDED_BELOW hd) eqn:Hbelow,
           (LADSPA_IS_HINT_BOUNDED_ABOVE hd) eqn:Habove;
    try discriminate; cbn [andb negb]; rewrite scale_by_rate_bounds;
    eexists; (split; [reflexivity |]).
  - split; [| split; [| split]]; try (intros; discriminate).
    + destruct (F32.ltb lower F32.zero && F32.ltb F32.zero upper);
        [now left |].
      destruct (F32.ltb lower F32.zero && F32.ltb upper F32.zero); auto.
    + intros _ _ Hle. destruct (leb_numbers _ _ Hle) as [Hl Hu].
      unfold within.
      destruct (F32.ltb lower F32.zero) eqn:Hl0; cbn [andb].
      * destruct (F32.ltb F32.zero upper) eqn:Hu0.
        -- split; now apply ltb_leb.
        -- destruct (F32.ltb upper F32.zero);
             (split; [assumption || now apply leb_refl
                     | assumption || now apply leb_refl]).
      * split; [now apply leb_refl | assumption].
  - split; [| split; [| split]]; try (intros; discriminate).
    + destruct (F32.ltb lower F32.zero); auto.
    + intros _ _ Hl. destruct (F32.ltb lower F32.zero) eqn:Hl0;
        [now apply ltb_leb | now apply leb_refl].
  - split; [| split; [| split]]; try (intros; discriminate).
    + destruct (F32.ltb F32.zero upper); auto.
    + intros _ _ Hu. destruct (F32.ltb F32.zero upper) eqn:Hu0;
        [now apply ltb_leb | now apply leb_refl].
Qed.

End DefaultRangeFacts.

(** ** Construction, activation and the invariant of the two arrays *)
Section LifecycleFacts.

Context {LADSPA_Handle : Type}.
Variable Glib_Module : string -> GlibModule LADSPA_Handle.
Variables expf logf : LADSPA_Data -> LADSPA_Data.
Variable set_state_2X :
  LadspaPlugin LADSPA_Handle -> XMLNode -> Z ->
  option (Z * LadspaPlugin LADSPA_Handle).
Variable lrdf_get_setting_values : string -> option (list (Z * LADSPA_Data)).
Implicit Types s x : LadspaPlugin LADSPA_Handle.

Lemma repeat_lookup_total_zero (n i : nat) :
  repeat F32.zero n !!! i = F32.zero.
Proof.
  revert i. induction n as [| n IH]; intros i; [now destruct i |].
  destruct i as [| i]; [reflexivity | apply IH].
Qed.

(** What [run] leaves of the adapter: everything but the handle, the live
    array and the history. *)
Lemma descriptor_run_fields x (am : AudioMem) (nframes : nat) :
  let r := (descriptor_run x am nframes).1 in
  _descriptor r = _descriptor x /\
  _shadow_data r = _shadow_data x /\
  _was_activated r = _was_activated x /\
  _latency_control_port r = _latency_control_port x /\
  length (_control_data r) = length (_control_data x).
Proof.
  unfold descriptor_run.
  destruct (run (_descriptor x) (_handle x) nframes (_control_data x) am)
    as [[h writes] am'].
  simpl. rewrite apply_writes_length. auto.
Qed.

Lemma deactivate_fields x :
  _descriptor (deactivate x) = _descriptor x /\
  _shadow_data (deactivate x) = _shadow_data x /\
  _control_data (deactivate x) = _control_data x /\
  _latency_control_port (deactivate x) = _latency_control_port x /\
  _was_activated (deactivate x) = false.
Proof.
  unfold deactivate.
  destruct (deactivate_fn (_descriptor x)); [destruct (_was_activated x) |];
    simpl; auto.
Qed.

Lemma activate_fields x :
  _descriptor (activate x) = _descriptor x /\
  _shadow_data (activate x) = _shadow_data x /\
  _control_data (activate x) = _control_data x /\
  _latency_control_port (activate x) = _latency_control_port x /\
  _was_activated (activate x) = true.
Proof.
  unfold activate.
  destruct (activate_fn (_descriptor x)); [destruct (negb (_was_activated x)) |];
    simpl; auto.
Qed.

(** A processing call that returns: what it leaves as it was. *)
Lemma run_in_place_fields s (am : AudioMem) (nframes : nat)
    (r : LadspaPlugin LADSPA_Handle * AudioMem) :
  allocated s -> run_in_place s am nframes = Some r ->
  _was_activated s = true /\
  _descriptor r.1 = _descriptor s /\
  _shadow_data r.1 = _shadow_data s /\
  _latency_control_port r.1 = _latency_control_port s /\
  _was_activated r.1 = true /\
  allocated r.1.
Proof.
  intros Halloc Hrun. unfold run_in_place in Hrun.
  destruct (copy_shadow_copied s Halloc)
    as (Hd & _ & Hsh & Hact & Hlat & Hlen & _).
  destruct (_was_activated (copy_shadow s)) eqn:Hwa; [| discriminate].
  injection Hrun as <-.
  destruct (descriptor_run_fields (copy_shadow s) am nframes)
    as (Hd' & Hsh' & Hact' & Hlat' & Hlen').
  cbv zeta in *. destruct Halloc as [Hlc Hls].
  split; [congruence |]. split; [congruence |]. split; [congruence |].
  split; [congruence |]. split; [congruence |].
  unfold allocated. rewrite Hlen', Hlen, Hd', Hd, Hsh', Hsh. now split.
Qed.

Lemma run_in_place_inactive s (am : AudioMem) (nframes : nat) :
  allocated s -> _was_activated s = false -> run_in_place s am nframes = None.
Proof.
  intros Halloc Hact. unfold run_in_place.
  now rewrite (copy_shadow_was_activated s Halloc), Hact.
Qed.

(** The adapter [connect_and_run] hands to [run_in_place]. *)
Lemma route_ports_fields s (in_map out_map : ChanMapping) (offset : nat) :
  let s1 := (route_ports s in_map out_map offset).1.1 in
  _descriptor s1 = _descriptor s /\
  _control_data s1 = _control_data s /\
  _shadow_data s1 = _shadow_data s /\
  _was_activated s1 = _was_activated s /\
  _latency_control_port s1 = _latency_control_port s.
Proof.
  destruct (route_ports_routed s in_map out_map offset)
    as ((Hd & Hc & Hs & Ha & Hl & _) & _).
  cbv zeta. auto.
Qed.

Lemma route_ports_allocated s (in_map out_map : ChanMapping) (offset : nat) :
  allocated s -> allocated (route_ports s in_map out_map offset).1.1.
Proof.
  intros [Hlc Hls].
  destruct (route_ports_fields s in_map out_map offset) as (Hd & Hc & Hs & _).
  cbv zeta in *. unfold allocated. rewrite Hd, Hc, Hs. now split.
Qed.

Lemma connect_and_run_fields s (sess : Session) (bufs : list (list LADSPA_Data))
    (in_map out_map : ChanMapping) (nframes offset : nat)
    (r : Z * LadspaPlugin LADSPA_Handle * AudioMem) :
  allocated s ->
  connect_and_run s sess bufs in_map out_map nframes offset = Some r ->
  _was_activated s = true /\
  _descriptor r.1.2 = _descriptor s /\
  _shadow_data r.1.2 = _shadow_data s /\
  _latency_control_port r.1.2 = _latency_control_port s /\
  _was_activated r.1.2 = true /\
  allocated r.1.2.
Proof.
  intros Halloc Hrun. unfold connect_and_run in Hrun.
  pose proof (route_ports_allocated s in_map out_map offset Halloc) as Halloc1.
  destruct (route_ports_fields s in_map out_map offset)
    as (Hd & Hc & Hs & Ha & Hl).
  cbv zeta in *.
  destruct (run_in_place _ _ _) as [[s2 am] |] eqn:Hrip; [| discriminate].
  injection Hrun as <-.
  destruct (run_in_place_fields _ _ _ _ Halloc1 Hrip)
    as (Hact & Hd2 & Hs2 & Hl2 & Ha2 & Halloc2).
  simpl in *.
  split; [congruence |]. split; [congruence |]. split; [congruence |].
  split; [congruence |]. now split.
Qed.

(** [latency_compute_run] returns; it leaves the descriptor, the shadow
    array and the latency port as they were, and when there is a latency
    port it leaves the adapter deactivated after one call of [run]. *)
Lemma latency_compute_run_result s :
  allocated s ->
  exists a,
    latency_compute_run s = Some a /\
    allocated a /\
    _descriptor a = _descriptor s /\
    _shadow_data a = _shadow_data s /\
    _latency_control_port a = _latency_control_port s /\
    match _latency_control_port s with
    | Some _ =>
        _was_activated a = false /\
        count_events is_run (_log a) = S (count_events is_run (_log s))
    | None => a = s
    end.
Proof.
  intros Halloc. rewrite (latency_compute_run_returns s Halloc).
  eexists. split; [reflexivity |].
  destruct (_latency_control_port s) as [p |] eqn:Hlp; [| auto 6].
  destruct (probe_entry_reached s Halloc)
    as (Hde & Hshe & Hacte & Hlate & Hlene & (evs & Hlog & Hnorun) & _).
  destruct (deactivate_after_run (probe_entry s) probe_memory bufsize Hacte)
    as (_ & _ & _ & Hda & Hsha & Hlata & Hwa & Hca & Hloga).
  cbv zeta in *. destruct Halloc as [Hlc Hls].
  split; [| split; [| split; [| split; [| split]]]]; try congruence.
  - unfold allocated.
    rewrite Hca, apply_writes_length, Hda, Hsha, Hde, Hshe, Hlene. now split.
  - rewrite Hloga, Hlog, !count_events_app, Hnorun. simpl.
    destruct (deactivate_fn (_descriptor (probe_entry s))); simpl; lia.
Qed.

Lemma set_parameter_fields s which val when :
  _handle (set_parameter s which val when) = _handle s /\
  _latency_control_port (set_parameter s which val when) = _latency_control_port s /\
  _was_activated (set_parameter s which val when) = _was_activated s /\
  count_events is_run (_log (set_parameter s which val when)) =
    count_events is_run (_log s).
Proof.
  unfold set_parameter.
  destruct (which <? _); [destruct (F32.eqb _ _) |]; simpl;
    (split; [reflexivity |]); (split; [reflexivity |]);
    (split; [reflexivity |]); rewrite ?count_events_app; simpl; lia.
Qed.

Lemma set_state_port_fields s (child : PortNode) :
  _descriptor (set_state_port s child) = _descriptor s /\
  _control_data (set_state_port s child) = _control_data s /\
  _latency_control_port (set_state_port s child) = _latency_control_port s /\
  _was_activated (set_state_port s child) = _was_activated s /\
  (allocated s -> allocated (set_state_port s child)).
Proof.
  unfold set_state_port.
  destruct (pn_number child) as [port_id |]; [| simpl; auto].
  destruct (pn_value child) as [value |]; [| simpl; auto].
  destruct (set_parameter_fields s port_id value 0) as (_ & Hl & Ha & _).
  rewrite set_parameter_descriptor, set_parameter_control_data.
  repeat (split; [first [reflexivity | assumption] |]).
  apply set_parameter_allocated.
Qed.

Lemma set_state_ports_fields (l : list PortNode) s :
  let s1 := fold_left (set_state_port (LADSPA_Handle := LADSPA_Handle)) l s in
  _descriptor s1 = _descriptor s /\
  _control_data s1 = _control_data s /\
  _latency_control_port s1 = _latency_control_port s /\
  _was_activated s1 = _was_activated s /\
  (allocated s -> allocated s1).
Proof.
  cbv zeta. revert s. induction l as [| c l IH]; intros s; simpl; [auto 6 |].
  destruct (IH (set_state_port s c)) as (Hd & Hc & Hl & Ha & Hal).
  destruct (set_state_port_fields s c) as (Hd' & Hc' & Hl' & Ha' & Hal').
  rewrite Hd, Hc, Hl, Ha.
  repeat (split; [assumption |]). auto.
Qed.

Lemma parameter_is_input_in_range s (p : nat) :
  parameter_is_input s p = true -> p < PortCount (_descriptor s).
Proof.
  intros Hin. destruct (Nat.lt_ge_cases p (PortCount (_descriptor s))) as [| Hge];
    [assumption |].
  unfold parameter_is_input in Hin.
  rewrite (port_descriptor_out_of_range s p Hge) in Hin. discriminate.
Qed.

(** The two ways through the body of the loop of [load_preset]: a value for
    an input port is set, without a diagnostic, the port being in range;
    any other value is skipped, with the diagnostic of [port_descriptor]
    when the port is out of range. *)
Lemma load_preset_item_cases s (item : Z * LADSPA_Data) :
  load_preset_item s item =
  if parameter_is_input s (to_uint32 item.1)
  then set_parameter s (to_uint32 item.1) item.2 0
  else port_descriptor_warning s (to_uint32 item.1).
Proof.
  unfold load_preset_item, port_descriptor_warning.
  destruct (to_uint32 item.1 <? PortCount (_descriptor s)) eqn:Hrange;
    [reflexivity |].
  apply Nat.ltb_ge in Hrange.
  unfold parameter_is_input.
  rewrite (port_descriptor_out_of_range (record s EvWarning) _ Hrange).
  now rewrite (port_descriptor_out_of_range s _ Hrange).
Qed.

Lemma load_preset_item_fields s (item : Z * LADSPA_Data) :
  _descriptor (load_preset_item s item) = _descriptor s /\
  _control_data (load_preset_item s item) = _control_data s /\
  (allocated s -> allocated (load_preset_item s item)) /\
  count_events is_warning (_log (load_preset_item s item)) =
    count_events is_warning (_log s) +
    (if to_uint32 item.1 <? PortCount (_descriptor s) then 0 else 1).
Proof.
  rewrite load_preset_item_cases.
  destruct (parameter_is_input s (to_uint32 item.1)) eqn:Hin.
  - rewrite set_parameter_descriptor, set_parameter_control_data.
    split; [reflexivity |]. split; [reflexivity |].
    split; [apply set_parameter_allocated |].
    pose proof (parameter_is_input_in_range s _ Hin) as Hrange.
    unfold set_parameter. apply Nat.ltb_lt in Hrange. rewrite Hrange.
    destruct (F32.eqb _ _); [lia |]. simpl.
    rewrite !count_events_app. simpl. lia.
  - unfold port_descriptor_warning.
    destruct (to_uint32 item.1 <? PortCount (_descriptor s)).
    + split; [reflexivity |]. split; [reflexivity |]. split; [auto | lia].
    + simpl. split; [reflexivity |]. split; [reflexivity |]. split; [auto |].
      now rewrite count_events_app.
Qed.

Lemma load_preset_items_fields (defs : list (Z * LADSPA_Data)) s :
  let s1 := fold_left (load_preset_item (LADSPA_Handle := LADSPA_Handle)) defs s in
  _descriptor s1 = _descriptor s /\
  _control_data s1 = _control_data s /\
  (allocated s -> allocated s1) /\
  count_events is_warning (_log s1) =
    count_events is_warning (_log s) + length (out_of_range_items s defs).
Proof.
  cbv zeta. revert s. induction defs as [| item defs IH]; intros s;
    [cbn; auto with arith |].
  cbn [fold_left].
  destruct (IH (load_preset_item s item)) as (Hd & Hc & Hal & Hw).
  destruct (load_preset_item_fields s item) as (Hd' & Hc' & Hal' & Hw').
  rewrite Hd, Hc, Hw, Hw'.
  split; [assumption |]. split; [assumption |]. split; [auto |].
  unfold out_of_range_items. rewrite Hd'. cbn [List.filter].
  destruct (to_uint32 item.1 <? PortCount (_descriptor s)); cbn [negb length]; lia.
Qed.

(** X9.  Construction fails for five reasons only: the module does not
    open, it has no ["ladspa_descriptor"] symbol, the symbol has no
    descriptor at the index, the plugin cannot process in place, or it has
    no instantiate function or that function returns no handle.  In every
    other case [init] returns an adapter of that descriptor, the latency
    probe included, and [LadspaPluginInfo::load] returns that adapter
    instead of the null pointer. *)
Theorem init_fails_only_on_load (module_path : string) (index : nat) (rate : Z) :
  let loads dfunc d inst h :=
    module_opened (Glib_Module module_path) = true /\
    ladspa_descriptor (Glib_Module module_path) = Some dfunc /\
    dfunc index = Some d /\
    LADSPA_IS_INPLACE_BROKEN (Properties d) = false /\
    instantiate d = Some inst /\
    inst rate = Some h in
  (forall a, init Glib_Module expf logf module_path index rate = Some a ->
     exists dfunc d inst h,
       loads dfunc d inst h /\ _descriptor a = d /\
       origin a = (module_path, index, rate)) /\
  (forall dfunc d inst h, loads dfunc d inst h ->
     exists a,
       init Glib_Module expf logf module_path index rate = Some a /\
       LadspaPluginInfo_load Glib_Module expf logf
         {| path := module_path; index := index |} rate = Some a).
Proof.
  intros loads. subst loads. cbv beta.
  assert (Hprobe : forall (d : LADSPA_Descriptor LADSPA_Handle) h,
            exists a : LadspaPlugin LADSPA_Handle,
              latency_compute_run
                (fold_left (init_port expf logf) (seq 0 (PortCount d))
                           (initial_state module_path index rate d h)) = Some a /\
              _descriptor a = d).
  { intros d h.
    set (s0 := initial_state module_path index rate d h).
    pose proof (initial_state_allocated module_path index rate d h) as Halloc0.
    fold s0 in Halloc0.
    pose proof (init_ports_initialised expf logf s0 Halloc0 eq_refl) as Hinv.
    change (PortCount (_descriptor s0)) with (PortCount d) in Hinv.
    pose proof (initialised_allocated expf logf s0 _ _ Halloc0 Hinv) as Hallocp.
    destruct Hinv as (_ & _ & _ & Hd & _).
    destruct (latency_compute_run_result _ Hallocp) as (a & Hrun & _ & Hda & _).
    exists a. split; [exact Hrun |]. now rewrite Hda, Hd. }
  split.
  - intros a Hinit.
    destruct (init_constructed _ _ _ _ _ _ _ Hinit) as (_ & Hor & _).
    unfold init in Hinit.
    destruct (module_opened (Glib_Module module_path)) eqn:Hopen;
      [| discriminate].
    destruct (ladspa_descriptor (Glib_Module module_path)) as [dfunc |] eqn:Hsym;
      [| discriminate].
    destruct (dfunc index) as [d |] eqn:Hdesc; [| discriminate].
    destruct (LADSPA_IS_INPLACE_BROKEN (Properties d)) eqn:Hbroken;
      [discriminate |].
    destruct (instantiate d) as [inst |] eqn:Hinst; [| discriminate].
    destruct (inst rate) as [h |] eqn:Hh; [| discriminate].
    cbn [negb] in Hinit. cbv zeta in Hinit.
    destruct (Hprobe d h) as (a' & Hrun & Hda).
    rewrite Hrun in Hinit. injection Hinit as <-.
    exists dfunc, d, inst, h. auto 10.
  - intros dfunc d inst h (Hopen & Hsym & Hdesc & Hbroken & Hinst & Hh).
    destruct (Hprobe d h) as (a & Hrun & _).
    assert (Hinit : init Glib_Module expf logf module_path index rate = Some a).
    { unfold init. rewrite Hopen, Hsym, Hdesc, Hbroken, Hinst, Hh. exact Hrun. }
    exists a. split; [exact Hinit |].
    unfold LadspaPluginInfo_load, LadspaPlugin_new. simpl. now rewrite Hinit.
Qed.

(** The adapter [init] returns and the state its loop over the ports
    reached. *)
Lemma init_after_ports (module_path : string) (index : nat) (rate : Z)
    (a : LadspaPlugin LADSPA_Handle) :
  init Glib_Module expf logf module_path index rate = Some a ->
  exists s0 sp,
    origin s0 = (module_path, index, rate) /\
    _shadow_data s0 = repeat F32.zero (PortCount (_descriptor s0)) /\
    _control_data s0 = _shadow_data s0 /\
    _was_activated s0 = false /\
    initialised_up_to expf logf s0 (PortCount (_descriptor s0)) sp /\
    allocated sp /\
    latency_compute_run sp = Some a.
Proof.
  intros Hinit. destruct (init_returns _ _ _ _ _ _ _ Hinit) as (d & h & Hrun).
  set (s0 := initial_state module_path index rate d h) in *.
  pose proof (initial_state_allocated module_path index rate d h) as Halloc0.
  fold s0 in Halloc0.
  pose proof (init_ports_initialised expf logf s0 Halloc0 eq_refl) as Hinv.
  exists s0, (fold_left (init_port expf logf) (seq 0 (PortCount (_descriptor s0))) s0).
  repeat (split; [reflexivity |]).
  split; [exact Hinv |].
  split; [exact (initialised_allocated expf logf s0 _ _ Halloc0 Hinv) |].
  exact Hrun.
Qed.

(** X10.  The adapter [init] returns has the shadow value of every control
    port, input or output, at the default [_default_value] resolves for
    it, and the shadow value of every other port at 0; [get_parameter]
    returns that default for every input control port.  When the plugin
    has no latency port, every live value equals its shadow value. *)
Theorem init_seeds_defaults (module_path : string) (index : nat) (rate : Z)
    (a : LadspaPlugin LADSPA_Handle) :
  init Glib_Module expf logf module_path index rate = Some a ->
  forall i, i < PortCount (_descriptor a) ->
    (parameter_is_control a i = true ->
       _shadow_data a !!! i = _default_value expf logf a i) /\
    (parameter_is_control a i = false -> _shadow_data a !!! i = F32.zero) /\
    (is_input_control a i = true ->
       get_parameter a i = _default_value expf logf a i) /\
    (_latency_control_port a = None ->
       _control_data a !!! i = _shadow_data a !!! i).
Proof.
  intros Hinit i Hi.
  destruct (init_constructed _ _ _ _ _ _ _ Hinit) as (_ & Hor & _).
  destruct (init_after_ports _ _ _ _ Hinit)
    as (s0 & sp & Hor0 & Hsh0 & Hc0 & _ & Hinv & Hallocp & Hrun).
  destruct (latency_compute_run_result sp Hallocp)
    as (a' & Hrun' & _ & Hda & Hsha & Hlata & Hnone).
  rewrite Hrun in Hrun'. injection Hrun' as <-.
  destruct Hinv as (Hp & Hx & Hr & Hd & _ & _ & _ & Hin & Hout & _).
  assert (Hd0 : _descriptor a = _descriptor s0) by congruence.
  assert (Hdef : _default_value expf logf a i = _default_value expf logf s0 i).
  { apply default_value_same; [exact Hd0 |].
    unfold origin in Hor, Hor0. congruence. }
  assert (Hctl : parameter_is_control a i = true ->
                 _shadow_data a !!! i = _default_value expf logf a i).
  { intros Hc. unfold parameter_is_control in Hc.
    rewrite (port_descriptor_same_descriptor _ _ _ Hd0) in Hc.
    rewrite Hsha, Hdef. apply Hin; [congruence | exact Hc]. }
  split; [exact Hctl |]. split; [| split].
  - intros Hc. unfold parameter_is_control in Hc.
    rewrite (port_descriptor_same_descriptor _ _ _ Hd0) in Hc.
    rewrite Hsha. destruct (Hout i (or_intror Hc)) as [-> _].
    rewrite Hsh0. apply repeat_lookup_total_zero.
  - intros Hic. unfold get_parameter.
    unfold is_input_control in Hic. apply andb_true_iff in Hic as [Hinp Hc].
    rewrite Hinp. now apply Hctl.
  - intros Hlat. rewrite Hlata in Hlat. rewrite Hlat in Hnone. subst a.
    destruct (LADSPA_IS_PORT_CONTROL (port_descriptor s0 i)) eqn:Hc.
    + destruct (Hin i) as [-> ->]; [congruence | exact Hc | reflexivity].
    + destruct (Hout i (or_intror Hc)) as [-> ->]. now rewrite Hc0.
Qed.

(** X11.  The adapter [init] returns is not activated, whether or not the
    latency probe ran: [run_in_place] and [connect_and_run] fail their
    assertion on it, and succeed once [activate] has been called. *)
Theorem constructed_not_activated (module_path : string) (index : nat) (rate : Z)
    (a : LadspaPlugin LADSPA_Handle) (am : AudioMem) (sess : Session)
    (bufs : list (list LADSPA_Data)) (in_map out_map : ChanMapping)
    (nframes offset : nat) :
  init Glib_Module expf logf module_path index rate = Some a ->
  _was_activated a = false /\
  run_in_place a am nframes = None /\
  connect_and_run a sess bufs in_map out_map nframes offset = None /\
  (exists r, run_in_place (activate a) am nframes = Some r) /\
  (exists r, connect_and_run (activate a) sess bufs in_map out_map
               nframes offset = Some r).
Proof.
  intros Hinit.
  destruct (init_after_ports _ _ _ _ Hinit)
    as (s0 & sp & _ & _ & _ & Hact0 & Hinv & Hallocp & Hrun).
  destruct (latency_compute_run_result sp Hallocp)
    as (a' & Hrun' & Halloc & _ & _ & _ & Hnone).
  rewrite Hrun in Hrun'. injection Hrun' as <-.
  destruct Hinv as (_ & _ & _ & _ & Hactp & _).
  assert (Hact : _was_activated a = false).
  { destruct (_latency_control_port sp); [apply Hnone | congruence]. }
  split; [exact Hact |].
  split; [now apply run_in_place_inactive |]. split.
  - unfold connect_and_run. rewrite run_in_place_inactive; [reflexivity | |].
    + now apply route_ports_allocated.
    + destruct (route_ports_fields a in_map out_map offset) as (_ & _ & _ & -> & _).
      exact Hact.
  - pose proof (activate_allocated a Halloc) as Halloca.
    destruct (activate_fields a) as (_ & _ & _ & _ & Hon).
    split; eexists.
    + now apply run_in_place_activated.
    + now apply connect_and_run_activated.
Qed.

(** X12.  The two arrays keep one slot per port: [set_parameter],
    [activate], [deactivate], a processing call that returns,
    [latency_compute_run], [set_state] on the current format and
    [load_preset] all leave the adapter with a live and a shadow array of
    the length of the descriptor's port count. *)
Theorem allocated_preserved s :
  allocated s ->
  (forall which val when, allocated (set_parameter s which val when)) /\
  allocated (activate s) /\
  allocated (deactivate s) /\
  (forall am nframes r, run_in_place s am nframes = Some r -> allocated r.1) /\
  (forall sess bufs in_map out_map nframes offset r,
     connect_and_run s sess bufs in_map out_map nframes offset = Some r ->
     allocated r.1.2) /\
  (forall a, latency_compute_run s = Some a -> allocated a) /\
  (forall node version r,
     (3000 <= version)%Z -> set_state set_state_2X s node version = Some r ->
     allocated r.2) /\
  (forall r, allocated (load_preset lrdf_get_setting_values s r).2).
Proof.
  intros Halloc.
  assert (Hlcr : forall x a, allocated x -> latency_compute_run x = Some a ->
                   allocated a).
  { intros x a Hx Hrun.
    destruct (latency_compute_run_result x Hx) as (a' & Hrun' & Ha & _).
    congruence. }
  split; [intros; now apply set_parameter_allocated |].
  split; [now apply activate_allocated |]. split; [| split; [| split; [| split; [| split]]]].
  - destruct (deactivate_fields s) as (Hd & Hsh & Hc & _).
    unfold allocated. now rewrite Hd, Hsh, Hc.
  - intros am nframes r Hrun. now apply (run_in_place_fields s am nframes r).
  - intros sess bufs in_map out_map nframes offset r Hrun.
    now apply (connect_and_run_fields s sess bufs in_map out_map nframes offset r).
  - intros a. now apply Hlcr.
  - intros node version r Hversion Hset. unfold set_state in Hset.
    replace (version <? 3000)%Z with false in Hset
      by (symmetry; apply Z.ltb_ge; lia).
    destruct (negb (xml_name node =? state_node_name)%string).
    + injection Hset as <-. exact Halloc.
    + destruct (latency_compute_run _) as [s2 |] eqn:Hrun; [| discriminate].
      injection Hset as <-. apply (Hlcr _ _ (proj2 (proj2 (proj2 (proj2
        (set_state_ports_fields (children node "Port") s)))) Halloc) Hrun).
  - intros r. unfold load_preset. simpl.
    destruct (lrdf_get_setting_values (uri r)) as [defs |]; [| exact Halloc].
    now apply load_preset_items_fields.
Qed.

(** X13.  A processing call never changes a shadow value: after
    [run_in_place] or [connect_and_run] the shadow array is as it was, and
    [get_parameter] returns for every input port what it returned before,
    whatever the plugin wrote. *)
Theorem processing_keeps_shadow s :
  allocated s ->
  (forall am nframes r, run_in_place s am nframes = Some r ->
     _shadow_data r.1 = _shadow_data s /\
     forall i, parameter_is_input s i = true ->
       get_parameter r.1 i = get_parameter s i) /\
  (forall sess bufs in_map out_map nframes offset r,
     connect_and_run s sess bufs in_map out_map nframes offset = Some r ->
     _shadow_data r.1.2 = _shadow_data s /\
     forall i, parameter_is_input s i = true ->
       get_parameter r.1.2 i = get_parameter s i).
Proof.
  intros Halloc.
  assert (Hget : forall x, _descriptor x = _descriptor s ->
            _shadow_data x = _shadow_data s ->
            forall i, parameter_is_input s i = true ->
              get_parameter x i = get_parameter s i).
  { intros x Hd Hsh i Hin. unfold parameter_is_input in Hin.
    unfold get_parameter.
    now rewrite (port_descriptor_same_descriptor _ _ _ Hd), Hin, Hsh. }
  split.
  - intros am nframes r Hrun.
    destruct (run_in_place_fields s am nframes r Halloc Hrun)
      as (_ & Hd & Hsh & _).
    split; [exact Hsh | now apply Hget].
  - intros sess bufs in_map out_map nframes offset r Hrun.
    destruct (connect_and_run_fields s sess bufs in_map out_map nframes offset r
                Halloc Hrun) as (_ & Hd & Hsh & _).
    split; [exact Hsh | now apply Hget].
Qed.

End LifecycleFacts.

(** ** Edits on their way to the plugin, state documents and presets *)
Section EditFacts.

Context {LADSPA_Handle : Type}.
Variable set_state_2X :
  LadspaPlugin LADSPA_Handle -> XMLNode -> Z ->
  option (Z * LadspaPlugin LADSPA_Handle).
Variable lrdf_get_setting_values : string -> option (list (Z * LADSPA_Data)).
Implicit Types s x y : LadspaPlugin LADSPA_Handle.

Lemma list_eq_lookup_total (l1 l2 : list LADSPA_Data) :
  length l1 = length l2 ->
  (forall i, i < length l1 -> l1 !!! i = l2 !!! i) ->
  l1 = l2.
Proof.
  intros Hlen Hall.
  apply (list_eq_same_length l1 l2 (length l1)); [auto | reflexivity |].
  intros i v w Hi Hv Hw.
  apply list_lookup_total_correct in Hv, Hw. rewrite <- Hv, <- Hw. now apply Hall.
Qed.

(** The live array [run] is entered with after [set_parameter]. *)
Lemma live_after_set_parameter s (i : nat) (v : LADSPA_Data) (when : Z) :
  allocated s ->
  let s1 := set_parameter s i v when in
  _handle (copy_shadow s1) = _handle (copy_shadow s) /\
  length (_control_data (copy_shadow s1)) = length (_control_data (copy_shadow s)) /\
  (forall j, j <> i \/ is_input_control s i = false ->
     _control_data (copy_shadow s1) !!! j = _control_data (copy_shadow s) !!! j) /\
  (is_input_control s i = true ->
     _control_data (copy_shadow s1) !!! i =
       if F32.eqb (_shadow_data s !!! i) v then _shadow_data s !!! i else v).
Proof.
  intros Halloc s1.
  pose proof (set_parameter_allocated s i v when Halloc) as Halloc1.
  fold s1 in Halloc1.
  pose proof (set_parameter_descriptor s i v when) as Hd. fold s1 in Hd.
  pose proof (set_parameter_control_data s i v when) as Hc. fold s1 in Hc.
  destruct (set_parameter_fields s i v when) as (Hh & _). fold s1 in Hh.
  destruct (copy_shadow_copied s Halloc)
    as (_ & Hh0 & _ & _ & _ & Hlen0 & Hin0 & Hout0 & _).
  destruct (copy_shadow_copied s1 Halloc1)
    as (_ & Hh1 & _ & _ & _ & Hlen1 & Hin1 & Hout1 & _).
  rewrite Hd in Hin1, Hout1.
  assert (Hic : forall j, is_input_control s1 j = is_input_control s j)
    by (intros j; now apply is_input_control_same_descriptor).
  split; [congruence |]. split; [congruence |]. split.
  - intros j Hj.
    destruct (is_input_control s j) eqn:Hicj.
    + pose proof (is_input_control_in_range s j Hicj) as Hrange.
      rewrite Hin1, Hin0 by (auto; now rewrite Hic).
      apply set_parameter_shadow_other.
      destruct Hj as [Hj | Hj]; [exact Hj | congruence].
    + rewrite Hout1, Hout0 by (right; auto; now rewrite Hic).
      now rewrite Hc.
  - intros Hici.
    pose proof (is_input_control_in_range s i Hici) as Hrange.
    rewrite Hin1 by (auto; now rewrite Hic).
    apply set_parameter_shadow_input; [exact Hrange | destruct Halloc; lia |].
    unfold is_input_control in Hici. now apply andb_true_iff in Hici as [? _].
Qed.

(** X14.  An edit of an input control port reaches the plugin with the
    next processing call and not before: [set_parameter] leaves the live
    array as it is, and the next [run_in_place] enters [run] with the live
    value of that port at the value set (or at the old value, when that
    compared equal) and with the live value of every other port as it
    would have been without the edit. *)
Theorem set_parameter_reaches_run s (i : nat) (v : LADSPA_Data) (when : Z)
    (am : AudioMem) (nframes : nat) :
  allocated s -> _was_activated s = true ->
  is_input_control s i = true ->
  let s1 := set_parameter s i v when in
  _control_data s1 = _control_data s /\
  run_in_place s1 am nframes = Some (descriptor_run (copy_shadow s1) am nframes) /\
  F32.same_value (_control_data (copy_shadow s1) !!! i) v /\
  (forall j, j <> i ->
     _control_data (copy_shadow s1) !!! j = _control_data (copy_shadow s) !!! j).
Proof.
  intros Halloc Hact Hic s1.
  destruct (live_after_set_parameter s i v when Halloc) as (_ & _ & Hother & Hthis).
  fold s1 in Hother, Hthis.
  split; [apply set_parameter_control_data |]. split; [| split].
  - apply run_in_place_activated; [now apply set_parameter_allocated |].
    destruct (set_parameter_fields s i v when) as (_ & _ & Ha & _).
    unfold s1. now rewrite Ha.
  - rewrite (Hthis Hic). apply same_value_after_write.
  - intros j Hj. apply Hother. now left.
Qed.

(** X15.  An edit of a port that is not an input control port never
    reaches the plugin: after [set_parameter] on such a port, or on an
    index out of range, the next processing call enters [run] with the
    same handle and the same live array as without the edit, so that the
    plugin writes the same values and leaves the same audio. *)
Theorem set_parameter_not_control_input s (i : nat) (v : LADSPA_Data) (when : Z)
    (am : AudioMem) (nframes : nat) :
  allocated s ->
  is_input_control s i = false ->
  let s1 := set_parameter s i v when in
  _handle (copy_shadow s1) = _handle (copy_shadow s) /\
  _control_data (copy_shadow s1) = _control_data (copy_shadow s) /\
  _control_data (descriptor_run (copy_shadow s1) am nframes).1 =
    _control_data (descriptor_run (copy_shadow s) am nframes).1 /\
  (descriptor_run (copy_shadow s1) am nframes).2 =
    (descriptor_run (copy_shadow s) am nframes).2.
Proof.
  intros Halloc Hic s1.
  destruct (live_after_set_parameter s i v when Halloc) as (Hh & Hlen & Hother & _).
  fold s1 in Hh, Hlen, Hother.
  assert (Hctl : _control_data (copy_shadow s1) = _control_data (copy_shadow s)).
  { apply list_eq_lookup_total; [exact Hlen |]. intros j _. apply Hother. now right. }
  assert (Hd : _descriptor (copy_shadow s1) = _descriptor (copy_shadow s)).
  { destruct (copy_shadow_copied s Halloc) as (-> & _).
    destruct (copy_shadow_copied s1 (set_parameter_allocated s i v when Halloc))
      as (-> & _).
    apply set_parameter_descriptor. }
  split; [exact Hh |]. split; [exact Hctl |].
  unfold descriptor_run. rewrite Hd, Hh, Hctl.
  destruct (run _ _ _ _ _) as [[h writes] am']. now split.
Qed.

(** *** Adapters that differ in their history only *)



















(** X16.  [set_state] on the current format rejects a document whose
    container does not carry the adapter's tag: it returns -1 after
    printing an error and leaves the adapter as it is, with no entry
    applied and no latency probe run. *)
Theorem set_state_rejects_other_tag s (node : XMLNode) (version : Z) :
  (3000 <= version)%Z ->
  xml_name node <> state_node_name ->
  exists a,
    set_state set_state_2X s node version = Some ((-1)%Z, a) /\
    forget_log a = forget_log s /\
    _log a = _log s ++ [EvError].
Proof.
  intros Hversion Htag. unfold set_state.
  replace (version <? 3000)%Z with false by (symmetry; apply Z.ltb_ge; lia).
  apply String.eqb_neq in Htag. rewrite Htag. simpl.
  eexists. split; [reflexivity |]. now split.
Qed.


Lemma written_snoc (writes : list (nat * LADSPA_Data)) (w : nat * LADSPA_Data)
    (port : nat) :
  written (writes ++ [w]) port =
  if w.1 =? port then Some w.2 else written writes port.
Proof. unfold written. now rewrite fold_left_app. Qed.

(** The shadow values of the input ports after the loop of [set_state]. *)
Lemma set_state_ports_shadow s (l : list PortNode) :
  allocated s ->
  forall port, parameter_is_input s port = true ->
    match written (entry_writes l) port with
    | Some v =>
        F32.same_value (_shadow_data (fold_left set_state_port l s) !!! port) v
    | None =>
        _shadow_data (fold_left set_state_port l s) !!! port =
        _shadow_data s !!! port
    end.
Proof.
  intros Halloc port Hin.
  induction l as [| child l IH] using rev_ind; [reflexivity |].
  unfold entry_writes in *. rewrite flat_map_app, fold_left_app.
  cbn [flat_map fold_left]. rewrite app_nil_r.
  set (x := fold_left set_state_port l s) in *.
  destruct (set_state_ports_fields l s) as (Hd & _ & _ & _ & Hal).
  fold x in Hd, Hal. specialize (Hal Halloc).
  unfold set_state_port.
  destruct (pn_number child) as [port_id |];
    [| rewrite app_nil_r; exact IH].
  destruct (pn_value child) as [value |];
    [| rewrite app_nil_r; exact IH].
  rewrite written_snoc. cbn [fst snd].
  destruct (port_id =? port) eqn:Hport.
  - apply Nat.eqb_eq in Hport. subst port_id.
    assert (Hinx : LADSPA_IS_PORT_INPUT (port_descriptor x port) = true).
    { rewrite (port_descriptor_same_descriptor _ _ _ Hd). exact Hin. }
    assert (Hrange : port < PortCount (_descriptor x)).
    { destruct (Nat.lt_ge_cases port (PortCount (_descriptor x)))
        as [| Hge]; [assumption |].
      rewrite (port_descriptor_out_of_range x _ Hge) in Hinx. discriminate. }
    rewrite set_parameter_shadow_input.
    + apply same_value_after_write.
    + exact Hrange.
    + destruct Hal as [_ Hls]. lia.
    + exact Hinx.
  - apply Nat.eqb_neq in Hport.
    rewrite set_parameter_shadow_other by auto. exact IH.
Qed.

(** X18.  [set_state] on the current format applies the entries in
    document order, so that the last usable entry for a port wins: it
    returns with the status of the base class, and [get_parameter] then
    returns, for an input port, the value of the last ["Port"] entry with a
    number and a value that names it (or the value it had, where that
    compared equal), and what it returned before for an input port no such
    entry names. *)
Theorem set_state_last_entry_wins s (node : XMLNode) (version : Z) :
  allocated s ->
  (3000 <= version)%Z ->
  xml_name node = state_node_name ->
  exists a,
    set_state set_state_2X s node version = Some (0%Z, a) /\
    forall port, parameter_is_input s port = true ->
      match written (entry_writes (children node "Port")) port with
      | Some v => F32.same_value (get_parameter a port) v
      | None => get_parameter a port = get_parameter s port
      end.
Proof.
  intros Halloc Hversion Htag. unfold set_state.
  replace (version <? 3000)%Z with false by (symmetry; apply Z.ltb_ge; lia).
  rewrite Htag, String.eqb_refl. cbn [negb]. cbv zeta.
  destruct (set_state_ports_fields (children node "Port") s)
    as (Hd1 & _ & _ & _ & Hal).
  destruct (latency_compute_run_result _ (Hal Halloc))
    as (a & -> & _ & Hda & Hsha & _).
  exists a. split; [reflexivity |]. intros port Hin.
  assert (Hget : forall x, _descriptor x = _descriptor s ->
            get_parameter x port = _shadow_data x !!! port).
  { intros x Hd. unfold get_parameter. unfold parameter_is_input in Hin.
    now rewrite (port_descriptor_same_descriptor _ _ _ Hd), Hin. }
  rewrite (Hget a) by congruence. rewrite (Hget s eq_refl), Hsha.
  now apply set_state_ports_shadow.
Qed.

(** X19.  The latency probe leaves the adapter deactivated, also when it
    was activated before: on an adapter with a latency port
    [latency_compute_run] calls [run] once and returns an adapter that is
    not activated, and so does [set_state] on a document of the current
    format, after which a processing call fails its assertion until
    [activate] is called again. *)
Theorem latency_probe_deactivates s (node : XMLNode) (version : Z) (p : nat) :
  allocated s ->
  _latency_control_port s = Some p ->
  (exists a,
     latency_compute_run s = Some a /\
     _was_activated a = false /\
     count_events is_run (_log a) = S (count_events is_run (_log s))) /\
  ((3000 <= version)%Z -> xml_name node = state_node_name ->
   exists status a,
     set_state set_state_2X s node version = Some (status, a) /\
     _was_activated a = false /\
     forall am nframes, run_in_place a am nframes = None).
Proof.
  intros Halloc Hlat. split.
  - destruct (latency_compute_run_result s Halloc)
      as (a & Hrun & _ & _ & _ & _ & Hoff).
    rewrite Hlat in Hoff. now exists a.
  - intros Hversion Htag. unfold set_state.
    replace (version <? 3000)%Z with false by (symmetry; apply Z.ltb_ge; lia).
    rewrite Htag, String.eqb_refl. cbn [negb]. cbv zeta.
    destruct (set_state_ports_fields (children node "Port") s)
      as (_ & _ & Hl & _ & Hal).
    destruct (latency_compute_run_result _ (Hal Halloc))
      as (a & -> & Halloca & _ & _ & _ & Hoff).
    rewrite Hl, Hlat in Hoff. destruct Hoff as [Hoff _].
    eexists _, a. split; [reflexivity |]. split; [exact Hoff |].
    intros am nframes. now apply run_in_place_inactive.
Qed.

(** *** Presets *)



(** The shadow values after the loop of [load_preset]. *)
Lemma load_preset_items_shadow s (defs : list (Z * LADSPA_Data)) :
  allocated s ->
  forall port,
    match written (map (fun item => (to_uint32 item.1, item.2)) defs) port with
    | Some v =>
        if parameter_is_input s port
        then F32.same_value (_shadow_data (fold_left load_preset_item defs s) !!! port) v
        else _shadow_data (fold_left load_preset_item defs s) !!! port =
             _shadow_data s !!! port
    | None => _shadow_data (fold_left load_preset_item defs s) !!! port =
              _shadow_data s !!! port
    end.
Proof.
  intros Halloc. induction defs as [| item defs IH] using rev_ind;
    [reflexivity |].
  intros port. rewrite map_app, fold_left_app. cbn [map fold_left].
  rewrite written_snoc. cbn [fst snd].
  set (x := fold_left load_preset_item defs s) in *.
  destruct (load_preset_items_fields defs s) as (Hd & _ & Hal & _).
  fold x in Hd, Hal. specialize (Hal Halloc).
  assert (Hinx : forall q, parameter_is_input x q = parameter_is_input s q).
  { intros q. unfold parameter_is_input.
    now rewrite (port_descriptor_same_descriptor _ _ _ Hd). }
  rewrite load_preset_item_cases, Hinx.
  assert (Hskip : _shadow_data (port_descriptor_warning x (to_uint32 item.1)) =
                  _shadow_data x).
  { unfold port_descriptor_warning. now destruct (_ <? _). }
  destruct (to_uint32 item.1 =? port) eqn:Hport.
  - apply Nat.eqb_eq in Hport. rewrite Hport.
    destruct (parameter_is_input s port) eqn:Hin.
    + assert (Hrange : port < PortCount (_descriptor x)).
      { destruct (Nat.lt_ge_cases port (PortCount (_descriptor x)))
          as [| Hge]; [assumption |].
        rewrite <- Hinx in Hin. unfold parameter_is_input in Hin.
        rewrite (port_descriptor_out_of_range x _ Hge) in Hin. discriminate. }
      rewrite set_parameter_shadow_input.
      * apply same_value_after_write.
      * exact Hrange.
      * destruct Hal as [_ Hls]. lia.
      * rewrite <- Hinx in Hin. exact Hin.
    + specialize (IH port). rewrite Hin in IH. rewrite <- Hport, Hskip, Hport.
      destruct (written _ port); exact IH.
  - apply Nat.eqb_neq in Hport.
    assert (Hsame : _shadow_data
                      (if parameter_is_input s (to_uint32 item.1)
                       then set_parameter x (to_uint32 item.1) item.2 0
                       else port_descriptor_warning x (to_uint32 item.1))
                    !!! port = _shadow_data x !!! port).
    { destruct (parameter_is_input s (to_uint32 item.1));
        [| now rewrite Hskip].
      apply set_parameter_shadow_other. auto. }
    specialize (IH port).
    destruct (written _ port); [destruct (parameter_is_input s port) |];
      rewrite ?Hsame; exact IH.
Qed.

(** X20.  [load_preset] returns [true] and touches shadow values only: it
    leaves the live array as it is; a value for a port at or beyond the
    port count is skipped with the one warning [port_descriptor] prints for
    it, and no other warning is printed; the shadow value of a port that is
    not an input, or that the preset does not name, stays as it was, and
    the shadow value of an input port the preset names becomes the last
    value the preset gives for it (or stays, when it compared equal). *)
Theorem load_preset_sets_inputs s (r : PresetRecord) (defs : list (Z * LADSPA_Data)) :
  allocated s ->
  lrdf_get_setting_values (uri r) = Some defs ->
  let s1 := (load_preset lrdf_get_setting_values s r).2 in
  (load_preset lrdf_get_setting_values s r).1 = true /\
  _control_data s1 = _control_data s /\
  count_events is_warning (_log s1) =
    count_events is_warning (_log s) + length (out_of_range_items s defs) /\
  forall port,
    match written (map (fun item => (to_uint32 item.1, item.2)) defs) port with
    | Some v =>
        if parameter_is_input s port
        then F32.same_value (_shadow_data s1 !!! port) v
        else _shadow_data s1 !!! port = _shadow_data s !!! port
    | None => _shadow_data s1 !!! port = _shadow_data s !!! port
    end.
Proof.
  intros Halloc Hdefs. unfold load_preset. rewrite Hdefs. cbn [fst snd].
  destruct (load_preset_items_fields defs s) as (_ & Hc & _ & Hw).
  cbv zeta in *.
  split; [reflexivity |]. split; [exact Hc |]. split; [exact Hw |].
  now apply load_preset_items_shadow.
Qed.

Lemma input_parameter_pids_filter s :
  input_parameter_pids s =
  List.filter (parameter_is_input s) (seq 0 (parameter_count s)).
Proof.
  unfold input_parameter_pids.
  apply (fold_left_seq_invariant _
           (fun k pids => pids = List.filter (parameter_is_input s) (seq 0 k))).
  - reflexivity.
  - intros k pids _ ->. rewrite filter_seq_S.
    destruct (parameter_is_input s k); [reflexivity | now rewrite app_nil_r].
Qed.

Lemma written_map_keys (f : nat -> LADSPA_Data) (l : list nat) (port : nat) :
  written (map (fun pid => (pid, f pid)) l) port =
  if existsb (Nat.eqb port) l then Some (f port) else None.
Proof.
  induction l as [| pid l IH] using rev_ind; [reflexivity |].
  rewrite map_app, existsb_app. cbn [map existsb].
  rewrite written_snoc, IH, orb_false_r. cbn [fst snd].
  rewrite (Nat.eqb_sym port pid).
  destruct (pid =? port) eqn:Hp.
  - apply Nat.eqb_eq in Hp. subst pid. now rewrite orb_true_r.
  - now rewrite orb_false_r.
Qed.

(** X21.  Saving a preset and loading it restores the input ports.
    [do_save_preset] hands the archive one value per input port, audio
    inputs included, in index order, each the value [get_parameter]
    returns; when the archive answers [load_preset] with these values, on
    an adapter of the same plugin, [get_parameter] then returns on every
    input port what it returned on the adapter the preset was saved from
    (up to the sign of a zero). *)
Theorem preset_round_trip (saved : LadspaPlugin LADSPA_Handle) s (r : PresetRecord) :
  allocated s ->
  _descriptor s = _descriptor saved ->
  (Z.of_nat (PortCount (_descriptor s)) <= 2 ^ 32)%Z ->
  lrdf_get_setting_values (uri r) = Some (do_save_preset_defaults saved) ->
  do_save_preset_defaults saved =
    map (fun pid => (Z.of_nat pid, get_parameter saved pid))
        (List.filter (parameter_is_input saved) (seq 0 (parameter_count saved))) /\
  forall i, parameter_is_input s i = true ->
    F32.same_value (get_parameter (load_preset lrdf_get_setting_values s r).2 i)
                   (get_parameter saved i).
Proof.
  intros Halloc Hd Hcount Hdefs.
  assert (Hsaved : do_save_preset_defaults saved =
            map (fun pid => (Z.of_nat pid, get_parameter saved pid))
                (List.filter (parameter_is_input saved)
                             (seq 0 (parameter_count saved))))
    by (unfold do_save_preset_defaults; now rewrite input_parameter_pids_filter).
  split; [exact Hsaved |]. intros i Hin.
  assert (Hrange : i < PortCount (_descriptor s)).
  { destruct (Nat.lt_ge_cases i (PortCount (_descriptor s))) as [| Hge];
      [assumption |].
    unfold parameter_is_input in Hin.
    rewrite (port_descriptor_out_of_range s _ Hge) in Hin. discriminate. }
  assert (Hins : parameter_is_input saved i = true).
  { unfold parameter_is_input in *.
    now rewrite <- (port_descriptor_same_descriptor _ _ _ Hd). }
  unfold load_preset. rewrite Hdefs. cbn [snd].
  pose proof (load_preset_items_shadow s (do_save_preset_defaults saved) Halloc i)
    as Hshadow.
  rewrite Hsaved, map_map in Hshadow. cbn [fst snd] in Hshadow.
  rewrite (map_ext_in _ (fun pid => (pid, get_parameter saved pid))) in Hshadow.
  - rewrite written_map_keys, Hin in Hshadow.
    replace (existsb (Nat.eqb i) _) with true in Hshadow.
    + destruct (load_preset_items_fields (do_save_preset_defaults saved) s)
        as (Hd1 & _).
      rewrite <- Hsaved in Hshadow.
      unfold get_parameter at 1. unfold parameter_is_input in Hin.
      now rewrite (port_descriptor_same_descriptor _ _ _ Hd1), Hin.
    + symmetry. apply existsb_exists. exists i.
      split; [| apply Nat.eqb_refl].
      apply List.filter_In. split; [| exact Hins].
      apply in_seq. unfold parameter_count. rewrite <- Hd. lia.
  - intros pid Hpid. apply List.filter_In in Hpid as [Hpid _].
    apply in_seq in Hpid. unfold parameter_count in Hpid. rewrite <- Hd in Hpid.
    unfold to_uint32. rewrite Z.mod_small by lia. now rewrite Nat2Z.id.
Qed.

End EditFacts.


(** * The properties at work on the two plugins *)

Import GainPlugin.

(** The scenario of the specification: the gain port, bounded by [0, 10]
    with default-middle, starts at 5. *)
Example gain_default :
  _default_value no_libm no_libm constructed 3 = F32.of_Z 5.
Proof. reflexivity. Qed.

(** C9, the code at a copy construction.  The gain plugin's [run] writes
    64.5 to its latency port, and the adapter the copy is made from reports
    64.  The copy constructor runs [init], probe included, and then stores
    the source's shadow value into the live slot of every port, the latency
    port among them: the copy reports 0, not the floor of what [run]
    wrote. *)
Theorem latency_lost_by_copy_construction :
  LadspaPlugin_copy loader no_libm no_libm tweaked = Some copied /\
  _latency_control_port copied = Some 4 /\
  count_events is_run (_log copied) = 1 /\
  (forall h n ctl am,
     written (run (_descriptor copied) h n ctl am).1.2 4 = Some reported_latency) /\
  to_samplecnt (F32.floor reported_latency) = Some 64%Z /\
  plugin_latency tweaked = Some 64%Z /\
  _shadow_data tweaked !!! 4 = F32.zero /\
  plugin_latency copied = Some 0%Z /\
  plugin_latency copied <> to_samplecnt (F32.floor reported_latency).
Proof.
  split; [vm_compute; reflexivity |].
  repeat (split; [reflexivity |]).
  discriminate.
Qed.

(** The write elision at work on the two zeros: the shadow value -0.0 stays
    when +0.0 is set, since the two compare equal. *)
Example set_parameter_zero_sign :
  let s := with_shadow_data constructed
             [F32.zero; F32.zero; F32.zero; F32.neg_zero; F32.zero] in
  get_parameter (set_parameter s 3 F32.zero 0) 3 = F32.neg_zero.
Proof. reflexivity. Qed.

(** The activated gain adapter, processed on its own and through
    [connect_and_run] with a one-channel input map. *)
Lemma shadow_copied_once_before_run_witness :
  allocated active /\ _was_activated active = true /\
  enters_run active (copy_shadow active) /\
  enters_run active (process_entry active one_channel one_channel 0).
Proof.
  assert (Ha : allocated active) by (split; reflexivity).
  assert (Hb : _was_activated active = true) by reflexivity.
  destruct (shadow_copied_once_before_run active probe_memory session
              host_buffers one_channel one_channel 64 0 Ha Hb) as [H1 H2].
  split; [exact Ha |]. split; [exact Hb |].
  split; [exact (proj1 H1) | exact (proj1 H2)].
Defined.

(** Setting the gain (an input port) to 7.5 and reading it back; setting
    the latency port (an output port) and reading it back. *)
Lemma get_parameter_shadow_or_live_witness :
  3 < PortCount (_descriptor constructed) /\
  allocated constructed /\
  LADSPA_IS_PORT_INPUT (port_descriptor constructed 3) = true /\
  get_parameter (set_parameter constructed 3 seven_and_a_half 0) 3 =
    seven_and_a_half /\
  LADSPA_IS_PORT_INPUT (port_descriptor constructed 4) = false /\
  get_parameter (set_parameter constructed 4 seven_and_a_half 0) 4 =
    get_parameter constructed 4.
Proof.
  assert (H1 : 3 < PortCount (_descriptor constructed)) by (simpl; lia).
  assert (H2 : allocated constructed) by (split; reflexivity).
  assert (H3 : LADSPA_IS_PORT_INPUT (port_descriptor constructed 3) = true)
    by reflexivity.
  assert (H4 : LADSPA_IS_PORT_INPUT (port_descriptor constructed 4) = false)
    by reflexivity.
  split; [exact H1 |]. split; [exact H2 |]. split; [exact H3 |]. split.
  - destruct (get_parameter_shadow_or_live constructed 3 seven_and_a_half 0)
      as (_ & Hset & _).
    destruct (Hset H1 H2 H3) as [Heq _]. rewrite Heq. reflexivity.
  - split; [exact H4 |].
    destruct (get_parameter_shadow_or_live constructed 4 seven_and_a_half 0)
      as (_ & _ & Hout).
    exact (Hout H4).
Defined.

(** An index out of range, the value the gain already has, and a new
    value for the gain. *)
Lemma set_parameter_cases_witness :
  PortCount (_descriptor constructed) <= 7 /\
  _shadow_data (set_parameter constructed 7 seven_and_a_half 0) =
    _shadow_data constructed /\
  3 < PortCount (_descriptor constructed) /\
  F32.eqb (get_parameter constructed 3) (F32.of_Z 5) = true /\
  set_parameter constructed 3 (F32.of_Z 5) 0 = constructed /\
  F32.eqb (get_parameter constructed 3) seven_and_a_half = false /\
  _shadow_data (set_parameter constructed 3 seven_and_a_half 0) =
    <[3 := seven_and_a_half]> (_shadow_data constructed).
Proof.
  assert (H1 : PortCount (_descriptor constructed) <= 7) by (simpl; lia).
  assert (H2 : 3 < PortCount (_descriptor constructed)) by (simpl; lia).
  assert (H3 : F32.eqb (get_parameter constructed 3) (F32.of_Z 5) = true)
    by reflexivity.
  assert (H4 : F32.eqb (get_parameter constructed 3) seven_and_a_half = false)
    by reflexivity.
  split; [exact H1 |]. split.
  - destruct (set_parameter_cases constructed 7 seven_and_a_half 0)
      as (Hout & _).
    exact (proj1 (Hout H1)).
  - split; [exact H2 |]. split; [exact H3 |]. split.
    + destruct (set_parameter_cases constructed 3 (F32.of_Z 5) 0)
        as (_ & Hsame & _).
      exact (Hsame H2 H3).
    + split; [exact H4 |].
      destruct (set_parameter_cases constructed 3 seven_and_a_half 0)
        as (_ & _ & Hnew & _).
      exact (proj1 (Hnew H2 H4)).
Defined.

(** The scenario of the specification: the gain set to 7.5, saved, and
    loaded into a second adapter of the gain plugin. *)
Lemma state_round_trip_witness :
  init loader no_libm no_libm "gain.so" 0 48000 = Some constructed /\
  (3000 <= 7002)%Z /\
  exists status loaded,
    set_state no_legacy constructed
      (add_state (set_parameter constructed 3 seven_and_a_half 0) new_state_node)
      7002 = Some (status, loaded) /\
    F32.same_value (_shadow_data loaded !!! 3) seven_and_a_half.
Proof.
  assert (H1 : init loader no_libm no_libm "gain.so" 0 48000 = Some constructed)
    by (vm_compute; reflexivity).
  assert (H2 : (3000 <= 7002)%Z) by lia.
  split; [exact H1 |]. split; [exact H2 |].
  destruct (state_round_trip loader no_libm no_libm no_legacy
              "gain.so" "gain.so" 0 0 48000 48000
              [(3, seven_and_a_half, 0%Z)] 7002 constructed constructed
              H1 H1 eq_refl H2)
    as (_ & _ & _ & status & loaded & Hset & Hshadow).
  exists status, loaded. split; [exact Hset |].
  exact (proj2 (Hshadow 3 eq_refl)).
Defined.

(** The frequency port of the oscillator: default-440 together with the
    sample-rate flag, at 48000 Hz. *)
Lemma default_value_literal_witness :
  let hd := HintDescriptor (port_range_hints OscPlugin.loaded !!! 0) in
  LADSPA_IS_HINT_HAS_DEFAULT hd = true /\
  LADSPA_IS_HINT_DEFAULT_440 hd = true /\
  LADSPA_IS_HINT_SAMPLE_RATE hd = true /\
  _default_value no_libm no_libm OscPlugin.loaded 0 = F32.of_Z 440.
Proof.
  split; [reflexivity |]. split; [reflexivity |]. split; [reflexivity |].
  destruct (default_value_literal no_libm no_libm OscPlugin.loaded 0 eq_refl)
    as (_ & _ & _ & H440).
  exact (H440 eq_refl).
Defined.

(** The pan port of the oscillator: no default, bounded by [-1, 1], with
    the sample-rate flag. *)
Lemma default_value_bounded_both_witness :
  let prh := port_range_hints OscPlugin.loaded !!! 1 in
  LADSPA_IS_HINT_HAS_DEFAULT (HintDescriptor prh) = false /\
  LADSPA_IS_HINT_BOUNDED_BELOW (HintDescriptor prh) = true /\
  LADSPA_IS_HINT_BOUNDED_ABOVE (HintDescriptor prh) = true /\
  F32.ltb (LowerBound prh) F32.zero = true /\
  F32.ltb F32.zero (UpperBound prh) = true /\
  exists v,
    _default_value no_libm no_libm OscPlugin.loaded 1 =
      F32.mul v (F32.of_Z 48000) /\
    v = F32.zero.
Proof.
  repeat (split; [reflexivity |]).
  destruct (default_value_bounded_both no_libm no_libm OscPlugin.loaded 1
              eq_refl eq_refl eq_refl) as (v & Hv & Hzero & _).
  exists v. split; [exact Hv | exact (Hzero eq_refl eq_refl)].
Defined.


(** The gain adapter reports the floor of its latency port, and the
    constructor finds that port. *)
Lemma latency_reported_on_gain :
  _latency_control_port loaded = Some 4 /\
  plugin_latency loaded = to_samplecnt (F32.floor (_control_data loaded !!! 4)) /\
  init loader no_libm no_libm "gain.so" 0 48000 = Some constructed /\
  is_latency_port constructed 4 = true.
Proof.
  assert (H1 : _latency_control_port loaded = Some 4) by reflexivity.
  assert (H2 : init loader no_libm no_libm "gain.so" 0 48000 = Some constructed)
    by (vm_compute; reflexivity).
  destruct (latency_reported loader no_libm no_libm loaded "gain.so" 0 48000
              constructed) as (Hfloor & _ & Hinit).
  split; [exact H1 |]. split; [exact (Hfloor 4 H1) |]. split; [exact H2 |].
  exact (proj1 (Hinit H2)).
Defined.

(** Copying the adapter whose gain was set to 7.5 while its live gain is 9:
    the copy's live and shadow gain are both 7.5. *)
Lemma copy_takes_shadow_witness :
  LadspaPlugin_copy loader no_libm no_libm tweaked = Some copied /\
  _control_data tweaked !!! 3 = F32.of_Z 9 /\
  _control_data copied !!! 3 = _shadow_data tweaked !!! 3 /\
  _shadow_data copied !!! 3 = _shadow_data tweaked !!! 3.
Proof.
  assert (H1 : LadspaPlugin_copy loader no_libm no_libm tweaked = Some copied)
    by (vm_compute; reflexivity).
  split; [exact H1 |]. split; [reflexivity |].
  destruct (copy_takes_shadow loader no_libm no_libm tweaked copied H1)
    as (_ & _ & _ & Hcopy & _).
  apply Hcopy. unfold parameter_count. simpl. lia.
Defined.

(** * The further properties at work on the plugins *)

Import Scenarios.

(** The gain plugin has two control ports, the gain and the latency port:
    the second is port 4, and there is no third. *)
Lemma nth_parameter_ok_witness :
  1 < control_rank loaded (PortCount (_descriptor loaded)) /\
  (exists x, nth_parameter loaded 1 = (x, true) /\ control_rank loaded x = 1) /\
  control_rank loaded (PortCount (_descriptor loaded)) <= 2 /\
  nth_parameter loaded 2 = (0, false).
Proof.
  assert (H1 : 1 < control_rank loaded (PortCount (_descriptor loaded)))
    by (vm_compute; lia).
  assert (H2 : control_rank loaded (PortCount (_descriptor loaded)) <= 2)
    by (vm_compute; lia).
  split; [exact H1 |]. split.
  - destruct (nth_parameter_ok loaded 1) as [Hfound _].
    destruct (Hfound H1) as (x & Hx & _ & _ & Hr). exists x. now split.
  - split; [exact H2 |].
    destruct (nth_parameter_ok loaded 2) as [_ Hnone]. exact (Hnone H2).
Defined.

(** The latency port is a control port with one control port below it. *)
Lemma nth_parameter_inverts_rank_witness :
  parameter_is_control loaded 4 = true /\ control_rank loaded 4 = 1 /\
  nth_parameter loaded 1 = (4, true).
Proof.
  assert (H1 : parameter_is_control loaded 4 = true) by reflexivity.
  assert (H2 : control_rank loaded 4 = 1) by reflexivity.
  split; [exact H1 |]. split; [exact H2 |].
  exact (proj2 (nth_parameter_inverts_rank loaded 1 4) (conj H1 H2)).
Defined.

(** The gain is the one automatable parameter of the gain plugin, and the
    one port [add_state] saves. *)
Lemma automatable_input_control_ports_witness :
  automatable loaded = [Evoral_Parameter PluginAutomation 0 3] /\
  map pn_number (xml_children (add_state loaded new_state_node)) = [Some 3].
Proof.
  destruct (automatable_input_control_ports loaded) as (Hports & _ & _ & Hsaved).
  split; [exact Hports |]. rewrite Hsaved, Hports. reflexivity.
Defined.

(** The gain parameter is described by its port name, a parameter of
    another kind and port 7 by ["??"]. *)
Lemma describe_parameter_names_witness :
  In (Evoral_Parameter PluginAutomation 0 3) (automatable loaded) /\
  describe_parameter loaded (Evoral_Parameter PluginAutomation 0 3) = "gain"%string /\
  parameter_count loaded <= 7 /\
  describe_parameter loaded (Evoral_Parameter PluginAutomation 0 7) = "??"%string /\
  describe_parameter loaded (Evoral_Parameter (OtherAutomation 1) 0 3) = "??"%string.
Proof.
  assert (H1 : In (Evoral_Parameter PluginAutomation 0 3) (automatable loaded))
    by (left; reflexivity).
  assert (H2 : parameter_count loaded <= 7) by (vm_compute; lia).
  split; [exact H1 |]. split; [| split; [exact H2 | split]].
  - destruct (describe_parameter_names loaded (Evoral_Parameter PluginAutomation 0 3))
      as [Hname _].
    exact (Hname H1).
  - destruct (describe_parameter_names loaded (Evoral_Parameter PluginAutomation 0 7))
      as [_ Hnone].
    exact (Hnone (or_intror H2)).
  - destruct (describe_parameter_names loaded
                (Evoral_Parameter (OtherAutomation 1) 0 3)) as [_ Hnone].
    apply Hnone. left. discriminate.
Defined.

(** Port 7 of the gain plugin, which has five ports. *)
Lemma port_out_of_range_witness :
  PortCount (_descriptor loaded) <= 7 /\
  parameter_is_input loaded 7 = false /\
  forall n, nth_parameter loaded n <> (7, true).
Proof.
  assert (H1 : PortCount (_descriptor loaded) <= 7) by (simpl; lia).
  destruct (port_out_of_range loaded 7 H1) as (_ & _ & Hin & _ & _ & _ & Hnth).
  split; [exact H1 |]. split; [exact Hin | exact Hnth].
Defined.

(** The gain module: it opens, has the symbol and a descriptor at index 0,
    and instantiates. *)
Lemma init_fails_only_on_load_witness :
  module_opened (loader "gain.so") = true /\
  exists a,
    init loader no_libm no_libm "gain.so" 0 48000 = Some a /\
    LadspaPluginInfo_load loader no_libm no_libm
      {| path := "gain.so"; index := 0 |} 48000 = Some a.
Proof.
  assert (H1 : module_opened (loader "gain.so") = true) by reflexivity.
  split; [exact H1 |].
  destruct (init_fails_only_on_load loader no_libm no_libm "gain.so" 0 48000)
    as [_ Hloads].
  apply (Hloads (fun index => if index =? 0 then Some descriptor else None)
                descriptor (fun _ => Some 0) 0).
  repeat (split; [reflexivity |]). reflexivity.
Defined.

(** The gain port of the constructed adapter starts at its default, 5. *)
Lemma init_seeds_defaults_witness :
  init loader no_libm no_libm "gain.so" 0 48000 = Some constructed /\
  3 < PortCount (_descriptor constructed) /\
  is_input_control constructed 3 = true /\
  get_parameter constructed 3 = F32.of_Z 5.
Proof.
  assert (H1 : init loader no_libm no_libm "gain.so" 0 48000 = Some constructed)
    by (vm_compute; reflexivity).
  assert (H2 : 3 < PortCount (_descriptor constructed)) by (simpl; lia).
  assert (H3 : is_input_control constructed 3 = true) by reflexivity.
  split; [exact H1 |]. split; [exact H2 |]. split; [exact H3 |].
  destruct (init_seeds_defaults loader no_libm no_libm "gain.so" 0 48000
              constructed H1 3 H2) as (_ & _ & Hget & _).
  rewrite (Hget H3). reflexivity.
Defined.

(** The constructed gain adapter, whose latency was probed, is not
    activated. *)
Lemma constructed_not_activated_witness :
  init loader no_libm no_libm "gain.so" 0 48000 = Some constructed /\
  _was_activated constructed = false /\
  run_in_place constructed probe_memory 64 = None.
Proof.
  assert (H1 : init loader no_libm no_libm "gain.so" 0 48000 = Some constructed)
    by (vm_compute; reflexivity).
  split; [exact H1 |].
  destruct (constructed_not_activated loader no_libm no_libm "gain.so" 0 48000
              constructed probe_memory session host_buffers one_channel
              one_channel 64 0 H1) as (Hoff & Hrun & _).
  split; [exact Hoff | exact Hrun].
Defined.

(** The constructed gain adapter after a [set_parameter] and after a
    preset. *)
Lemma allocated_preserved_witness :
  allocated constructed /\
  allocated (set_parameter constructed 3 seven_and_a_half 0) /\
  allocated (load_preset archive constructed loud).2.
Proof.
  assert (H1 : allocated constructed) by (split; reflexivity).
  destruct (allocated_preserved no_legacy archive constructed H1)
    as (Hset & _ & _ & _ & _ & _ & _ & Hpreset).
  split; [exact H1 |]. split; [apply Hset | apply Hpreset].
Defined.

(** A processing call on the activated gain adapter leaves the gain as
    [get_parameter] reports it. *)
Lemma processing_keeps_shadow_witness :
  allocated active /\
  exists r,
    run_in_place active probe_memory 64 = Some r /\
    parameter_is_input active 3 = true /\
    get_parameter r.1 3 = get_parameter active 3.
Proof.
  assert (H1 : allocated active) by (split; reflexivity).
  split; [exact H1 |].
  destruct (run_in_place active probe_memory 64) as [r |] eqn:Hrun;
    [| vm_compute in Hrun; discriminate].
  exists r. split; [reflexivity |]. split; [reflexivity |].
  destruct (processing_keeps_shadow active H1) as [Hrip _].
  destruct (Hrip probe_memory 64 r Hrun) as [_ Hget].
  apply Hget. reflexivity.
Defined.

(** A document tagged ["lv2"]. *)
Lemma set_state_rejects_other_tag_witness :
  (3000 <= 7002)%Z /\
  xml_name foreign_document <> state_node_name /\
  exists a,
    set_state no_legacy constructed foreign_document 7002 = Some ((-1)%Z, a) /\
    forget_log a = forget_log constructed.
Proof.
  assert (H1 : (3000 <= 7002)%Z) by lia.
  assert (H2 : xml_name foreign_document <> state_node_name) by discriminate.
  split; [exact H1 |]. split; [exact H2 |].
  destruct (set_state_rejects_other_tag no_legacy constructed foreign_document
              7002 H1 H2) as (a & Hset & Hsame & _).
  exists a. now split.
Defined.


(** The preset sets the gain to 7.5, the last value it gives for port 3
    as a [uint32_t], leaves the latency port alone and draws one warning,
    for port 9. *)
Lemma load_preset_sets_inputs_witness :
  allocated constructed /\
  archive (uri loud) =
    Some [(3, F32.of_Z 9); (4, F32.c1); (9, F32.c1);
          (2 ^ 32 + 3, seven_and_a_half)]%Z /\
  _control_data (load_preset archive constructed loud).2 =
    _control_data constructed /\
  count_events is_warning (_log (load_preset archive constructed loud).2) =
    count_events is_warning (_log constructed) + 1 /\
  F32.same_value (_shadow_data (load_preset archive constructed loud).2 !!! 3)
                 seven_and_a_half /\
  _shadow_data (load_preset archive constructed loud).2 !!! 4 =
    _shadow_data constructed !!! 4.
Proof.
  assert (H1 : allocated constructed) by (split; reflexivity).
  assert (H2 : archive (uri loud) =
               Some [(3, F32.of_Z 9); (4, F32.c1); (9, F32.c1);
                     (2 ^ 32 + 3, seven_and_a_half)]%Z) by reflexivity.
  split; [exact H1 |]. split; [exact H2 |].
  destruct (load_preset_sets_inputs archive constructed loud _ H1 H2)
    as (_ & Hlive & Hwarn & Hshadow).
  split; [exact Hlive |]. split; [exact Hwarn |]. split.
  - exact (Hshadow 3).
  - exact (Hshadow 4).
Defined.

(** The defaults of the first two ports of the range plugin: the sample
    rate itself. *)
Lemma default_value_unmatched_witness :
  let hd0 := HintDescriptor (port_range_hints RangePlugin.constructed !!! 0) in
  let hd1 := HintDescriptor (port_range_hints RangePlugin.constructed !!! 1) in
  LADSPA_IS_HINT_HAS_DEFAULT hd0 = true /\
  recognised_default hd0 = false /\
  _default_value no_libm no_libm RangePlugin.constructed 0 = F32.of_Z 48000 /\
  LADSPA_IS_HINT_HAS_DEFAULT hd1 = false /\
  LADSPA_IS_HINT_BOUNDED_BELOW hd1 = false /\
  LADSPA_IS_HINT_BOUNDED_ABOVE hd1 = false /\
  _default_value no_libm no_libm RangePlugin.constructed 1 = F32.of_Z 48000.
Proof.
  split; [reflexivity |]. split; [reflexivity |]. split.
  - destruct (default_value_unmatched no_libm no_libm RangePlugin.constructed 0)
      as [_ Hodd].
    exact (Hodd eq_refl eq_refl).
  - repeat (split; [reflexivity |]).
    destruct (default_value_unmatched no_libm no_libm RangePlugin.constructed 1)
      as [Hnone _].
    exact (Hnone eq_refl eq_refl eq_refl).
Defined.

(** Default-minimum with the bounds 2 and 8, and default-maximum 3 with
    the sample-rate flag at 48000 Hz. *)
Lemma default_value_minimum_maximum_witness :
  LADSPA_IS_HINT_DEFAULT_MINIMUM
    (HintDescriptor (port_range_hints RangePlugin.constructed !!! 2)) = true /\
  _default_value no_libm no_libm RangePlugin.constructed 2 = F32.of_Z 2 /\
  LADSPA_IS_HINT_DEFAULT_MAXIMUM
    (HintDescriptor (port_range_hints RangePlugin.constructed !!! 3)) = true /\
  _default_value no_libm no_libm RangePlugin.constructed 3 = F32.of_Z 144000.
Proof.
  split; [reflexivity |]. split.
  - destruct (default_value_minimum_maximum no_libm no_libm
                RangePlugin.constructed 2) as [Hmin _].
    exact (Hmin eq_refl).
  - split; [reflexivity |].
    destruct (default_value_minimum_maximum no_libm no_libm
                RangePlugin.constructed 3) as [_ Hmax].
    rewrite (Hmax eq_refl). reflexivity.
Defined.

(** The port of the range plugin bounded by [-1, 1]: its default lies
    within. *)
Lemma default_value_respects_bounds_witness :
  let prh := port_range_hints RangePlugin.constructed !!! 6 in
  LADSPA_IS_HINT_HAS_DEFAULT (HintDescriptor prh) = false /\
  LADSPA_IS_HINT_BOUNDED_BELOW (HintDescriptor prh) = true /\
  LADSPA_IS_HINT_BOUNDED_ABOVE (HintDescriptor prh) = true /\
  SFleb (LowerBound prh) (UpperBound prh) = true /\
  exists v,
    _default_value no_libm no_libm RangePlugin.constructed 6 = v /\
    within (LowerBound prh) v (UpperBound prh).
Proof.
  repeat (split; [reflexivity |]).
  destruct (default_value_respects_bounds no_libm no_libm
              RangePlugin.constructed 6 eq_refl eq_refl)
    as (v & Hv & _ & _ & _ & Hboth).
  exists v. split; [exact Hv | exact (Hboth eq_refl eq_refl eq_refl)].
Defined.

(** The gain of the activated adapter set to 7.5: the value [run] is
    entered with. *)
Lemma set_parameter_reaches_run_witness :
  allocated active /\ _was_activated active = true /\
  is_input_control active 3 = true /\
  _control_data (set_parameter active 3 seven_and_a_half 0) = _control_data active /\
  F32.same_value
    (_control_data (copy_shadow (set_parameter active 3 seven_and_a_half 0)) !!! 3)
    seven_and_a_half.
Proof.
  assert (H1 : allocated active) by (split; reflexivity).
  assert (H2 : _was_activated active = true) by reflexivity.
  assert (H3 : is_input_control active 3 = true) by reflexivity.
  split; [exact H1 |]. split; [exact H2 |]. split; [exact H3 |].
  destruct (set_parameter_reaches_run active 3 seven_and_a_half 0 probe_memory 64
              H1 H2 H3) as (Hlive & _ & Hentry & _).
  split; [exact Hlive | exact Hentry].
Defined.

(** The latency port, an output, set to 7.5: [run] is entered as without
    the edit. *)
Lemma set_parameter_not_control_input_witness :
  allocated active /\
  is_input_control active 4 = false /\
  _control_data (copy_shadow (set_parameter active 4 seven_and_a_half 0)) =
    _control_data (copy_shadow active).
Proof.
  assert (H1 : allocated active) by (split; reflexivity).
  assert (H2 : is_input_control active 4 = false) by reflexivity.
  split; [exact H1 |]. split; [exact H2 |].
  destruct (set_parameter_not_control_input active 4 seven_and_a_half 0
              probe_memory 64 H1 H2) as (_ & Hlive & _).
  exact Hlive.
Defined.

(** The preset saved from the adapter whose gain is 7.5, loaded into the
    constructed adapter. *)
Lemma preset_round_trip_witness :
  allocated constructed /\
  _descriptor constructed = _descriptor tweaked /\
  (Z.of_nat (PortCount (_descriptor constructed)) <= 2 ^ 32)%Z /\
  parameter_is_input constructed 3 = true /\
  F32.same_value
    (get_parameter (load_preset saved_archive constructed loud).2 3)
    seven_and_a_half.
Proof.
  assert (H1 : allocated constructed) by (split; reflexivity).
  assert (H2 : _descriptor constructed = _descriptor tweaked) by reflexivity.
  assert (H3 : (Z.of_nat (PortCount (_descriptor constructed)) <= 2 ^ 32)%Z)
    by (vm_compute; discriminate).
  assert (H4 : parameter_is_input constructed 3 = true) by reflexivity.
  split; [exact H1 |]. split; [exact H2 |]. split; [exact H3 |].
  split; [exact H4 |].
  destruct (preset_round_trip saved_archive tweaked constructed loud H1 H2 H3
              eq_refl) as [_ Hget].
  exact (Hget 3 H4).
Defined.

(** The activated gain adapter has a latency port: the probe leaves it
    deactivated. *)
Lemma latency_probe_deactivates_witness :
  allocated active /\
  _latency_control_port active = Some 4 /\
  _was_activated active = true /\
  exists a, latency_compute_run active = Some a /\ _was_activated a = false.
Proof.
  assert (H1 : allocated active) by (split; reflexivity).
  assert (H2 : _latency_control_port active = Some 4) by reflexivity.
  split; [exact H1 |]. split; [exact H2 |]. split; [reflexivity |].
  destruct (latency_probe_deactivates no_legacy active new_state_node 7002 4
              H1 H2) as [(a & Hrun & Hoff & _) _].
  exists a. now split.
Defined.

(** The damaged document: its one usable entry for the gain sets it to
    7.5. *)
Lemma set_state_last_entry_wins_witness :
  allocated constructed /\
  (3000 <= 7002)%Z /\
  xml_name damaged_document = state_node_name /\
  parameter_is_input constructed 3 = true /\
  exists a,
    set_state no_legacy constructed damaged_document 7002 = Some (0%Z, a) /\
    F32.same_value (get_parameter a 3) seven_and_a_half.
Proof.
  assert (H1 : allocated constructed) by (split; reflexivity).
  assert (H2 : (3000 <= 7002)%Z) by lia.
  assert (H3 : xml_name damaged_document = state_node_name) by reflexivity.
  assert (H4 : parameter_is_input constructed 3 = true) by reflexivity.
  split; [exact H1 |]. split; [exact H2 |]. split; [exact H3 |].
  split; [exact H4 |].
  destruct (set_state_last_entry_wins no_legacy constructed damaged_document
              7002 H1 H2 H3) as (a & Hset & Hlast).
  exists a. split; [exact Hset | exact (Hlast 3 H4)].
Defined.
